(** * H-hat IR graph: perfect-hash index, symbol tables and graph orchestrator

    A shallow embedding of [hhat_lang/core/code/utils.py], [abstract.py],
    [base.py], [symbol_table.py] and [ir_graph.py], followed by the properties
    proved about them.

    Python integers are unbounded, so they are [Z]; [^], [>>] and [%] are
    [Z.lxor], [Z.shiftr] and [Z.modulo], which agree with Python on negative
    operands (two's complement, floor semantics).  A function that may raise
    returns a [result]; a method that mutates its object returns the new
    object next to the [result]. *)

From Stdlib Require Import String.
From Stdlib Require Import ZArith List Bool Lia Permutation Znumtheory.
Import ListNotations.
Local Open Scope string_scope.
Local Open Scope list_scope.
Local Open Scope Z_scope.

Set Implicit Arguments.

(** ** Exceptions *)

Inductive exn : Type :=
| ValueError (msg : string)
| IndexError
| KeyError
| ZeroDivisionError
| TypeError
| AttributeError (attr : string).

Inductive result (A : Type) : Type :=
| Ok (a : A)
| Raise (e : exn).

Arguments Ok {A} a.
Arguments Raise {A} e.

Definition bind {A B : Type} (m : result A) (k : A -> result B) : result B :=
  match m with
  | Ok a => k a
  | Raise e => Raise e
  end.

Notation "x <- m ;; k" := (bind m (fun x => k))
  (at level 61, m at next level, right associativity).

Definition raises {A : Type} (m : result A) : Prop :=
  exists e, m = Raise e.

(** ** The Python runtime

    [hash] of a [str], of a [pathlib.Path], of an [int], of a tuple (as a
    function of its elements' hashes) and of [None] are the interpreter's;
    [sys.maxsize] is the platform's.  The program is modelled over any such runtime. *)

Definition Path : Type := string.

Record PyRuntime : Type := {
  hash_str : string -> Z;
  hash_path : Path -> Z;
  hash_int : Z -> Z;
  hash_tuple : list Z -> Z;
  hash_none : Z;
  sys_maxsize : Z
}.

(** ** Python sequence indexing: [l[i]] and [l[i] = v], negative indices count
    from the end, anything else out of range raises [IndexError]. *)

Definition norm_index (len i : Z) : Z := if i <? 0 then i + len else i.

Definition py_getitem {A : Type} (l : list A) (i : Z) : result A :=
  let j := norm_index (Z.of_nat (length l)) i in
  if j <? 0 then Raise IndexError
  else match nth_error l (Z.to_nat j) with
       | Some x => Ok x
       | None => Raise IndexError
       end.

Fixpoint list_set {A : Type} (l : list A) (k : nat) (v : A) : list A :=
  match l, k with
  | [], _ => []
  | _ :: t, O => v :: t
  | x :: t, S k' => x :: list_set t k' v
  end.

Definition py_setitem {A : Type} (l : list A) (i : Z) (v : A) : result (list A) :=
  let j := norm_index (Z.of_nat (length l)) i in
  if (j <? 0) || (Z.of_nat (length l) <=? j) then Raise IndexError
  else Ok (list_set l (Z.to_nat j) v).

(** [p >> r] and [a % b] with the errors Python raises. *)

Definition py_rshift (p r : Z) : result Z :=
  if r <? 0 then Raise (ValueError "negative shift count") else Ok (Z.shiftr p r).

Definition py_mod (a b : Z) : result Z :=
  if b =? 0 then Raise ZeroDivisionError else Ok (a mod b).

(** [for i in range(start, start + count): body], where the body either goes on
    ([None]), returns from the enclosing function ([Some b]) or raises. *)

Fixpoint for_range {B : Type} (body : Z -> result (option B)) (start : Z) (count : nat)
  : result (option B) :=
  match count with
  | O => Ok None
  | S k =>
      x <- body start ;;
      match x with
      | Some b => Ok (Some b)
      | None => for_range body (start + 1) k
      end
  end.

(** ** utils.py: the perfect hash function (PHF) section *)

Definition get_phf_prime (tuple_len : Z) : Z :=
  if tuple_len <=? 2 ^ 5 then 37
  else if tuple_len <=? 2 ^ 6 then 67
  else if tuple_len <=? 2 ^ 8 then 257
  else if tuple_len <=? 2 ^ 12 then 4099
  else if tuple_len <=? 2 ^ 14 then 16411
  else 1048583.

Definition PHF_A_LIMIT : Z := 1000000.

Definition PHF_R_LIMIT (py : PyRuntime) : Z :=
  if sys_maxsize py >? 2 ^ 64 then 127 else 61.

Record ResultPHF : Type := mkResultPHF {
  phf_a : Z;
  phf_r : Z;
  phf_prime : Z;
  phf_n : Z
}.

Definition get_hash_with_args (value a r n prime : Z) : result Z :=
  let p := value * a in
  s <- py_rshift p r ;;
  m <- py_mod (Z.lxor p s) prime ;;
  py_mod m n.

Definition get_hash (value : Z) (phf : ResultPHF) : result Z :=
  let p := value * phf_a phf in
  s <- py_rshift p (phf_r phf) ;;
  m <- py_mod (Z.lxor p s) (phf_prime phf) ;;
  py_mod m (phf_n phf).

(** [typing.Hashable]: what [gen_phf] asks of its items, [hash(x)] and
    [x == y].  ([x in list] is identity or [==]; an object is identified with
    its value here, and [==] holds between an object and itself for every
    class this program puts in a PHF.)  [_gen_res_a_r_phf] marks an empty slot
    with [None], so its membership tests also compare items with [None]:
    [py_eq_None x] is [x == None], which is what [None == x] answers too,
    since [None] leaves the comparison to [x].  It holds of [None] itself and
    of an object whose [__eq__] accepts [None]. *)

Class Hashable (A : Type) : Type := {
  py_hash : A -> Z;
  py_eq : A -> A -> bool;
  py_eq_None : A -> bool
}.

Section PHF.
Context {A : Type} `{Hashable A}.

(** [e is None], for an entry of the list of slots. *)
Definition is_None (e : option A) : bool :=
  match e with None => true | Some _ => false end.

(** [obj in res_list], for a list whose entries are [None] or items: an
    entry matches when it [==] the object, the marker [None] included. *)
Definition in_res_list (obj : A) (res_list : list (option A)) : bool :=
  existsb (fun e => match e with Some x => py_eq x obj | None => py_eq_None obj end)
          res_list.

(** [None in res_list] *)
Definition None_in_res_list (res_list : list (option A)) : bool :=
  existsb (fun e => match e with Some x => py_eq_None x | None => true end) res_list.

(** [tuple(res_list)] for a list without [None]. *)
Fixpoint items_of (res_list : list (option A)) : list A :=
  match res_list with
  | [] => []
  | Some x :: t => x :: items_of t
  | None :: t => items_of t
  end.

(** The [for obj in group_tuple] loop of [_gen_res_a_r_phf]: the final
    [(collision, res_list)]. *)
Fixpoint place_items (group_tuple : list A) (tuple_len a r prime : Z)
         (res_list : list (option A)) : result (bool * list (option A)) :=
  match group_tuple with
  | [] => Ok (false, res_list)
  | obj :: rest =>
      h <- get_hash_with_args (py_hash obj) a r tuple_len prime ;;
      if negb (in_res_list obj res_list) then
        slot <- py_getitem res_list h ;;
        match slot with
        | None =>
            res_list' <- py_setitem res_list h (Some obj) ;;
            place_items rest tuple_len a r prime res_list'
        | Some _ => Ok (true, res_list)
        end
      else Ok (true, res_list)
  end.

Definition _gen_res_a_r_phf (group_tuple : list A) (tuple_len a r prime : Z)
  : result (list A) :=
  cr <- place_items group_tuple tuple_len a r prime
          (repeat None (Z.to_nat tuple_len)) ;;
  let '(collision, res_list) := cr in
  if negb collision && negb (None_in_res_list res_list)
  then Ok (items_of res_list)
  else Ok [].

(** The body of the inner loop of [gen_phf] for one candidate [(a, r)]:
    [Some] is the [return], [None] goes on to the next candidate. *)
Definition gen_phf_candidate (group_tuple : list A) (tuple_len prime a r : Z)
  : result (option (list A * ResultPHF)) :=
  res_list <- _gen_res_a_r_phf group_tuple tuple_len a r prime ;;
  match res_list with
  | [] => Ok None
  | _ :: _ => Ok (Some (res_list, mkResultPHF a r prime tuple_len))
  end.

Definition gen_phf (py : PyRuntime) (group_tuple : list A)
  : result (list A * ResultPHF) :=
  let tuple_len := Z.of_nat (length group_tuple) in
  let prime := get_phf_prime tuple_len in
  found <- for_range
             (fun a =>
                for_range (gen_phf_candidate group_tuple tuple_len prime a)
                          0 (Z.to_nat (PHF_R_LIMIT py)))
             1 (Z.to_nat (PHF_A_LIMIT - 1)) ;;
  match found with
  | Some res => Ok res
  | None =>
      Raise (ValueError
               "could not find satisfactory parameter values to generate the PHF")
  end.
End PHF.

(** ** data/core.py, code/base.py, types, data: the values stored in tables

    [Symbol], [CompositeSymbol] and [FnHeader] cache [hash(...)] at
    construction and compare by it. *)

Record Symbol : Type := mkSymbol {
  sym_value : string;
  sym_is_quantum : bool;
  sym_hash_value : Z
}.

Definition Symbol_init (py : PyRuntime) (value : string) : Symbol :=
  {| sym_value := value;
     sym_is_quantum := String.prefix "@" value;
     sym_hash_value := hash_str py value |}.

Inductive CompositeGroup : Type := SymbolAttrs | LiteralArray.

Record CompositeSymbol : Type := mkCompositeSymbol {
  cs_value : list Symbol;
  cs_type : CompositeGroup;
  cs_is_quantum : bool;
  cs_hash_value : Z
}.

Definition hash_CompositeGroup (py : PyRuntime) (g : CompositeGroup) : Z :=
  match g with
  | SymbolAttrs => hash_str py "SymbolAttrs"
  | LiteralArray => hash_str py "LiteralArray"
  end.

Definition CompositeSymbol_init (py : PyRuntime) (value : list Symbol)
  : result CompositeSymbol :=
  first <- py_getitem value 0 ;;
  let q := sym_is_quantum first in
  Ok {| cs_value := value;
        cs_type := SymbolAttrs;
        cs_is_quantum := q;
        cs_hash_value :=
          hash_tuple py [hash_int py (hash_tuple py (map sym_hash_value value));
                         hash_int py (hash_CompositeGroup py SymbolAttrs);
                         hash_int py (if q then 1 else 0)] |}.

(** [Symbol | CompositeSymbol], the key type of every table. *)
Inductive name : Type :=
| NSymbol (s : Symbol)
| NCompositeSymbol (c : CompositeSymbol).

Definition name_hash (k : name) : Z :=
  match k with
  | NSymbol s => sym_hash_value s
  | NCompositeSymbol c => cs_hash_value c
  end.

Record FnHeader : Type := mkFnHeader {
  fh_name : name;
  fh_args_types : list name;
  fh_hash_value : Z
}.

Definition FnHeader_init (py : PyRuntime) (fn_name : name) (args_types : list name)
  : FnHeader :=
  {| fh_name := fn_name;
     fh_args_types := args_types;
     fh_hash_value :=
       hash_tuple py [hash_int py (name_hash fn_name);
                      hash_int py (hash_tuple py (map name_hash args_types))] |}.

(** [TypeDef], [FnDef]/[BuiltinFnDef] and [DataDef] are abstract in the source;
    the tables only store them. *)

Record TypeDef : Type := mkTypeDef {
  td_name : Symbol;
  td_hash_value : Z
}.

Record FnDef : Type := mkFnDef {
  fd_body : Z
}.

(** [DataKind] of [data/utils.py]. *)
Inductive DataKind : Type := CONSTANT | IMMUTABLE | MUTABLE | APPENDABLE.

(** [DataDef] of [data/var_def.py], by what its header holds: the name and the
    kind.  Its subclasses [Constant], [Immutable], [Mutable] and [Appendable]
    differ by the kind. *)
Record DataDef : Type := mkDataDef {
  dd_name : name;
  dd_kind : DataKind
}.

(** [item.is_constant] on a [DataDef].  The class and its subclasses define
    the properties [name], [type], [is_quantum], [kind], [borrowed] and
    [data]; none defines [is_constant] or a [__getattr__], so the read raises
    for every item. *)
Definition DataDef_is_constant (item : DataDef) : result bool :=
  Raise (AttributeError "is_constant").

(** ** Insertion-ordered dictionaries ([dict], [OrderedDict])

    A lookup compares hashes and then [==]; for every key class used here
    [==] is itself hash equality, so an entry is found by its key's hash.
    Assigning to a present key keeps the stored key and its position. *)

Section Dict.
Variables K V : Type.
Variable key_hash : K -> Z.

Definition dict : Type := list (K * V).

Fixpoint dict_get (d : dict) (h : Z) : option V :=
  match d with
  | [] => None
  | (k, v) :: t => if key_hash k =? h then Some v else dict_get t h
  end.

Definition dict_mem (d : dict) (h : Z) : bool :=
  match dict_get d h with Some _ => true | None => false end.

Fixpoint dict_set (d : dict) (k : K) (v : V) : dict :=
  match d with
  | [] => [(k, v)]
  | (k', v') :: t =>
      if key_hash k' =? key_hash k then (k', v) :: t
      else (k', v') :: dict_set t k v
  end.

Definition dict_keys (d : dict) : list K := map fst d.
End Dict.

Arguments dict_get {K V} key_hash d h.
Arguments dict_mem {K V} key_hash d h.
Arguments dict_set {K V} key_hash d k v.
Arguments dict_keys {K V} d.

(** ** symbol_table.py and abstract.py: the records *)

Definition TypeTable : Type := dict name TypeDef.
Definition FnTable : Type := dict name (dict FnHeader FnDef).
Definition ConstTable : Type := dict name DataDef.

(** [SymbolTable]; the metamod and modifier tables repeat [FnTable] and take no
    part in what follows. *)
Record SymbolTable : Type := mkSymbolTable {
  st_type : TypeTable;
  st_fn : FnTable;
  st_const : ConstTable
}.

Definition SymbolTable_init : SymbolTable :=
  {| st_type := []; st_fn := []; st_const := [] |}.

Record IRHash : Type := mkIRHash {
  irhash_key : Path;
  irhash_uid : Z
}.

Definition IRHash_init (py : PyRuntime) (ir_path : Path) : IRHash :=
  {| irhash_key := ir_path; irhash_uid := hash_path py ir_path |}.

(** [BaseIRModule] (its [_main] block is never read here). *)
Record BaseIRModule : Type := mkIRModule {
  mod_path : Path;
  mod_symbol_table : SymbolTable
}.

Definition mod_uid (py : PyRuntime) (m : BaseIRModule) : Z :=
  hash_path py (mod_path m).

Definition RefTypeTable : Type := dict name IRHash.
Definition RefFnTable : Type := dict FnHeader IRHash.

Record RefTable : Type := mkRefTable {
  ref_types : RefTypeTable;
  ref_fns : RefFnTable
}.

Definition RefTable_init : RefTable := {| ref_types := []; ref_fns := [] |}.

Record BaseIR : Type := mkIR {
  ir_ref_table : RefTable;
  ir_module : BaseIRModule
}.

(** ** ir_graph.py: the records *)

Record IRNode : Type := mkIRNode {
  node_uid : Z;
  node_irhash : IRHash;
  node_ir : BaseIR;
  node_path : Path
}.

Definition IRNode_init (py : PyRuntime) (node : BaseIR) : IRNode :=
  let path := mod_path (ir_module node) in
  {| node_uid := mod_uid py (ir_module node);
     node_irhash := IRHash_init py path;
     node_ir := node;
     node_path := path |}.

(** [IRNode.__hash__] and [IRNode.__eq__] between two nodes.  ([hash(node)]
    is [node._uid] itself: it comes from [hash(path)], which is already a
    machine-word hash.)  [IRNode.__eq__] answers [False] to whatever is no
    [IRNode] or [IRHash], so a node never equals [None]. *)
#[export] Instance IRNode_Hashable : Hashable IRNode := {
  py_hash := node_uid;
  py_eq := fun x y => node_uid x =? node_uid y;
  py_eq_None := fun _ => false
}.

(** The objects that reach a dynamically typed parameter ([Any], or a
    parameter checked with [isinstance]). *)
Inductive pyobj : Type :=
| PyNone
| PyInt (z : Z)
| PyPath (p : Path)
| PySymbol (s : Symbol)
| PyCompositeSymbol (c : CompositeSymbol)
| PyFnHeader (f : FnHeader)
| PyTypeDef (t : TypeDef)
| PyIRHash (h : IRHash)
| PyIRNode (n : IRNode).

Record NodeSet : Type := mkNodeSet {
  ns_data : list pyobj;
  ns_phf : option ResultPHF
}.

Record IRGraph : Type := mkIRGraph {
  is_built : bool;
  nodes : NodeSet;
  tmp_nodes : list IRNode;
  main_node : option IRHash
}.

(** ** Methods *)

Section Methods.
Variable py : PyRuntime.

(** [hash(o)] *)
Definition py_hash_obj (o : pyobj) : Z :=
  match o with
  | PyNone => hash_none py
  | PyInt z => hash_int py z
  | PyPath p => hash_path py p
  | PySymbol s => sym_hash_value s
  | PyCompositeSymbol c => cs_hash_value c
  | PyFnHeader f => fh_hash_value f
  | PyTypeDef t => td_hash_value t
  | PyIRHash h => irhash_uid h
  | PyIRNode n => node_uid n
  end.

(** [isinstance(o, Symbol | CompositeSymbol)], with the key it then is. *)
Definition as_name (o : pyobj) : option name :=
  match o with
  | PySymbol s => Some (NSymbol s)
  | PyCompositeSymbol c => Some (NCompositeSymbol c)
  | _ => None
  end.

(** *** symbol_table.py: TypeTable *)

Definition TypeTable_contains (t : TypeTable) (item : pyobj) : bool :=
  dict_mem name_hash t (py_hash_obj item).

Definition TypeTable_add (t : TypeTable) (name data : pyobj)
  : TypeTable * result unit :=
  match as_name name, data with
  | Some k, PyTypeDef d =>
      if negb (TypeTable_contains t name)
      then (dict_set name_hash t k d, Ok tt)
      else (t, Ok tt)
  | _, _ =>
      (t, Raise (ValueError
                   "type must be symbol/composite symbol and its data must be known type structure"))
  end.

Definition TypeTable_get (t : TypeTable) (name : pyobj) : option TypeDef :=
  dict_get name_hash t (py_hash_obj name).

(** *** symbol_table.py: FnTable (the [FnHeader] entry, a [FnDef] datum) *)

Definition FnTable_add (t : FnTable) (fn_entry : FnHeader) (data : FnDef) : FnTable :=
  match dict_get name_hash t (name_hash (fh_name fn_entry)) with
  | Some overloads =>
      dict_set name_hash t (fh_name fn_entry)
               (dict_set fh_hash_value overloads fn_entry data)
  | None => dict_set name_hash t (fh_name fn_entry) [(fn_entry, data)]
  end.

(** What [FnTable.get] returns: an overload map, one definition, or the
    default [None]. *)
Inductive fn_lookup : Type :=
| FnsDict (d : dict FnHeader FnDef)
| FnOne (f : FnDef)
| FnDefault.

Definition FnTable_get (t : FnTable) (fn_entry : pyobj) : result fn_lookup :=
  let cannot := Raise (ValueError "cannot retrieve fn") in
  match fn_entry with
  | PySymbol _ | PyCompositeSymbol _ =>
      match dict_get name_hash t (py_hash_obj fn_entry) with
      | Some d => Ok (FnsDict d)
      | None => Ok FnDefault
      end
  | PyFnHeader f =>
      match dict_get name_hash t (name_hash (fh_name f)) with
      | Some d =>
          match dict_get fh_hash_value d (fh_hash_value f) with
          | Some x => Ok (FnOne x)
          | None => Ok FnDefault
          end
      | None => cannot
      end
  | _ => cannot
  end.

Definition FnTable_contains (t : FnTable) (item : pyobj) : result bool :=
  match item with
  | PySymbol _ | PyCompositeSymbol _ => Ok (dict_mem name_hash t (py_hash_obj item))
  | PyFnHeader f =>
      match dict_get name_hash t (name_hash (fh_name f)) with
      | Some d => Ok (dict_mem fh_hash_value d (fh_hash_value f))
      | None => Raise KeyError
      end
  | _ => Ok false
  end.

(** *** symbol_table.py: ConstTable *)

(** [ConstTable.add]: the item is a [DataDef], so the condition reads
    [item.is_constant]; the [raise] that follows the [if] is not in an [else]. *)
Definition ConstTable_add (t : ConstTable) (item : DataDef)
  : ConstTable * result unit :=
  match DataDef_is_constant item with
  | Ok is_constant =>
      let t' := if is_constant then dict_set name_hash t (dd_name item) item else t in
      (t', Raise (ValueError "data must be constant to be added to ConstTable"))
  | Raise e => (t, Raise e)
  end.

Definition ConstTable_get (t : ConstTable) (item : name) : option DataDef :=
  dict_get name_hash t (name_hash item).

(** *** abstract.py *)

Definition IRHash_eq (x y : IRHash) : bool := irhash_uid x =? irhash_uid y.

Definition BaseIRModule_contains (m : BaseIRModule) (item : pyobj) : result bool :=
  if TypeTable_contains (st_type (mod_symbol_table m)) item then Ok true
  else FnTable_contains (st_fn (mod_symbol_table m)) item.

Definition RefTypeTable_add_ref (t : RefTypeTable) (type_name : name) (ir_path : Path)
  : RefTypeTable :=
  dict_set name_hash t type_name (IRHash_init py ir_path).

Definition RefFnTable_add_ref (t : RefFnTable) (fn_name : FnHeader) (ir_path : Path)
  : RefFnTable :=
  dict_set fh_hash_value t fn_name (IRHash_init py ir_path).

(** *** ir_graph.py: IRNode *)

(** [item == path] for a [Path]: [Symbol] and [CompositeSymbol] compare
    hashes with anything, a [Path] compares as a path, every other class
    answers [False] to a [Path]. *)
Definition py_eq_path (item : pyobj) (path : Path) : bool :=
  match item with
  | PyPath p => String.eqb p path
  | PySymbol s => sym_hash_value s =? hash_path py path
  | PyCompositeSymbol c => cs_hash_value c =? hash_path py path
  | _ => false
  end.

Definition IRNode_contains (n : IRNode) (item : pyobj) : result bool :=
  b <- BaseIRModule_contains (ir_module (node_ir n)) item ;;
  if b then Ok true else Ok (py_eq_path item (node_path n)).

(** *** ir_graph.py: NodeSet *)

Definition is_IRNode (o : pyobj) : bool :=
  match o with PyIRNode _ => true | _ => false end.

Definition NodeSet_init (data : list pyobj) (phf : option ResultPHF) : result NodeSet :=
  if (forallb is_IRNode data && match phf with Some _ => true | None => false end)
     || match phf with None => true | Some _ => false end
  then Ok {| ns_data := data; ns_phf := phf |}
  else Raise (ValueError "node set accepts only IRNode instances").

Definition NodeSet_phf (ns : NodeSet) : result ResultPHF :=
  match ns_phf ns with
  | Some p => Ok p
  | None => Raise (ValueError "node's phf instance is null")
  end.

Definition NodeSet_new_set (data : list pyobj) (phf : ResultPHF) : result NodeSet :=
  NodeSet_init data (Some phf).

(** [e == item] for an element [e] of the data tuple and an [IRNode] item. *)
Definition elem_eq_node (e : pyobj) (item : IRNode) : bool :=
  match e with
  | PyIRNode n => node_uid n =? node_uid item
  | PySymbol s => sym_hash_value s =? node_uid item
  | PyCompositeSymbol c => cs_hash_value c =? node_uid item
  | _ => false
  end.

(** [for node in self._data: if test(node.attr): return True]; reading the
    attribute of an element that is no [IRNode] raises. *)
Fixpoint any_node (test : IRNode -> bool) (attr : string) (data : list pyobj)
  : result bool :=
  match data with
  | [] => Ok false
  | PyIRNode n :: rest => if test n then Ok true else any_node test attr rest
  | _ :: _ => Raise (AttributeError attr)
  end.

Definition NodeSet_contains (ns : NodeSet) (item : pyobj) : result bool :=
  match item with
  | PyIRNode n => Ok (existsb (fun e => elem_eq_node e n) (ns_data ns))
  | PyIRHash h => any_node (fun n => IRHash_eq h (node_irhash n)) "irhash" (ns_data ns)
  | PyPath p => any_node (fun n => String.eqb p (node_path n)) "path" (ns_data ns)
  | _ => Ok false
  end.

Definition NodeSet_getitem (ns : NodeSet) (item : pyobj) : result pyobj :=
  match item with
  | PyIRHash h =>
      match ns_phf ns with
      | Some phf =>
          res <- get_hash (irhash_uid h) phf ;;
          py_getitem (ns_data ns) res
      | None =>
          Raise (ValueError
                   "node set must have phf attribute defined and item hash mush not be null")
      end
  | PyInt i => py_getitem (ns_data ns) i
  | _ => Raise TypeError
  end.
End Methods.

(** *** ir_graph.py: IRGraph *)

Section Graph.
Variable py : PyRuntime.

Definition IRGraph_init : IRGraph :=
  {| is_built := false;
     nodes := {| ns_data := []; ns_phf := None |};
     tmp_nodes := [];
     main_node := None |}.

Definition add_node (g : IRGraph) (ir : BaseIR) : IRGraph * IRHash :=
  let node := IRNode_init py ir in
  ({| is_built := is_built g;
      nodes := nodes g;
      tmp_nodes := tmp_nodes g ++ [node];
      main_node := main_node g |},
   node_irhash node).

Definition add_main_node (g : IRGraph) (ir : BaseIR) : IRGraph * IRHash :=
  let '(g', h) := add_node g ir in
  ({| is_built := is_built g';
      nodes := nodes g';
      tmp_nodes := tmp_nodes g';
      main_node := Some h |},
   h).

(** [for _, irhash in table: if irhash not in self._nodes: return False] *)
Fixpoint refs_resolve {K : Type} (ns : NodeSet) (refs : dict K IRHash) : result bool :=
  match refs with
  | [] => Ok true
  | (_, irhash) :: rest =>
      present <- NodeSet_contains ns (PyIRHash irhash) ;;
      if present then refs_resolve ns rest else Ok false
  end.

Fixpoint check_refs_loop (ns : NodeSet) (data : list pyobj) : result bool :=
  match data with
  | [] => Ok true
  | PyIRNode node :: rest =>
      tys <- refs_resolve ns (ref_types (ir_ref_table (node_ir node))) ;;
      if tys then
        fns <- refs_resolve ns (ref_fns (ir_ref_table (node_ir node))) ;;
        if fns then check_refs_loop ns rest else Ok false
      else Ok false
  | _ :: _ => Raise (AttributeError "ir")
  end.

Definition _check_refs (g : IRGraph) : result bool :=
  check_refs_loop (nodes g) (ns_data (nodes g)).

Definition build (g : IRGraph) : IRGraph * result unit :=
  if negb (is_built g) && (0 <? Z.of_nat (length (tmp_nodes g))) then
    match gen_phf py (tmp_nodes g) with
    | Raise e => (g, Raise e)
    | Ok (node_res, node_phf) =>
        match NodeSet_new_set (map PyIRNode node_res) node_phf with
        | Raise e => (g, Raise e)
        | Ok ns =>
            let g1 := {| is_built := is_built g;
                         nodes := ns;
                         tmp_nodes := [];
                         main_node := main_node g |} in
            match _check_refs g1 with
            | Raise e => (g1, Raise e)
            | Ok true =>
                ({| is_built := true;
                    nodes := nodes g1;
                    tmp_nodes := tmp_nodes g1;
                    main_node := main_node g1 |},
                 Ok tt)
            | Ok false =>
                (g1, Raise (ValueError "missing nodes to build the ir graph"))
            end
        end
    end
  else
    (g, Raise (ValueError "ir graph is already built or no nodes were found")).

(** The loop of [get_fns] over [self._tmp_nodes or self._nodes]. *)
Fixpoint get_fns_loop (_nodes : list pyobj) (module_path : Path) (item : Symbol)
  : result (list FnHeader) :=
  match _nodes with
  | [] => Raise (ValueError "item not found in ir node")
  | PyIRNode tmp_node :: rest =>
      if String.eqb module_path (node_path tmp_node) then
        found <- BaseIRModule_contains py (ir_module (node_ir tmp_node)) (PySymbol item) ;;
        if found then
          fns <- FnTable_get py (st_fn (mod_symbol_table (ir_module (node_ir tmp_node))))
                   (PySymbol item) ;;
          match fns with
          | FnsDict d => Ok (dict_keys d)
          | _ => get_fns_loop rest module_path item
          end
        else get_fns_loop rest module_path item
      else get_fns_loop rest module_path item
  | _ :: _ => Raise (AttributeError "path")
  end.

Definition get_fns (g : IRGraph) (module_path : Path) (item : Symbol)
  : result (list FnHeader) :=
  let _nodes := match tmp_nodes g with
                | [] => ns_data (nodes g)
                | _ :: _ => map PyIRNode (tmp_nodes g)
                end in
  get_fns_loop _nodes module_path item.

(** [for tmp_node in self._tmp_nodes: if item in tmp_node: return True] *)
Fixpoint any_tmp_node (tmp : list IRNode) (item : pyobj) : result bool :=
  match tmp with
  | [] => Ok false
  | tmp_node :: rest =>
      b <- IRNode_contains py tmp_node item ;;
      if b then Ok true else any_tmp_node rest item
  end.

Definition IRGraph_contains (g : IRGraph) (item : pyobj) : result bool :=
  first <- match item with
           | PySymbol _ | PyFnHeader _ => any_tmp_node (tmp_nodes g) item
           | _ => Ok false
           end ;;
  if first then Ok true
  else
    second <- match item with
              | PyPath _ => any_tmp_node (tmp_nodes g) item
              | _ => Ok false
              end ;;
    if second then Ok true else Ok false.
End Graph.

(** ** Further methods of the same files *)

(** [FnHeaderDef] of [base.py]: a header with the return type and the argument
    names; it hashes like the [FnHeader] of the same name and argument types. *)
Record FnHeaderDef : Type := mkFnHeaderDef {
  fhd_name : name;
  fhd_type : name;
  fhd_args_names : list Symbol;
  fhd_args_types : list name;
  fhd_hash_value : Z
}.

Section MoreMethods.
Variable py : PyRuntime.

(** *** base.py *)

Definition FnHeaderDef_init (fn_name fn_type : name) (args_names : list Symbol)
           (args_types : list name) : FnHeaderDef :=
  {| fhd_name := fn_name;
     fhd_type := fn_type;
     fhd_args_names := args_names;
     fhd_args_types := args_types;
     fhd_hash_value :=
       hash_tuple py [hash_int py (name_hash fn_name);
                      hash_int py (hash_tuple py (map name_hash args_types))] |}.

Definition FnHeader_transform (f : FnHeader) (fn_type : name) (args_names : list Symbol)
  : FnHeaderDef :=
  FnHeaderDef_init (fh_name f) fn_type args_names (fh_args_types f).

(** [len(values) == len(self._args_types) and all(k == v for k, v in zip(...))];
    [==] between symbols is hash equality. *)
Definition FnHeader_check_args_types (f : FnHeader) (values : list name) : bool :=
  (length values =? length (fh_args_types f))%nat &&
  forallb (fun kv => name_hash (fst kv) =? name_hash (snd kv))
          (combine values (fh_args_types f)).

(** [FnHeaderDef.__eq__] against a header. *)
Definition FnHeaderDef_eq_header (d : FnHeaderDef) (g : FnHeader) : bool :=
  fhd_hash_value d =? fh_hash_value g.

(** *** symbol_table.py *)

(** [FnTable.add] for a [FnHeaderDef] entry: the key is the [FnHeader] built
    from its name and argument types. *)
Definition FnTable_add_def (t : FnTable) (fn_entry : FnHeaderDef) (data : FnDef) : FnTable :=
  FnTable_add t (FnHeader_init py (fhd_name fn_entry) (fhd_args_types fn_entry)) data.

Definition TypeTable_len (t : TypeTable) : Z := Z.of_nat (length t).

(** [sum(len(k) for k in self.table.values())] *)
Definition FnTable_len (t : FnTable) : Z :=
  fold_right (fun kv acc => Z.of_nat (length (snd kv)) + acc) 0 t.

(** [iter((p, q) for v in self.table.values() for p, q in v.items())] *)
Definition FnTable_iter (t : FnTable) : list (FnHeader * FnDef) :=
  flat_map (fun kv => snd kv) t.

(** *** abstract.py: the reference tables *)

Definition RefTypeTable_get_irhash (t : RefTypeTable) (type_name : name) : result IRHash :=
  match dict_get name_hash t (name_hash type_name) with
  | Some h => Ok h
  | None => Raise KeyError
  end.

Definition RefTypeTable_get_irpath (t : RefTypeTable) (type_name : name) : result Path :=
  h <- RefTypeTable_get_irhash t type_name ;; Ok (irhash_key h).

Definition RefTypeTable_contains (t : RefTypeTable) (item : pyobj) : bool :=
  dict_mem name_hash t (py_hash_obj py item).

Definition RefFnTable_get_irhash (t : RefFnTable) (fn_name : FnHeader) : result IRHash :=
  match dict_get fh_hash_value t (fh_hash_value fn_name) with
  | Some h => Ok h
  | None => Raise KeyError
  end.

Definition RefFnTable_get_irpath (t : RefFnTable) (fn_name : FnHeader) : result Path :=
  h <- RefFnTable_get_irhash t fn_name ;; Ok (irhash_key h).

Definition RefFnTable_contains (t : RefFnTable) (item : pyobj) : bool :=
  match item with
  | PyFnHeader f => dict_mem fh_hash_value t (fh_hash_value f)
  | PySymbol _ | PyCompositeSymbol _ =>
      existsb (fun kv => py_hash_obj py item =? name_hash (fh_name (fst kv))) t
  | _ => false
  end.

(** *** ir_graph.py *)

Definition NodeSet_len (ns : NodeSet) : Z := Z.of_nat (length (ns_data ns)).

(** *** tools.py *)

Definition get_type (node_key : IRHash) (importing : pyobj) (ir_graph : IRGraph)
  : result (option TypeDef) :=
  node <- NodeSet_getitem (nodes ir_graph) (PyIRHash node_key) ;;
  match node with
  | PyNone => Ok None
  | PyIRNode n =>
      Ok (TypeTable_get py (st_type (mod_symbol_table (ir_module (node_ir n)))) importing)
  | _ => Raise (AttributeError "ir")
  end.

(** [get_fn] returns what [FnTable.get] returns, or [None] for a null node. *)
Definition get_fn (node_key : IRHash) (importing : pyobj) (ir_graph : IRGraph)
  : result (option fn_lookup) :=
  node <- NodeSet_getitem (nodes ir_graph) (PyIRHash node_key) ;;
  match node with
  | PyNone => Ok None
  | PyIRNode n =>
      r <- FnTable_get py (st_fn (mod_symbol_table (ir_module (node_ir n)))) importing ;;
      Ok (Some r)
  | _ => Raise (AttributeError "ir")
  end.

(** [build_reftable(types, fns)]; a mapping is the list of its items in
    iteration order. *)
Definition build_reftable (types : list (name * Path)) (fns : list (FnHeader * Path))
  : RefTable :=
  {| ref_types :=
       fold_left (fun t kv => RefTypeTable_add_ref py t (fst kv) (snd kv)) types [];
     ref_fns :=
       fold_left (fun t kv => RefFnTable_add_ref py t (fst kv) (snd kv)) fns [] |}.
End MoreMethods.

(** * Vocabulary of the properties *)

(** No number from 2 to [k + 1] divides [p]. *)
Definition no_divisor_upto (p : Z) (k : nat) : bool :=
  forallb (fun d => negb (p mod Z.of_nat d =? 0)) (seq 2 k).

(** The hash of the specification,
    [h(x) = ((x*a) XOR ((x*a) >> r)) mod prime mod n]. *)
Definition phf_h (a r prime n x : Z) : Z :=
  (Z.lxor (x * a) (Z.shiftr (x * a) r) mod prime) mod n.

(** A candidate [(a, r)] places all items with no collision: no two items
    share a slot, and no item equals ([==]) an item placed before it. *)
Definition collision_free {A : Type} `{Hashable A}
           (group_tuple : list A) (n a r prime : Z) : Prop :=
  NoDup (map (fun obj => phf_h a r prime n (py_hash obj)) group_tuple) /\
  ForallOrdPairs (fun x y => py_eq x y = false) group_tuple.

(** No item of the tuple equals ([==]) the empty-slot marker [None]. *)
Definition none_free {A : Type} `{Hashable A} (group_tuple : list A) : Prop :=
  forall x, In x group_tuple -> py_eq_None x = false.

(** A run of [ConstTable.add] calls, each one's exception caught. *)
Definition ConstTable_add_all (items : list DataDef) (t : ConstTable) : ConstTable :=
  fold_left (fun t item => fst (ConstTable_add t item)) items t.

(** The slot of an item, as a list position. *)
Definition slot_of {A : Type} `{Hashable A} (n a r prime : Z) (obj : A) : nat :=
  Z.to_nat (phf_h a r prime n (py_hash obj)).

(** An earlier candidate in the row-major order of the two loops. *)
Definition before (a' r' a r : Z) : Prop := a' < a \/ (a' = a /\ r' < r).

(** The graph obtained by adding the units one after the other. *)
Definition building (py : PyRuntime) (units : list BaseIR) : IRGraph :=
  fold_left (fun g u => fst (add_node py g u)) units IRGraph_init.

(** The identities a node's reference tables point to. *)
Definition node_refs (n : IRNode) : list IRHash :=
  map snd (ref_types (ir_ref_table (node_ir n))) ++
  map snd (ref_fns (ir_ref_table (node_ir n))).

(** An identity is present in a set of nodes when it equals ([==], that is by
    uid) the identity of one of them. *)
Definition present (ns : list IRNode) (h : IRHash) : Prop :=
  exists m, In m ns /\ irhash_uid (node_irhash m) = irhash_uid h.

(** Some reference of some node points to an identity that is not present. *)
Definition dangling_ref (ns : list IRNode) : Prop :=
  exists n h, In n ns /\ In h (node_refs n) /\ ~ present ns h.

(** The graph after a successful [build()], and after one that failed the reference check. *)
Definition frozen_graph (g : IRGraph) (res : list IRNode) (phf : ResultPHF) : IRGraph :=
  {| is_built := true;
     nodes := {| ns_data := map PyIRNode res; ns_phf := Some phf |};
     tmp_nodes := [];
     main_node := main_node g |}.

Definition unfinished_graph (g : IRGraph) (res : list IRNode) (phf : ResultPHF) : IRGraph :=
  {| is_built := is_built g;
     nodes := {| ns_data := map PyIRNode res; ns_phf := Some phf |};
     tmp_nodes := [];
     main_node := main_node g |}.

(** The reference check as [_check_refs] computes it. *)
Definition resolves_b (ns : list IRNode) (h : IRHash) : bool :=
  existsb (fun n => IRHash_eq h (node_irhash n)) ns.

Definition node_ok_b (ns : list IRNode) (n : IRNode) : bool :=
  forallb (fun kh => resolves_b ns (snd kh)) (ref_types (ir_ref_table (node_ir n))) &&
  forallb (fun kh => resolves_b ns (snd kh)) (ref_fns (ir_ref_table (node_ir n))).

(** The reading of [build()] under which it fails only on an unresolved
    reference. *)
Definition build_fails_only_on_dangling_ref (py : PyRuntime) (g : IRGraph) : Prop :=
  is_built g = false -> tmp_nodes g <> [] ->
  (dangling_ref (tmp_nodes g) -> raises (snd (build py g))) /\
  (~ dangling_ref (tmp_nodes g) ->
   snd (build py g) = Ok tt /\ is_built (fst (build py g)) = true).

(** The overload map a unit keeps for a function name, if any. *)
Definition overloads (n : IRNode) (item : Symbol) : option (dict FnHeader FnDef) :=
  dict_get name_hash (st_fn (mod_symbol_table (ir_module (node_ir n))))
           (sym_hash_value item).

(** [get_fns] in the words of the specification: the overloads of the name in
    the unit at the path, in the order of the overload map; it fails if the
    unit or the name is absent. *)
Definition spec_get_fns (units : list IRNode) (module_path : Path) (item : Symbol)
  : result (list FnHeader) :=
  match find (fun n => String.eqb module_path (node_path n)) units with
  | Some n =>
      match overloads n item with
      | Some d => Ok (dict_keys d)
      | None => Raise (ValueError "item not found in ir node")
      end
  | None => Raise (ValueError "item not found in ir node")
  end.

(** The test a unit has to pass in the loop of [get_fns]. *)
Definition has_fn (module_path : Path) (item : Symbol) (n : IRNode) : bool :=
  String.eqb module_path (node_path n) &&
  match overloads n item with Some _ => true | None => false end.

(** The signatures stored under a name in a function table, and whether a
    header is among those stored under its name. *)
Definition overload_keys (t : FnTable) (k : name) : list FnHeader :=
  match dict_get name_hash t (name_hash k) with
  | Some d => dict_keys d
  | None => []
  end.

Definition has_overload (t : FnTable) (f : FnHeader) : bool :=
  match dict_get name_hash t (name_hash (fh_name f)) with
  | Some d => dict_mem fh_hash_value d (fh_hash_value f)
  | None => false
  end.

(** A table key as the object it is. *)
Definition name_obj (k : name) : pyobj :=
  match k with
  | NSymbol s => PySymbol s
  | NCompositeSymbol c => PyCompositeSymbol c
  end.

(** A run of [TypeTable.add] calls, in order, keeping the table of each. *)
Definition TypeTable_add_all (py : PyRuntime) (adds : list (name * TypeDef))
           (t : TypeTable) : TypeTable :=
  fold_left (fun t kv => fst (TypeTable_add py t (name_obj (fst kv)) (PyTypeDef (snd kv))))
            adds t.

(** A run of [FnTable.add] calls, in order. *)
Definition FnTable_add_all (adds : list (FnHeader * FnDef)) (t : FnTable) : FnTable :=
  fold_left (fun t kv => FnTable_add t (fst kv) (snd kv)) adds t.

(** The signatures of a run of headers in the order of their first
    occurrence, after those already seen. *)
Definition first_occurrences (seen : list FnHeader) (l : list FnHeader) : list FnHeader :=
  fold_left (fun acc f =>
               if existsb (fun g => fh_hash_value g =? fh_hash_value f) acc
               then acc else acc ++ [f])
            l seen.

(** * Examples: a runtime and a few units *)

(** A small polynomial string hash, standing for the interpreter's. *)
Fixpoint poly_hash (s : string) : Z :=
  match s with
  | EmptyString => 7
  | String c t => Z.of_nat (Ascii.nat_of_ascii c) + 31 * poly_hash t
  end.

(** A runtime of a 64-bit platform. *)
Definition demo_py : PyRuntime :=
  {| hash_str := poly_hash;
     hash_path := poly_hash;
     hash_int := fun z => z;
     hash_tuple := fold_right (fun h acc => h + 1000003 * acc) 3430008;
     hash_none := 5;
     sys_maxsize := 2 ^ 63 - 1 |}.

(** A unit: a module at a path with its symbol table, and its reference table. *)
Definition unit_at (path : Path) (st : SymbolTable) (refs : RefTable) : BaseIR :=
  {| ir_ref_table := refs;
     ir_module := {| mod_path := path; mod_symbol_table := st |} |}.

(** Symbols and function headers of the example runtime. *)
Definition sym (v : string) : Symbol := Symbol_init demo_py v.
Definition header (f : string) (args : list string) : FnHeader :=
  FnHeader_init demo_py (NSymbol (sym f)) (map (fun a => NSymbol (sym a)) args).

(** Unit A ([src/a]) defines [add(int,int)] and [add(float,float)]; unit B
    ([src/b]) refers to [add(int,int)] in A; unit C refers to a type in a unit
    D that is never added. *)
Definition demo_fns_A : FnTable :=
  FnTable_add (FnTable_add [] (header "add" ["int"; "int"]) (mkFnDef 1))
              (header "add" ["float"; "float"]) (mkFnDef 2).

Definition unit_A : BaseIR :=
  unit_at "src/a" {| st_type := []; st_fn := demo_fns_A; st_const := [] |} RefTable_init.

Definition unit_B : BaseIR :=
  unit_at "src/b" SymbolTable_init
          {| ref_types := [];
             ref_fns := RefFnTable_add_ref demo_py [] (header "add" ["int"; "int"]) "src/a" |}.

Definition unit_C : BaseIR :=
  unit_at "src/c" SymbolTable_init
          {| ref_types := RefTypeTable_add_ref demo_py [] (NSymbol (sym "point")) "src/d";
             ref_fns := [] |}.

(** A runtime whose path hashes defeat the whole first row of candidates:
    for the four units below no [(1, r)] is collision free. *)
Definition row2_py : PyRuntime :=
  {| hash_str := poly_hash;
     hash_path := fun p =>
       if String.eqb p "src/a" then -5
       else if String.eqb p "src/b" then 4
       else if String.eqb p "src/c" then 100
       else 2305843009213693950;
     hash_int := fun z => z;
     hash_tuple := fold_right (fun h acc => h + 1000003 * acc) 3430008;
     hash_none := 5;
     sys_maxsize := 2 ^ 63 - 1 |}.

Definition row2_units : list BaseIR :=
  [unit_A; unit_B; unit_C; unit_at "src/d" SymbolTable_init RefTable_init].

(** Two type definitions of the same name. *)
Definition int_t : TypeDef := {| td_name := sym "int"; td_hash_value := 11 |}.
Definition other_int_t : TypeDef := {| td_name := sym "int"; td_hash_value := 12 |}.

(** A constant: a [Constant] data container named [pi]. *)
Definition pi_const : DataDef :=
  {| dd_name := NSymbol (sym "pi"); dd_kind := CONSTANT |}.

(** * Properties *)

(** ** Primality by trial division *)

Lemma trial_division_prime (p : Z) (k : nat) :
  1 < p -> p < (Z.of_nat k + 2) * (Z.of_nat k + 2) ->
  no_divisor_upto p k = true -> Znumtheory.prime p.
Proof.
  intros Hp Hk Hf. apply prime_alt. split; [exact Hp|].
  intros n Hn [q Hq].
  unfold no_divisor_upto in Hf. rewrite forallb_forall in Hf.
  assert (Hq1 : 1 < q) by nia.
  assert (small : forall d, 1 < d -> d * d <= p -> p mod d <> 0).
  { intros d Hd Hdd.
    assert (Hin : In (Z.to_nat d) (seq 2 k)).
    { apply in_seq. split; [lia|]. nia. }
    specialize (Hf _ Hin). rewrite Z2Nat.id in Hf by lia.
    apply negb_true_iff in Hf. apply Z.eqb_neq in Hf. exact Hf. }
  destruct (Z_le_gt_dec n q) as [Hle|Hgt].
  - apply (small n); [lia|nia|]. subst p. apply Z.mod_mul. lia.
  - apply (small q); [lia|nia|]. subst p. rewrite Z.mul_comm. apply Z.mod_mul. lia.
Qed.

Lemma phf_primes_are_prime :
  Znumtheory.prime 37 /\ Znumtheory.prime 67 /\ Znumtheory.prime 257 /\
  Znumtheory.prime 4099 /\ Znumtheory.prime 16411 /\ Znumtheory.prime 1048583.
Proof.
  assert (tdp : forall p k, 1 < p -> p < (Z.of_nat k + 2) * (Z.of_nat k + 2) ->
                            no_divisor_upto p k = true -> Znumtheory.prime p)
    by exact trial_division_prime.
  split; [apply (tdp 37 5%nat); [lia|lia|vm_compute; reflexivity]|].
  split; [apply (tdp 67 7%nat); [lia|lia|vm_compute; reflexivity]|].
  split; [apply (tdp 257 15%nat); [lia|lia|vm_compute; reflexivity]|].
  split; [apply (tdp 4099 63%nat); [lia|lia|vm_compute; reflexivity]|].
  split; [apply (tdp 16411 127%nat); [lia|lia|vm_compute; reflexivity]|].
  apply (tdp 1048583 1023%nat); [lia|lia|vm_compute; reflexivity].
Qed.

(** C7.  The prime chosen for an item count [n] follows the size classes:
    37 up to 32 items, 67 up to 64, 257 up to 256, 4099 up to 4096, 16411 up to
    16384, and beyond that the fallback 1048583, which is larger than every
    other choice; each of these numbers is prime. *)
Theorem get_phf_prime_size_classes (n : Z) :
  ((n <= 32 /\ get_phf_prime n = 37) \/
   (32 < n <= 64 /\ get_phf_prime n = 67) \/
   (64 < n <= 256 /\ get_phf_prime n = 257) \/
   (256 < n <= 4096 /\ get_phf_prime n = 4099) \/
   (4096 < n <= 16384 /\ get_phf_prime n = 16411) \/
   (16384 < n /\ get_phf_prime n = 1048583 /\ 16411 < get_phf_prime n)) /\
  Znumtheory.prime (get_phf_prime n).
Proof.
  destruct phf_primes_are_prime as (P1 & P2 & P3 & P4 & P5 & P6).
  unfold get_phf_prime.
  change (2 ^ 5) with 32; change (2 ^ 6) with 64; change (2 ^ 8) with 256;
    change (2 ^ 12) with 4096; change (2 ^ 14) with 16384.
  destruct (Z.leb_spec n 32); [split; [left; lia|assumption]|].
  destruct (Z.leb_spec n 64); [split; [right; left; lia|assumption]|].
  destruct (Z.leb_spec n 256); [split; [right; right; left; lia|assumption]|].
  destruct (Z.leb_spec n 4096); [split; [right; right; right; left; lia|assumption]|].
  destruct (Z.leb_spec n 16384);
    [split; [right; right; right; right; left; lia|assumption]|].
  split; [do 5 right; lia|assumption].
Qed.

(** ** Dictionaries *)

Section DictFacts.
Variables K V : Type.
Variable key_hash : K -> Z.

Lemma dict_set_absent (d : dict K V) (k : K) (v : V) :
  dict_mem key_hash d (key_hash k) = false ->
  dict_set key_hash d k v = d ++ [(k, v)].
Proof.
  unfold dict_mem. induction d as [|[k' v'] t IH]; simpl; intros Hm.
  - reflexivity.
  - destruct (key_hash k' =? key_hash k); [discriminate|].
    rewrite IH by exact Hm. reflexivity.
Qed.

Lemma dict_get_set_same (d : dict K V) (k : K) (v : V) :
  dict_get key_hash (dict_set key_hash d k v) (key_hash k) = Some v.
Proof.
  induction d as [|[k' v'] t IH]; simpl.
  - rewrite Z.eqb_refl. reflexivity.
  - destruct (key_hash k' =? key_hash k) eqn:E; simpl; rewrite E; auto.
Qed.

Lemma dict_keys_set_present (d : dict K V) (k : K) (v : V) :
  dict_mem key_hash d (key_hash k) = true ->
  dict_keys (dict_set key_hash d k v) = dict_keys d.
Proof.
  unfold dict_mem, dict_keys. induction d as [|[k' v'] t IH]; simpl; intros Hm.
  - discriminate.
  - destruct (key_hash k' =? key_hash k); simpl; [reflexivity|].
    rewrite IH by exact Hm. reflexivity.
Qed.
End DictFacts.

(** ** Symbol tables *)

Lemma as_name_hash (py : PyRuntime) (o : pyobj) (k : name) :
  as_name o = Some k -> py_hash_obj py o = name_hash k.
Proof.
  destruct o; simpl; intros E; inversion E; reflexivity.
Qed.

(** C8.  [TypeTable.add] with a symbol (or composite symbol) name and a type
    definition never raises; when the name is already in the table (by the
    table's own membership test) the table is returned unchanged, so the
    stored definition stays; when it is absent the new pair becomes the last
    entry of the insertion order. *)
Theorem TypeTable_add_only_if_absent
  (py : PyRuntime) (t : TypeTable) (key : pyobj) (k : name) (d : TypeDef)
  (Hname : as_name key = Some k) :
  (TypeTable_contains py t key = true ->
   TypeTable_add py t key (PyTypeDef d) = (t, Ok tt) /\
   TypeTable_get py (fst (TypeTable_add py t key (PyTypeDef d))) key
   = TypeTable_get py t key) /\
  (TypeTable_contains py t key = false ->
   TypeTable_add py t key (PyTypeDef d) = (t ++ [(k, d)], Ok tt) /\
   TypeTable_get py (fst (TypeTable_add py t key (PyTypeDef d))) key = Some d).
Proof.
  unfold TypeTable_add. rewrite Hname. split; intros Hc; rewrite Hc; simpl.
  - split; reflexivity.
  - unfold TypeTable_contains in Hc. rewrite (as_name_hash py _ Hname) in Hc.
    split.
    + rewrite dict_set_absent by exact Hc. reflexivity.
    + unfold TypeTable_get. rewrite (as_name_hash py _ Hname).
      apply dict_get_set_same.
Qed.

Lemma TypeTable_add_only_if_absent_witness :
  TypeTable_add demo_py [] (PySymbol (sym "int")) (PyTypeDef int_t)
  = ([(NSymbol (sym "int"), int_t)], Ok tt) /\
  TypeTable_add demo_py [(NSymbol (sym "int"), int_t)]
                (PySymbol (sym "int")) (PyTypeDef other_int_t)
  = ([(NSymbol (sym "int"), int_t)], Ok tt).
Proof.
  split.
  - apply (TypeTable_add_only_if_absent demo_py [] (PySymbol (sym "int"))
             (k := NSymbol (sym "int")) int_t eq_refl).
    reflexivity.
  - apply (TypeTable_add_only_if_absent demo_py [(NSymbol (sym "int"), int_t)]
             (PySymbol (sym "int")) (k := NSymbol (sym "int")) other_int_t eq_refl).
    reflexivity.
Defined.

(** C3.  [ConstTable.add] never returns normally and never stores: its
    condition reads [item.is_constant], an attribute no [DataDef] has, so the
    call raises [AttributeError] with the table untouched, for a constant as
    for a datum of any other kind.  A table on which [add] was called any
    number of times is still empty, and the constant [pi] is not found after
    it was added. *)
Theorem ConstTable_add_always_raises
        (t : ConstTable) (item : DataDef) (items : list DataDef) (k : name) :
  ConstTable_add t item = (t, Raise (AttributeError "is_constant")) /\
  snd (ConstTable_add t item) <> Ok tt /\
  ConstTable_get (fst (ConstTable_add t item)) k = ConstTable_get t k /\
  ConstTable_add_all items [] = [] /\
  dd_kind pi_const = CONSTANT /\
  ConstTable_get (fst (ConstTable_add [] pi_const)) (dd_name pi_const) = None.
Proof.
  assert (Hall : forall l t0, ConstTable_add_all l t0 = t0).
  { induction l as [|x l IH]; intros t0; [reflexivity|].
    unfold ConstTable_add_all in *. simpl. apply IH. }
  split; [reflexivity|].
  split; [intros E; discriminate E|].
  split; [reflexivity|].
  split; [apply Hall|].
  split; reflexivity.
Qed.

(** ** NodeSet *)

(** C10.  [NodeSet] built with [phf=None] accepts any elements and stores them
    as they are; [NodeSet] built with a [ResultPHF] raises when
    some element is not an [IRNode] and succeeds when all are. *)
Theorem NodeSet_init_type_check (data : list pyobj) :
  NodeSet_init data None = Ok {| ns_data := data; ns_phf := None |} /\
  forall p : ResultPHF,
    ((exists e, In e data /\ is_IRNode e = false) ->
     NodeSet_init data (Some p)
     = Raise (ValueError "node set accepts only IRNode instances")) /\
    ((forall e, In e data -> is_IRNode e = true) ->
     NodeSet_init data (Some p) = Ok {| ns_data := data; ns_phf := Some p |}).
Proof.
  split; [unfold NodeSet_init; rewrite orb_true_r; reflexivity|].
  intros p. unfold NodeSet_init. rewrite orb_false_r, andb_true_r. split.
  - intros (e & Hin & He).
    destruct (forallb is_IRNode data) eqn:F; [|reflexivity].
    rewrite forallb_forall in F. rewrite (F e Hin) in He. discriminate.
  - intros Hall.
    assert (F : forallb is_IRNode data = true) by (apply forallb_forall; exact Hall).
    rewrite F. reflexivity.
Qed.

Lemma NodeSet_init_type_check_witness :
  NodeSet_init [PyNone; PyInt 3] None
  = Ok {| ns_data := [PyNone; PyInt 3]; ns_phf := None |} /\
  NodeSet_init [PyIRNode (IRNode_init demo_py unit_A); PyInt 3]
               (Some (mkResultPHF 1 0 37 2))
  = Raise (ValueError "node set accepts only IRNode instances") /\
  NodeSet_init [PyIRNode (IRNode_init demo_py unit_A)] (Some (mkResultPHF 1 0 37 1))
  = Ok {| ns_data := [PyIRNode (IRNode_init demo_py unit_A)];
          ns_phf := Some (mkResultPHF 1 0 37 1) |}.
Proof.
  split; [apply (NodeSet_init_type_check [PyNone; PyInt 3])|].
  split.
  - apply (NodeSet_init_type_check [PyIRNode (IRNode_init demo_py unit_A); PyInt 3]).
    exists (PyInt 3). split; [simpl; auto|reflexivity].
  - apply (NodeSet_init_type_check [PyIRNode (IRNode_init demo_py unit_A)]).
    intros e [<-|[]]. reflexivity.
Defined.

(** ** Loops and indexing *)

Lemma for_range_found {B : Type} (body : Z -> result (option B)) (count : nat) :
  forall (start : Z) (b : B),
    for_range body start count = Ok (Some b) ->
    exists i, start <= i < start + Z.of_nat count /\
              body i = Ok (Some b) /\
              forall j, start <= j < i -> body j = Ok None.
Proof.
  induction count as [|k IH]; intros start b Hf; simpl in Hf.
  - discriminate.
  - destruct (body start) as [[b'|]|e] eqn:E; simpl in Hf; try discriminate.
    + inversion Hf; subst b'. exists start. repeat split; try lia. exact E.
    + destruct (IH _ _ Hf) as (i & Hi & Hb & Hbefore).
      exists i. repeat split; try lia; [exact Hb|].
      intros j Hj. destruct (Z.eq_dec j start) as [->|Hne]; [exact E|].
      apply Hbefore. lia.
Qed.

Lemma for_range_exhausted {B : Type} (body : Z -> result (option B)) (count : nat) :
  forall start : Z,
    (forall i, start <= i < start + Z.of_nat count -> body i = Ok None) ->
    for_range body start count = Ok None.
Proof.
  induction count as [|k IH]; intros start Hall; simpl.
  - reflexivity.
  - rewrite (Hall start) by lia. simpl. apply IH. intros i Hi. apply Hall. lia.
Qed.

Lemma for_range_first {B : Type} (body : Z -> result (option B)) (count : nat) :
  forall (start i : Z) (b : B),
    start <= i < start + Z.of_nat count ->
    body i = Ok (Some b) ->
    (forall j, start <= j < i -> body j = Ok None) ->
    for_range body start count = Ok (Some b).
Proof.
  induction count as [|k IH]; intros start i b Hi Hb Hbefore; simpl.
  - lia.
  - destruct (Z.eq_dec i start) as [->|Hne].
    + rewrite Hb. reflexivity.
    + rewrite (Hbefore start) by lia. simpl.
      apply (IH (start + 1) i b); [lia|exact Hb|].
      intros j Hj. apply Hbefore. lia.
Qed.

Lemma py_getitem_in_range {A : Type} (l : list A) (i : Z) :
  0 <= i < Z.of_nat (length l) ->
  py_getitem l i = match nth_error l (Z.to_nat i) with
                   | Some x => Ok x
                   | None => Raise IndexError
                   end.
Proof.
  intros Hi. unfold py_getitem, norm_index.
  destruct (Z.ltb_spec i 0); [lia|].
  destruct (Z.ltb_spec i 0); [lia|]. reflexivity.
Qed.

Lemma py_setitem_in_range {A : Type} (l : list A) (i : Z) (v : A) :
  0 <= i < Z.of_nat (length l) ->
  py_setitem l i v = Ok (list_set l (Z.to_nat i) v).
Proof.
  intros Hi. unfold py_setitem, norm_index.
  destruct (Z.ltb_spec i 0); [lia|].
  destruct (Z.ltb_spec i 0); [lia|].
  destruct (Z.leb_spec (Z.of_nat (length l)) i); [lia|]. reflexivity.
Qed.

Lemma list_set_length {A : Type} (l : list A) (k : nat) (v : A) :
  length (list_set l k v) = length l.
Proof.
  revert k. induction l as [|x t IH]; intros [|k]; simpl; auto.
Qed.

Lemma nth_error_list_set_same {A : Type} (l : list A) (k : nat) (v : A) :
  (k < length l)%nat -> nth_error (list_set l k v) k = Some v.
Proof.
  revert k. induction l as [|x t IH]; intros [|k] Hk; simpl in *; try lia.
  - reflexivity.
  - apply IH. lia.
Qed.

Lemma nth_error_list_set_other {A : Type} (l : list A) (k i : nat) (v : A) :
  i <> k -> nth_error (list_set l k v) i = nth_error l i.
Proof.
  revert k i.
  induction l as [|x t IH]; intros [|k] [|i] Hne; simpl;
    try reflexivity; try congruence; apply IH; congruence.
Qed.

Lemma NoDup_map_injective {A B : Type} (f : A -> B) (l : list A) :
  NoDup (map f l) ->
  forall x y, In x l -> In y l -> f x = f y -> x = y.
Proof.
  induction l as [|a t IH]; simpl; intros Hnd x y Hx Hy Hf.
  - contradiction.
  - inversion Hnd as [|? ? Hnotin Hnd']; subst.
    destruct Hx as [<-|Hx], Hy as [<-|Hy].
    + reflexivity.
    + exfalso. apply Hnotin. rewrite Hf. apply in_map. exact Hy.
    + exfalso. apply Hnotin. rewrite <- Hf. apply in_map. exact Hx.
    + apply IH; assumption.
Qed.

(** ** The perfect hash function *)

Lemma get_hash_with_args_ok (x a r n prime : Z) :
  0 <= r -> prime <> 0 -> n <> 0 ->
  get_hash_with_args x a r n prime = Ok (phf_h a r prime n x).
Proof.
  intros Hr Hp Hn. unfold get_hash_with_args, py_rshift, py_mod, phf_h.
  destruct (Z.ltb_spec r 0); [lia|]. simpl.
  destruct (Z.eqb_spec prime 0); [contradiction|]. simpl.
  destruct (Z.eqb_spec n 0); [contradiction|]. reflexivity.
Qed.

Lemma get_hash_ok (x : Z) (phf : ResultPHF) :
  0 <= phf_r phf -> phf_prime phf <> 0 -> phf_n phf <> 0 ->
  get_hash x phf = Ok (phf_h (phf_a phf) (phf_r phf) (phf_prime phf) (phf_n phf) x).
Proof.
  intros Hr Hp Hn. unfold get_hash, py_rshift, py_mod, phf_h.
  destruct (Z.ltb_spec (phf_r phf) 0); [lia|]. simpl.
  destruct (Z.eqb_spec (phf_prime phf) 0); [contradiction|]. simpl.
  destruct (Z.eqb_spec (phf_n phf) 0); [contradiction|]. reflexivity.
Qed.

Lemma phf_h_range (a r prime n x : Z) : 0 < n -> 0 <= phf_h a r prime n x < n.
Proof.
  intros Hn. unfold phf_h. apply Z.mod_pos_bound. exact Hn.
Qed.

Lemma get_phf_prime_pos (n : Z) : 0 < get_phf_prime n.
Proof.
  unfold get_phf_prime.
  repeat match goal with |- context [if ?c then _ else _] => destruct c end; lia.
Qed.

Section PlaceItems.
Context {A : Type} `{Hashable A}.
Variables n a r prime : Z.
Hypothesis Hn : 0 < n.
Hypothesis Hr : 0 <= r.
Hypothesis Hprime : prime <> 0.

Local Abbreviation slot := (slot_of n a r prime).

Lemma slot_of_lt (obj : A) : (slot obj < Z.to_nat n)%nat.
Proof.
  unfold slot_of. pose proof (phf_h_range a r prime (py_hash obj) Hn). lia.
Qed.

Lemma items_of_list_set (l : list (option A)) (k : nat) (x : A) :
  nth_error l k = Some None ->
  Permutation (items_of (list_set l k (Some x))) (x :: items_of l).
Proof.
  revert k. induction l as [|e t IH]; intros [|k] Hk; simpl in *; try discriminate.
  - inversion Hk; subst. reflexivity.
  - destruct e as [y|].
    + rewrite (IH _ Hk). apply perm_swap.
    + apply IH. exact Hk.
Qed.

Lemma in_res_list_list_set (l : list (option A)) (k : nat) (x y : A) :
  nth_error l k = Some None ->
  py_eq_None y = false ->
  in_res_list y (list_set l k (Some x)) = in_res_list y l || py_eq x y.
Proof.
  unfold in_res_list. intros Hk Hy.
  revert k Hk. induction l as [|e t IH]; intros [|k] Hk; simpl in *; try discriminate.
  - inversion Hk; subst. simpl. rewrite Hy. simpl. apply orb_comm.
  - rewrite (IH _ Hk). apply orb_assoc.
Qed.

(** While a slot is empty, an item that equals [None] is found in the list. *)
Lemma in_res_list_None_slot (l : list (option A)) (k : nat) (y : A) :
  nth_error l k = Some None -> in_res_list y l = false -> py_eq_None y = false.
Proof.
  unfold in_res_list. intros Hk Hin.
  destruct (py_eq_None y) eqn:E; [|reflexivity].
  rewrite <- Hin. symmetry. apply existsb_exists.
  exists None. split; [exact (nth_error_In _ _ Hk)|reflexivity].
Qed.

Lemma None_in_res_list_full (l : list (option A)) :
  existsb is_None l = false ->
  (forall x, In x (items_of l) -> py_eq_None x = false) ->
  None_in_res_list l = false.
Proof.
  unfold None_in_res_list.
  induction l as [|[y|] t IH]; simpl; intros Hfull Hnf; try discriminate.
  - reflexivity.
  - rewrite (Hnf y (or_introl eq_refl)). simpl. apply IH; auto.
Qed.

Lemma items_of_full (l : list (option A)) :
  length (items_of l) = length l -> existsb is_None l = false.
Proof.
  assert (Hle : forall m : list (option A), (length (items_of m) <= length m)%nat).
  { induction m as [|[y|] t IH]; simpl; lia. }
  induction l as [|[y|] t IH]; simpl; intros Hlen.
  - reflexivity.
  - apply IH. lia.
  - pose proof (Hle t). lia.
Qed.

Lemma nth_error_items_of (l : list (option A)) :
  existsb is_None l = false ->
  forall k x, nth_error l k = Some (Some x) -> nth_error (items_of l) k = Some x.
Proof.
  induction l as [|[y|] t IH]; simpl; intros Hfull [|k] x Hk;
    simpl in *; try discriminate.
  - inversion Hk; reflexivity.
  - apply IH; assumption.
Qed.

Lemma place_items_step (obj : A) (rest : list A) (res_list : list (option A)) :
  length res_list = Z.to_nat n ->
  place_items (obj :: rest) n a r prime res_list
  = if negb (in_res_list obj res_list) then
      match nth_error res_list (slot obj) with
      | Some None =>
          place_items rest n a r prime (list_set res_list (slot obj) (Some obj))
      | _ => Ok (true, res_list)
      end
    else Ok (true, res_list).
Proof.
  intros Hlen. simpl.
  rewrite get_hash_with_args_ok by lia. simpl.
  destruct (negb (in_res_list obj res_list)); [|reflexivity].
  pose proof (phf_h_range a r prime (py_hash obj) Hn) as Hrange.
  pose proof (slot_of_lt obj) as Hslot.
  rewrite py_getitem_in_range by lia. fold (slot obj).
  destruct (nth_error res_list (slot obj)) as [[y|]|] eqn:E; simpl.
  - reflexivity.
  - rewrite py_setitem_in_range by lia. reflexivity.
  - apply nth_error_None in E. lia.
Qed.

(** The loop never raises. *)
Lemma place_items_total (group_tuple : list A) :
  forall res_list, length res_list = Z.to_nat n ->
    exists c res', place_items group_tuple n a r prime res_list = Ok (c, res').
Proof.
  induction group_tuple as [|obj rest IH]; intros res_list Hlen.
  - simpl. eauto.
  - rewrite place_items_step by exact Hlen.
    destruct (negb (in_res_list obj res_list)); [|eauto].
    destruct (nth_error res_list (slot obj)) as [[y|]|]; eauto.
    apply IH. rewrite list_set_length. exact Hlen.
Qed.

(** What a run without collision establishes. *)
Lemma place_items_placed (group_tuple : list A) :
  forall res_list res',
    length res_list = Z.to_nat n ->
    place_items group_tuple n a r prime res_list = Ok (false, res') ->
    length res' = Z.to_nat n /\
    NoDup (map slot group_tuple) /\
    ForallOrdPairs (fun x y => py_eq x y = false) group_tuple /\
    (forall obj, In obj group_tuple ->
       in_res_list obj res_list = false /\
       nth_error res_list (slot obj) = Some None /\
       nth_error res' (slot obj) = Some (Some obj)) /\
    (forall k, ~ In k (map slot group_tuple) ->
       nth_error res' k = nth_error res_list k) /\
    Permutation (items_of res') (group_tuple ++ items_of res_list) /\
    none_free group_tuple.
Proof.
  induction group_tuple as [|obj rest IH]; intros res_list res' Hlen Hrun.
  - simpl in Hrun. inversion Hrun; subst res'.
    repeat split; auto; try constructor; try contradiction.
    intros x [].
  - rewrite place_items_step in Hrun by exact Hlen.
    destruct (in_res_list obj res_list) eqn:Hin; simpl in Hrun; [discriminate|].
    destruct (nth_error res_list (slot obj)) as [[y|]|] eqn:Hslot;
      try discriminate.
    apply IH in Hrun; [|rewrite list_set_length; exact Hlen].
    destruct Hrun as (Hlen' & Hnd & Hpairs & Hobjs & Hframe & Hperm & Hnf).
    assert (Hfresh : ~ In (slot obj) (map slot rest)).
    { intros Hmem. apply in_map_iff in Hmem. destruct Hmem as (y & Hy & Hyin).
      destruct (Hobjs y Hyin) as (_ & Hnone & _).
      rewrite Hy, nth_error_list_set_same in Hnone; [discriminate|].
      rewrite Hlen. apply slot_of_lt. }
    split; [exact Hlen'|].
    split; [simpl; constructor; assumption|].
    split.
    { constructor; [|exact Hpairs].
      apply Forall_forall. intros y Hy.
      destruct (Hobjs y Hy) as (Hy1 & _ & _).
      rewrite (in_res_list_list_set _ _ _ _ Hslot (Hnf y Hy)) in Hy1.
      apply orb_false_iff in Hy1. tauto. }
    split.
    { intros y [<-|Hy].
      - split; [exact Hin|]. split; [exact Hslot|].
        rewrite (Hframe _ Hfresh). apply nth_error_list_set_same.
        rewrite Hlen. apply slot_of_lt.
      - destruct (Hobjs y Hy) as (Hy1 & Hy2 & Hy3).
        rewrite (in_res_list_list_set _ _ _ _ Hslot (Hnf y Hy)) in Hy1.
        apply orb_false_iff in Hy1.
        split; [tauto|]. split; [|exact Hy3].
        rewrite nth_error_list_set_other in Hy2; [exact Hy2|].
        intros Heq. apply Hfresh. rewrite <- Heq. apply in_map. exact Hy. }
    split.
    { intros k Hk. simpl in Hk.
      rewrite Hframe by tauto.
      apply nth_error_list_set_other. intros ->. tauto. }
    split.
    { rewrite Hperm, (items_of_list_set _ _ obj Hslot).
      simpl. symmetry. apply Permutation_middle. }
    intros y [<-|Hy]; [|exact (Hnf y Hy)].
    exact (in_res_list_None_slot _ _ _ Hslot Hin).
Qed.

(** Conversely, a collision-free tuple is placed in full. *)
Lemma place_items_complete (group_tuple : list A) :
  forall res_list,
    length res_list = Z.to_nat n ->
    NoDup (map slot group_tuple) ->
    ForallOrdPairs (fun x y => py_eq x y = false) group_tuple ->
    none_free group_tuple ->
    (forall obj, In obj group_tuple ->
       in_res_list obj res_list = false /\
       nth_error res_list (slot obj) = Some None) ->
    exists res', place_items group_tuple n a r prime res_list = Ok (false, res').
Proof.
  induction group_tuple as [|obj rest IH]; intros res_list Hlen Hnd Hpairs Hnf Hfree.
  - simpl. eauto.
  - rewrite place_items_step by exact Hlen.
    destruct (Hfree obj (or_introl eq_refl)) as (Hin & Hslot).
    rewrite Hin, Hslot. simpl.
    inversion Hnd as [|? ? Hfresh Hnd']; subst.
    inversion Hpairs as [|? ? Hobj Hpairs']; subst.
    apply IH; [rewrite list_set_length; exact Hlen|exact Hnd'|exact Hpairs'| |].
    { intros y Hy. apply Hnf. right. exact Hy. }
    intros y Hy. destruct (Hfree y (or_intror Hy)) as (Hy1 & Hy2).
    rewrite (in_res_list_list_set _ _ _ _ Hslot (Hnf y (or_intror Hy))), Hy1.
    rewrite Forall_forall in Hobj. rewrite (Hobj y Hy). split; [reflexivity|].
    rewrite nth_error_list_set_other; [exact Hy2|].
    intros Heq. apply Hfresh. rewrite <- Heq. apply in_map. exact Hy.
Qed.
End PlaceItems.

Lemma for_range_none_inv {B : Type} (body : Z -> result (option B)) (count : nat) :
  forall start : Z,
    for_range body start count = Ok None ->
    forall i, start <= i < start + Z.of_nat count -> body i = Ok None.
Proof.
  induction count as [|k IH]; intros start Hf i Hi; simpl in Hf.
  - lia.
  - destruct (body start) as [[b|]|e] eqn:E; simpl in Hf; try discriminate.
    destruct (Z.eq_dec i start) as [->|Hne]; [exact E|].
    apply (IH _ Hf). lia.
Qed.

Lemma PHF_R_LIMIT_pos (py : PyRuntime) : 0 < PHF_R_LIMIT py.
Proof.
  unfold PHF_R_LIMIT. destruct (sys_maxsize py >? 2 ^ 64); lia.
Qed.

Section GenPHF.
Context {A : Type} `{Hashable A}.

Lemma NoDup_slots (group_tuple : list A) (n a r prime : Z) :
  0 < n ->
  NoDup (map (slot_of n a r prime) group_tuple) <->
  NoDup (map (fun obj => phf_h a r prime n (py_hash obj)) group_tuple).
Proof.
  intros Hn.
  assert (Hinj : forall x y : A,
             slot_of n a r prime x = slot_of n a r prime y <->
             phf_h a r prime n (py_hash x) = phf_h a r prime n (py_hash y)).
  { intros x y. unfold slot_of.
    pose proof (phf_h_range a r prime (py_hash x) Hn).
    pose proof (phf_h_range a r prime (py_hash y) Hn).
    split; intros E; [apply Z2Nat.inj in E; lia|rewrite E; reflexivity]. }
  induction group_tuple as [|x t IH]; simpl.
  - split; constructor.
  - split; intros Hnd; inversion Hnd as [|? ? Hnotin Hnd']; subst;
      (constructor; [|apply IH; exact Hnd']);
      intros Hin; apply Hnotin; apply in_map_iff in Hin;
      destruct Hin as (y & Hy & Hyin); apply in_map_iff; exists y;
      (split; [apply Hinj; exact Hy|exact Hyin]).
Qed.

Lemma items_of_repeat_None (k : nat) : items_of (repeat (@None A) k) = [].
Proof. induction k; simpl; auto. Qed.

Lemma in_res_list_repeat_None (obj : A) (k : nat) :
  py_eq_None obj = false -> in_res_list obj (repeat None k) = false.
Proof.
  unfold in_res_list. intros E. induction k as [|k IH]; simpl; [reflexivity|].
  rewrite IH, E. reflexivity.
Qed.

Lemma nth_error_repeat_None (k i : nat) :
  (i < k)%nat -> nth_error (repeat (@None A) k) i = Some None.
Proof.
  revert i. induction k as [|k IH]; intros [|i] Hi; simpl; try lia; auto.
  apply IH. lia.
Qed.

(** [_gen_res_a_r_phf] on a non-empty tuple, with [tuple_len] its length:
    either the candidate is collision free and the result is the tuple
    rearranged so that every item sits at its slot, or it is not and the
    result is the empty tuple. *)
Lemma gen_res_spec (group_tuple : list A) (a r prime : Z) :
  group_tuple <> [] -> 0 <= r -> prime <> 0 ->
  let n := Z.of_nat (length group_tuple) in
  (collision_free group_tuple n a r prime /\ none_free group_tuple /\
   exists res, _gen_res_a_r_phf group_tuple n a r prime = Ok res /\
               res <> [] /\
               Permutation res group_tuple /\
               forall obj, In obj group_tuple ->
                           nth_error res (slot_of n a r prime obj) = Some obj) \/
  (~ (collision_free group_tuple n a r prime /\ none_free group_tuple) /\
   _gen_res_a_r_phf group_tuple n a r prime = Ok []).
Proof.
  intros Hne Hr Hprime n.
  assert (Hn : 0 < n).
  { subst n. destruct group_tuple; [contradiction|simpl; lia]. }
  assert (Hlen0 : length (repeat (@None A) (Z.to_nat n)) = Z.to_nat n)
    by apply repeat_length.
  destruct (@place_items_total _ _ n a r prime Hn Hr Hprime group_tuple _ Hlen0)
    as (c & res' & Hrun).
  unfold _gen_res_a_r_phf, collision_free. rewrite Hrun. simpl.
  destruct c.
  - right. split; [|reflexivity].
    intros ((Hnd & Hpairs) & Hnf).
    destruct (@place_items_complete _ _ n a r prime Hn Hr Hprime group_tuple
                (repeat None (Z.to_nat n)) Hlen0) as (res'' & Hrun'').
    + apply NoDup_slots; assumption.
    + exact Hpairs.
    + exact Hnf.
    + intros obj Hobj. split; [apply in_res_list_repeat_None; exact (Hnf obj Hobj)|].
      apply nth_error_repeat_None. apply slot_of_lt. exact Hn.
    + rewrite Hrun in Hrun''. discriminate.
  - left.
    destruct (@place_items_placed _ _ n a r prime Hn Hr Hprime group_tuple _ _
                Hlen0 Hrun)
      as (Hlen' & Hnd & Hpairs & Hobjs & _ & Hperm & Hnf).
    rewrite items_of_repeat_None, app_nil_r in Hperm.
    assert (Hfull : existsb is_None res' = false).
    { apply items_of_full. rewrite (Permutation_length Hperm), Hlen'.
      subst n. rewrite Nat2Z.id. reflexivity. }
    assert (Hfull' : None_in_res_list res' = false).
    { apply None_in_res_list_full; [exact Hfull|].
      intros x Hx. apply Hnf. apply (Permutation_in _ Hperm). exact Hx. }
    rewrite Hfull'. simpl.
    split; [split; [apply NoDup_slots in Hnd; assumption|exact Hpairs]|].
    split; [exact Hnf|].
    exists (items_of res'). split; [reflexivity|].
    split.
    { intros Hnil. rewrite Hnil in Hperm. apply Permutation_nil in Hperm.
      contradiction. }
    split; [exact Hperm|].
    intros obj Hobj. apply nth_error_items_of; [exact Hfull|].
    apply (Hobjs obj Hobj).
Qed.

Lemma gen_res_empty (a r prime : Z) :
  _gen_res_a_r_phf (@nil A) 0 a r prime = Ok [].
Proof. reflexivity. Qed.

Lemma gen_phf_candidate_None (group_tuple : list A) (n prime a r : Z) :
  gen_phf_candidate group_tuple n prime a r = Ok None <->
  _gen_res_a_r_phf group_tuple n a r prime = Ok [].
Proof.
  unfold gen_phf_candidate.
  destruct (_gen_res_a_r_phf group_tuple n a r prime) as [[|x t]|e]; simpl;
    split; intros E; try discriminate; reflexivity.
Qed.

Lemma gen_phf_candidate_Some (group_tuple : list A) (n prime a r : Z)
      (res : list A) (phf : ResultPHF) :
  gen_phf_candidate group_tuple n prime a r = Ok (Some (res, phf)) <->
  _gen_res_a_r_phf group_tuple n a r prime = Ok res /\ res <> [] /\
  phf = mkResultPHF a r prime n.
Proof.
  unfold gen_phf_candidate.
  destruct (_gen_res_a_r_phf group_tuple n a r prime) as [[|x t]|e]; simpl; split.
  - discriminate.
  - intros (E & Hne & _). inversion E; subst. contradiction.
  - intros E. inversion E; subst. repeat split. discriminate.
  - intros (E & _ & ->). inversion E; subst. reflexivity.
  - discriminate.
  - intros (E & _). discriminate.
Qed.

Lemma gen_phf_inv (py : PyRuntime) (group_tuple : list A)
      (res : list A) (phf : ResultPHF) :
  gen_phf py group_tuple = Ok (res, phf) ->
  let n := Z.of_nat (length group_tuple) in
  let prime := get_phf_prime n in
  exists a r,
    1 <= a < PHF_A_LIMIT /\ 0 <= r < PHF_R_LIMIT py /\
    phf = mkResultPHF a r prime n /\
    _gen_res_a_r_phf group_tuple n a r prime = Ok res /\ res <> [] /\
    forall a' r', 1 <= a' < PHF_A_LIMIT -> 0 <= r' < PHF_R_LIMIT py ->
                  before a' r' a r ->
                  _gen_res_a_r_phf group_tuple n a' r' prime = Ok [].
Proof.
  intros Hgen n prime. unfold gen_phf in Hgen. fold n prime in Hgen.
  pose proof (PHF_R_LIMIT_pos py) as HR.
  assert (HA : Z.of_nat (Z.to_nat (PHF_A_LIMIT - 1)) = PHF_A_LIMIT - 1)
    by (apply Z2Nat.id; unfold PHF_A_LIMIT; lia).
  assert (HR' : Z.of_nat (Z.to_nat (PHF_R_LIMIT py)) = PHF_R_LIMIT py)
    by (apply Z2Nat.id; lia).
  match type of Hgen with
  | bind ?m _ = _ => remember m as loop eqn:Hloop
  end.
  symmetry in Hloop.
  destruct loop as [[found|]|e]; cbv [bind] in Hgen; try discriminate Hgen.
  inversion Hgen; subst found.
  apply for_range_found in Hloop. destruct Hloop as (a & Ha & Hinner & Hbefore).
  apply for_range_found in Hinner. destruct Hinner as (r & Hr & Hcand & Hbefore_r).
  apply gen_phf_candidate_Some in Hcand. destruct Hcand as (Hres & Hne & Hphf).
  exists a, r. rewrite HA in Ha. rewrite HR' in Hr.
  repeat split; try lia; try assumption.
  intros a' r' Ha' Hr' [Hlt|[-> Hlt]].
  - apply gen_phf_candidate_None.
    assert (Hrow : 1 <= a' < a) by lia.
    apply Hbefore in Hrow.
    eapply for_range_none_inv in Hrow; [exact Hrow|lia].
  - apply gen_phf_candidate_None. apply Hbefore_r. lia.
Qed.

Lemma gen_phf_first (py : PyRuntime) (group_tuple : list A) (a r : Z) (res : list A) :
  let n := Z.of_nat (length group_tuple) in
  let prime := get_phf_prime n in
  1 <= a < PHF_A_LIMIT -> 0 <= r < PHF_R_LIMIT py ->
  _gen_res_a_r_phf group_tuple n a r prime = Ok res -> res <> [] ->
  (forall a' r', 1 <= a' < PHF_A_LIMIT -> 0 <= r' < PHF_R_LIMIT py ->
                 before a' r' a r ->
                 _gen_res_a_r_phf group_tuple n a' r' prime = Ok []) ->
  gen_phf py group_tuple = Ok (res, mkResultPHF a r prime n).
Proof.
  intros n prime Ha Hr Hres Hne Hbefore. unfold gen_phf. fold n prime.
  pose proof (PHF_R_LIMIT_pos py) as HR.
  assert (HA : Z.of_nat (Z.to_nat (PHF_A_LIMIT - 1)) = PHF_A_LIMIT - 1)
    by (apply Z2Nat.id; unfold PHF_A_LIMIT; lia).
  assert (HR' : Z.of_nat (Z.to_nat (PHF_R_LIMIT py)) = PHF_R_LIMIT py)
    by (apply Z2Nat.id; lia).
  rewrite (for_range_first _ _ (i := a) (b := (res, mkResultPHF a r prime n))).
  - reflexivity.
  - lia.
  - apply (for_range_first _ _ (i := r)).
    + lia.
    + apply gen_phf_candidate_Some. auto.
    + intros j Hj. apply gen_phf_candidate_None.
      apply Hbefore; [lia|lia|right; lia].
  - intros j Hj. apply for_range_exhausted. intros i Hi.
    apply gen_phf_candidate_None. apply Hbefore; [lia|lia|left; lia].
Qed.

Lemma gen_phf_exhausted (py : PyRuntime) (group_tuple : list A) :
  let n := Z.of_nat (length group_tuple) in
  let prime := get_phf_prime n in
  (forall a r, 1 <= a < PHF_A_LIMIT -> 0 <= r < PHF_R_LIMIT py ->
               _gen_res_a_r_phf group_tuple n a r prime = Ok []) ->
  gen_phf py group_tuple
  = Raise (ValueError
             "could not find satisfactory parameter values to generate the PHF").
Proof.
  intros n prime Hall. unfold gen_phf. fold n prime.
  pose proof (PHF_R_LIMIT_pos py) as HR.
  assert (HA : Z.of_nat (Z.to_nat (PHF_A_LIMIT - 1)) = PHF_A_LIMIT - 1)
    by (apply Z2Nat.id; unfold PHF_A_LIMIT; lia).
  assert (HR' : Z.of_nat (Z.to_nat (PHF_R_LIMIT py)) = PHF_R_LIMIT py)
    by (apply Z2Nat.id; lia).
  rewrite for_range_exhausted; [reflexivity|].
  intros a Ha. apply for_range_exhausted. intros r Hr.
  apply gen_phf_candidate_None. apply Hall; lia.
Qed.
End GenPHF.

(** ** The PHF over IR nodes *)

Lemma py_getitem_map {A B : Type} (f : A -> B) (l : list A) (i : Z) (x : A) :
  py_getitem l i = Ok x -> py_getitem (map f l) i = Ok (f x).
Proof.
  unfold py_getitem. rewrite length_map.
  destruct (norm_index (Z.of_nat (length l)) i <? 0); [intros E; discriminate E|].
  rewrite nth_error_map.
  destruct (nth_error l _); simpl; intros E; inversion E; reflexivity.
Qed.

Lemma IRNode_init_irhash (py : PyRuntime) (ir : BaseIR) :
  irhash_uid (node_irhash (IRNode_init py ir)) = node_uid (IRNode_init py ir).
Proof. reflexivity. Qed.

Lemma distinct_uids (nodes : list IRNode) :
  ForallOrdPairs (fun x y => py_eq x y = false) nodes <-> NoDup (map node_uid nodes).
Proof.
  induction nodes as [|x t IH]; simpl.
  - split; constructor.
  - split; intros Hx.
    + inversion Hx as [|? ? Hall Hrest]; subst. constructor; [|apply IH; exact Hrest].
      intros Hin. apply in_map_iff in Hin. destruct Hin as (y & Hy & Hyin).
      rewrite Forall_forall in Hall. specialize (Hall y Hyin). simpl in Hall.
      apply Z.eqb_neq in Hall. congruence.
    + inversion Hx as [|? ? Hnotin Hrest]; subst. constructor; [|apply IH; exact Hrest].
      apply Forall_forall. intros y Hy. simpl. apply Z.eqb_neq.
      intros E. apply Hnotin. rewrite E. apply in_map. exact Hy.
Qed.

(** For IR nodes a candidate is judged by the uids alone. *)
Lemma collision_free_uids (nodes : list IRNode) (n a r prime : Z) :
  collision_free nodes n a r prime <->
  NoDup (map (phf_h a r prime n) (map node_uid nodes)) /\ NoDup (map node_uid nodes).
Proof.
  unfold collision_free. rewrite distinct_uids, map_map. simpl. tauto.
Qed.

Lemma gen_res_nonempty_iff {A : Type} `{Hashable A}
      (group_tuple : list A) (a r prime : Z) :
  group_tuple <> [] -> 0 <= r -> prime <> 0 ->
  let n := Z.of_nat (length group_tuple) in
  (collision_free group_tuple n a r prime -> none_free group_tuple ->
   exists res, _gen_res_a_r_phf group_tuple n a r prime = Ok res /\ res <> []) /\
  (~ collision_free group_tuple n a r prime ->
   _gen_res_a_r_phf group_tuple n a r prime = Ok []) /\
  (_gen_res_a_r_phf group_tuple n a r prime = Ok [] -> none_free group_tuple ->
   ~ collision_free group_tuple n a r prime) /\
  (forall res, _gen_res_a_r_phf group_tuple n a r prime = Ok res -> res <> [] ->
               collision_free group_tuple n a r prime) /\
  (forall res, _gen_res_a_r_phf group_tuple n a r prime = Ok res -> res <> [] ->
               none_free group_tuple) /\
  (~ none_free group_tuple -> _gen_res_a_r_phf group_tuple n a r prime = Ok []).
Proof.
  intros Hne Hr Hprime. cbv zeta.
  pose proof (gen_res_spec a Hne Hr Hprime) as Hspec. cbv zeta in Hspec.
  destruct Hspec as [(Hcf & Hnf & res & Hres & Hnn & _)|(Hncf & Hres)].
  - split; [intros _ _; exists res; auto|].
    split; [intros Hncf; contradiction|].
    split.
    { intros E. rewrite Hres in E. inversion E. subst. contradiction. }
    split; [intros; exact Hcf|].
    split; [intros; exact Hnf|].
    intros Hnnf. contradiction.
  - split; [intros Hcf Hnf; exfalso; apply Hncf; split; assumption|].
    split; [intros _; exact Hres|].
    split; [intros _ Hnf Hcf; apply Hncf; split; assumption|].
    split; [intros res E Hnn; rewrite Hres in E; inversion E; subst; contradiction|].
    split; [intros res E Hnn; rewrite Hres in E; inversion E; subst; contradiction|].
    intros _. exact Hres.
Qed.

Lemma IRNode_none_free (nodes : list IRNode) : none_free nodes.
Proof. intros x _. reflexivity. Qed.

Lemma gen_phf_nonempty {A : Type} `{Hashable A} (py : PyRuntime)
      (group_tuple res : list A) (phf : ResultPHF) :
  gen_phf py group_tuple = Ok (res, phf) -> group_tuple <> [].
Proof.
  intros Hgen ->. apply gen_phf_inv in Hgen.
  destruct Hgen as (a & r & _ & _ & _ & Hres & Hne & _).
  simpl in Hres. rewrite gen_res_empty in Hres. inversion Hres. subst. contradiction.
Qed.

(** What a successful [gen_phf] returns, in one place. *)
Lemma gen_phf_sound {A : Type} `{Hashable A} (py : PyRuntime)
      (group_tuple res : list A) (phf : ResultPHF) :
  gen_phf py group_tuple = Ok (res, phf) ->
  let n := Z.of_nat (length group_tuple) in
  let prime := get_phf_prime n in
  let a := phf_a phf in
  let r := phf_r phf in
  0 < n /\ phf = mkResultPHF a r prime n /\
  1 <= a < PHF_A_LIMIT /\ 0 <= r < PHF_R_LIMIT py /\
  _gen_res_a_r_phf group_tuple n a r prime = Ok res /\
  collision_free group_tuple n a r prime /\
  Permutation res group_tuple /\
  (forall obj, In obj group_tuple ->
               py_getitem res (phf_h a r prime n (py_hash obj)) = Ok obj) /\
  (forall a' r', 1 <= a' < PHF_A_LIMIT -> 0 <= r' < PHF_R_LIMIT py ->
                 before a' r' a r ->
                 _gen_res_a_r_phf group_tuple n a' r' prime = Ok [] /\
                 ~ collision_free group_tuple n a' r' prime).
Proof.
  intros Hgen n prime a r.
  pose proof (@gen_phf_nonempty _ _ py group_tuple res phf Hgen) as Hne.
  pose proof (get_phf_prime_pos n) as Hprime.
  assert (Hn : 0 < n) by (subst n; destruct group_tuple; [contradiction|simpl; lia]).
  apply gen_phf_inv in Hgen. fold n prime in Hgen.
  destruct Hgen as (a0 & r0 & Ha & Hr & Hphf & Hres & Hnn & Hbefore).
  assert (a = a0) by (subst a; rewrite Hphf; reflexivity).
  assert (r = r0) by (subst r; rewrite Hphf; reflexivity).
  subst a0 r0.
  pose proof (@gen_res_spec _ _ group_tuple a r prime Hne ltac:(lia) ltac:(lia))
    as Hspec.
  cbv zeta in Hspec. change (Z.of_nat (length group_tuple)) with n in Hspec.
  destruct Hspec as [(Hcf & Hnf & res' & Hres' & _ & Hperm & Hslots)|(_ & Hres')].
  2: { rewrite Hres in Hres'. injection Hres' as ->. contradiction. }
  rewrite Hres in Hres'. injection Hres' as <-.
  repeat split; try lia; try assumption; try apply Hcf.
  - intros obj Hobj.
    pose proof (phf_h_range a r prime (py_hash obj) Hn) as Hrange.
    rewrite py_getitem_in_range.
    + specialize (Hslots obj Hobj). unfold slot_of in Hslots. rewrite Hslots.
      reflexivity.
    + rewrite (Permutation_length Hperm). fold n. lia.
  - apply Hbefore; assumption.
  - pose proof (@gen_res_nonempty_iff _ _ group_tuple a' r' prime Hne
                  ltac:(lia) ltac:(lia)) as Hiff.
    cbv zeta in Hiff. destruct Hiff as (_ & _ & Hno & _).
    apply Hno; [apply Hbefore; assumption|exact Hnf].
Qed.

(** A tuple with an item that equals [None] is never placed. *)
Lemma gen_phf_none_free {A : Type} `{Hashable A} (py : PyRuntime)
      (group_tuple res : list A) (phf : ResultPHF) :
  gen_phf py group_tuple = Ok (res, phf) -> none_free group_tuple.
Proof.
  intros Hgen.
  pose proof (@gen_phf_nonempty _ _ py group_tuple res phf Hgen) as Hne.
  pose proof (get_phf_prime_pos (Z.of_nat (length group_tuple))) as Hprime.
  apply gen_phf_inv in Hgen.
  destruct Hgen as (a & r & Ha & Hr & _ & Hres & Hnn & _).
  pose proof (@gen_res_nonempty_iff _ _ group_tuple a r
                (get_phf_prime (Z.of_nat (length group_tuple))) Hne
                ltac:(lia) ltac:(lia)) as Hiff.
  cbv zeta in Hiff. destruct Hiff as (_ & _ & _ & _ & Hnf & _).
  exact (Hnf res Hres Hnn).
Qed.

(** C1.  When [gen_phf] returns [(res, phf)] for a tuple of IR nodes with
    pairwise distinct uids, [phf] is [(a, r, prime, n)] with [n] the number of
    nodes, [prime] the prime of that size class and [(a, r)] within the search
    limits; [h] is injective over the node uids; every node sits at slot
    [h(uid)] of [res]; and the [NodeSet] built from [res] and [phf] gives each
    node back when indexed by the node's identity. *)
Theorem gen_phf_perfect_hash
  (py : PyRuntime) (irs : list BaseIR) (res : list IRNode) (phf : ResultPHF) :
  let nodes := map (IRNode_init py) irs in
  NoDup (map node_uid nodes) ->
  gen_phf py nodes = Ok (res, phf) ->
  let h := phf_h (phf_a phf) (phf_r phf) (phf_prime phf) (phf_n phf) in
  phf_n phf = Z.of_nat (length nodes) /\
  phf_prime phf = get_phf_prime (phf_n phf) /\
  1 <= phf_a phf < PHF_A_LIMIT /\
  0 <= phf_r phf < PHF_R_LIMIT py /\
  (forall x y, In x nodes -> In y nodes ->
               h (node_uid x) = h (node_uid y) -> node_uid x = node_uid y) /\
  (forall x, In x nodes -> py_getitem res (h (node_uid x)) = Ok x) /\
  exists ns,
    NodeSet_new_set (map PyIRNode res) phf = Ok ns /\
    forall x, In x nodes ->
      exists y, NodeSet_getitem ns (PyIRHash (node_irhash x)) = Ok (PyIRNode y) /\
                y = x /\ py_eq y x = true.
Proof.
  intros nodes Hdistinct Hgen h.
  pose proof (gen_phf_sound _ _ Hgen) as Hsound. cbv zeta in Hsound.
  destruct Hsound as (Hn & Hphf & Ha & Hr & _ & Hcf & Hperm & Hslots & _).
  pose proof (get_phf_prime_pos (Z.of_nat (length nodes))) as Hprime.
  assert (En : phf_n phf = Z.of_nat (length nodes)) by (rewrite Hphf; reflexivity).
  assert (Ep : phf_prime phf = get_phf_prime (Z.of_nat (length nodes)))
    by (rewrite Hphf; reflexivity).
  assert (Eh : forall u, h u = phf_h (phf_a phf) (phf_r phf)
                               (get_phf_prime (Z.of_nat (length nodes)))
                               (Z.of_nat (length nodes)) u).
  { intros u. unfold h. rewrite En, Ep. reflexivity. }
  split; [exact En|]. split; [rewrite En; exact Ep|].
  split; [exact Ha|]. split; [exact Hr|].
  split.
  { intros x y Hx Hy Hxy. rewrite !Eh in Hxy.
    destruct Hcf as (Hnd & _).
    assert (Exy : x = y)
      by (apply (@NoDup_map_injective _ _ _ _ Hnd x y Hx Hy); exact Hxy).
    rewrite Exy. reflexivity. }
  split.
  { intros x Hx. rewrite Eh. apply (Hslots x Hx). }
  assert (Hall : forallb is_IRNode (map PyIRNode res) = true).
  { apply forallb_forall. intros e He. apply in_map_iff in He.
    destruct He as (z & <- & _). reflexivity. }
  exists {| ns_data := map PyIRNode res; ns_phf := Some phf |}.
  split.
  { unfold NodeSet_new_set, NodeSet_init. rewrite Hall. reflexivity. }
  intros x Hx. exists x. split; [|split; [reflexivity|apply Z.eqb_refl]].
  assert (Euid : irhash_uid (node_irhash x) = node_uid x).
  { unfold nodes in Hx. apply in_map_iff in Hx. destruct Hx as (ir & <- & _).
    apply IRNode_init_irhash. }
  unfold NodeSet_getitem. simpl. rewrite Euid.
  rewrite get_hash_ok by (rewrite ?En, ?Ep; lia). simpl.
  apply py_getitem_map. fold (h (node_uid x)). rewrite Eh. apply (Hslots x Hx).
Qed.

Lemma gen_phf_perfect_hash_witness :
  let nodes := map (IRNode_init demo_py) [unit_A; unit_B] in
  exists res phf,
    gen_phf demo_py nodes = Ok (res, phf) /\
    forall x, In x nodes ->
      py_getitem res (phf_h (phf_a phf) (phf_r phf) (phf_prime phf) (phf_n phf)
                            (node_uid x)) = Ok x.
Proof.
  intros nodes.
  assert (Hdistinct : NoDup (map node_uid nodes)).
  { repeat constructor; simpl; intuition discriminate. }
  eexists. eexists.
  assert (Hgen : gen_phf demo_py nodes = Ok (?[res], ?[phf]))
    by (vm_compute; reflexivity).
  split; [exact Hgen|].
  apply (gen_phf_perfect_hash demo_py [unit_A; unit_B] Hdistinct Hgen).
Defined.

Lemma forallb_Z_range (P : Z -> bool) (lo : Z) (count : nat) :
  forallb P (map (fun k => lo + Z.of_nat k) (seq 0 count)) = true ->
  forall i, lo <= i < lo + Z.of_nat count -> P i = true.
Proof.
  intros Hall i Hi. rewrite forallb_forall in Hall. apply Hall.
  apply in_map_iff. exists (Z.to_nat (i - lo)). split; [lia|].
  apply in_seq. lia.
Qed.

(** A candidate on which the run over a tuple of nodes comes back empty is
    not collision free. *)
Lemma empty_run_not_collision_free (nodes : list IRNode) (a r : Z) :
  nodes <> [] -> 0 <= r ->
  let n := Z.of_nat (length nodes) in
  (match _gen_res_a_r_phf nodes n a r (get_phf_prime n) with
   | Ok [] => true
   | _ => false
   end) = true ->
  ~ collision_free nodes n a r (get_phf_prime n).
Proof.
  intros Hne Hr n Hrun.
  pose proof (get_phf_prime_pos n) as Hprime.
  pose proof (@gen_res_nonempty_iff _ _ nodes a r (get_phf_prime n) Hne Hr
                ltac:(lia)) as Hiff.
  cbv zeta in Hiff. fold n in Hiff. destruct Hiff as (_ & _ & Hno & _).
  apply Hno; [|apply IRNode_none_free].
  destruct (_gen_res_a_r_phf nodes n a r (get_phf_prime n)) as [[|x t]|e];
    [reflexivity|discriminate Hrun|discriminate Hrun].
Qed.

(** C6.  [gen_phf] walks the candidates [(a, r)] row by row, [a] from 1 in
    the outer loop and [r] from 0 in the inner one, and answers with the first
    candidate that places every item without collision.  Both ways: what it
    returns is a collision-free candidate within the limits with no
    collision-free candidate before it, and whenever a candidate within the
    limits is collision free and none before it is, [gen_phf] on a non-empty
    tuple returns that very candidate.  The choice depends on the tuple only
    through the items' hashes in their order, so a second run on the same
    tuple returns the same [(a, r)]. *)
Theorem gen_phf_first_candidate (py : PyRuntime) (nodes : list IRNode) :
  let n := Z.of_nat (length nodes) in
  let prime := get_phf_prime n in
  (forall res phf,
     gen_phf py nodes = Ok (res, phf) ->
     let a := phf_a phf in
     let r := phf_r phf in
     phf = mkResultPHF a r prime n /\
     1 <= a < PHF_A_LIMIT /\ 0 <= r < PHF_R_LIMIT py /\
     collision_free nodes n a r prime /\
     _gen_res_a_r_phf nodes n a r prime = Ok res /\
     (forall a' r', 1 <= a' < PHF_A_LIMIT -> 0 <= r' < PHF_R_LIMIT py ->
                    before a' r' a r ->
                    _gen_res_a_r_phf nodes n a' r' prime = Ok [] /\
                    ~ collision_free nodes n a' r' prime) /\
     (forall nodes2, map node_uid nodes2 = map node_uid nodes ->
                     exists res2, gen_phf py nodes2 = Ok (res2, phf))) /\
  (forall a r,
     nodes <> [] ->
     1 <= a < PHF_A_LIMIT -> 0 <= r < PHF_R_LIMIT py ->
     collision_free nodes n a r prime ->
     (forall a' r', 1 <= a' < PHF_A_LIMIT -> 0 <= r' < PHF_R_LIMIT py ->
                    before a' r' a r ->
                    ~ collision_free nodes n a' r' prime) ->
     exists res,
       gen_phf py nodes = Ok (res, mkResultPHF a r prime n) /\
       _gen_res_a_r_phf nodes n a r prime = Ok res).
Proof.
  intros n prime.
  pose proof (get_phf_prime_pos n) as Hprime. fold prime in Hprime.
  assert (Hrun : forall l : list IRNode,
             l <> [] -> Z.of_nat (length l) = n ->
             (forall a' r', collision_free l n a' r' prime <->
                            collision_free nodes n a' r' prime) ->
             forall a r,
               1 <= a < PHF_A_LIMIT -> 0 <= r < PHF_R_LIMIT py ->
               collision_free nodes n a r prime ->
               (forall a' r', 1 <= a' < PHF_A_LIMIT -> 0 <= r' < PHF_R_LIMIT py ->
                              before a' r' a r ->
                              ~ collision_free nodes n a' r' prime) ->
               exists res,
                 gen_phf py l = Ok (res, mkResultPHF a r prime n) /\
                 _gen_res_a_r_phf l n a r prime = Ok res).
  { intros l Hne Hlen Hsame a r Ha Hr Hcf Hbefore.
    pose proof (fun a' r' (H0 : 0 <= r') =>
                  @gen_res_nonempty_iff _ _ l a' r' prime Hne H0 ltac:(lia))
      as Hiff.
    cbv zeta in Hiff. rewrite Hlen in Hiff.
    destruct (Hiff a r ltac:(lia)) as (Hsome & _).
    destruct (Hsome (proj2 (Hsame a r) Hcf) (IRNode_none_free l))
      as (res & Hres & Hnn).
    exists res. split; [|exact Hres].
    pose proof (@gen_phf_first _ _ py l a r res) as Hfirst.
    cbv zeta in Hfirst. rewrite Hlen in Hfirst. fold prime in Hfirst.
    apply Hfirst; try assumption.
    intros a' r' Ha' Hr' Hb.
    destruct (Hiff a' r' ltac:(lia)) as (_ & Hnone & _).
    apply Hnone. rewrite Hsame. apply (Hbefore a' r' Ha' Hr' Hb). }
  split.
  - intros res phf Hgen a r.
    pose proof (gen_phf_sound _ _ Hgen) as Hsound. cbv zeta in Hsound.
    fold n prime a r in Hsound.
    destruct Hsound as (Hn & Hphf & Ha & Hr & Hres & Hcf & _ & _ & Hbefore).
    repeat match goal with |- _ /\ _ => split; [assumption|] end.
    intros nodes2 Huids.
    assert (Hlen : Z.of_nat (length nodes2) = n).
    { subst n. rewrite <- (length_map node_uid nodes2), Huids, length_map.
      reflexivity. }
    assert (Hne2 : nodes2 <> []).
    { intros ->. simpl in Hlen. lia. }
    assert (Hsame : forall a' r', collision_free nodes2 n a' r' prime <->
                                  collision_free nodes n a' r' prime).
    { intros a' r'. rewrite !collision_free_uids, Huids. reflexivity. }
    destruct (Hrun nodes2 Hne2 Hlen Hsame a r Ha Hr Hcf) as (res2 & Hgen2 & _).
    { intros a' r' Ha' Hr' Hb. apply (Hbefore a' r' Ha' Hr' Hb). }
    exists res2. rewrite Hphf. exact Hgen2.
  - intros a r Hne Ha Hr Hcf Hbefore.
    apply (Hrun nodes Hne eq_refl (fun a' r' => iff_refl _) a r Ha Hr Hcf Hbefore).
Qed.

Lemma gen_phf_first_candidate_witness :
  exists res,
    gen_phf row2_py (map (IRNode_init row2_py) row2_units)
    = Ok (res, mkResultPHF 2 2 37 4).
Proof.
  pose proof (gen_phf_first_candidate row2_py (map (IRNode_init row2_py) row2_units))
    as Hthm.
  cbv zeta in Hthm. destruct Hthm as (_ & Hfirst).
  assert (Hne : map (IRNode_init row2_py) row2_units <> []) by discriminate.
  assert (Hrow1 : forall r', 0 <= r' < 0 + Z.of_nat 61 ->
            (match _gen_res_a_r_phf (map (IRNode_init row2_py) row2_units)
                     4 1 r' 37 with
             | Ok [] => true
             | _ => false
             end) = true)
    by (apply forallb_Z_range; vm_compute; reflexivity).
  assert (Hrow2 : forall r', 0 <= r' < 0 + Z.of_nat 2 ->
            (match _gen_res_a_r_phf (map (IRNode_init row2_py) row2_units)
                     4 2 r' 37 with
             | Ok [] => true
             | _ => false
             end) = true)
    by (apply forallb_Z_range; vm_compute; reflexivity).
  destruct (Hfirst 2 2 Hne) as (res & Hgen & _).
  - unfold PHF_A_LIMIT. lia.
  - change (PHF_R_LIMIT row2_py) with 61. lia.
  - apply collision_free_uids. vm_compute.
    split; repeat constructor; simpl; intuition discriminate.
  - intros a' r' Ha' Hr' Hb.
    assert (HR : PHF_R_LIMIT row2_py = 61) by reflexivity.
    rewrite HR in Hr'.
    assert (Hcase : (a' = 1 /\ 0 <= r' < 61) \/ (a' = 2 /\ 0 <= r' < 2))
      by (unfold before in Hb; lia).
    destruct Hcase as [(-> & Hr1)|(-> & Hr2)].
    + apply (@empty_run_not_collision_free _ 1 r' Hne); [lia|].
      apply Hrow1. lia.
    + apply (@empty_run_not_collision_free _ 2 r' Hne); [lia|].
      apply Hrow2. lia.
  - exists res. exact Hgen.
Defined.

(** ** The graph *)

Lemma building_app (py : PyRuntime) (units : list BaseIR) (u : BaseIR) :
  building py (units ++ [u]) = fst (add_node py (building py units) u).
Proof.
  unfold building. rewrite fold_left_app. reflexivity.
Qed.

Lemma building_state (py : PyRuntime) (units : list BaseIR) :
  is_built (building py units) = false /\
  tmp_nodes (building py units) = map (IRNode_init py) units /\
  nodes (building py units) = {| ns_data := []; ns_phf := None |}.
Proof.
  induction units as [|u t IH] using rev_ind.
  - repeat split.
  - rewrite building_app. destruct IH as (Hb & Ht & Hn). simpl.
    rewrite Hb, Ht, Hn, map_app. repeat split.
Qed.

Lemma NodeSet_new_set_nodes (res : list IRNode) (phf : ResultPHF) :
  NodeSet_new_set (map PyIRNode res) phf
  = Ok {| ns_data := map PyIRNode res; ns_phf := Some phf |}.
Proof.
  unfold NodeSet_new_set, NodeSet_init.
  assert (Hall : forallb is_IRNode (map PyIRNode res) = true).
  { apply forallb_forall. intros e He. apply in_map_iff in He.
    destruct He as (z & <- & _). reflexivity. }
  rewrite Hall. reflexivity.
Qed.

Lemma any_node_nodes (test : IRNode -> bool) (attr : string) (l : list IRNode) :
  any_node test attr (map PyIRNode l) = Ok (existsb test l).
Proof.
  induction l as [|n t IH]; simpl; [reflexivity|].
  destruct (test n); [reflexivity|exact IH].
Qed.

Lemma refs_resolve_nodes {K : Type} (l : list IRNode) (phf : option ResultPHF)
      (refs : dict K IRHash) :
  refs_resolve {| ns_data := map PyIRNode l; ns_phf := phf |} refs
  = Ok (forallb (fun kh => resolves_b l (snd kh)) refs).
Proof.
  induction refs as [|[k h] t IH]; simpl; [reflexivity|].
  rewrite any_node_nodes. simpl. fold (resolves_b l h).
  destruct (resolves_b l h); [exact IH|reflexivity].
Qed.

Lemma check_refs_loop_nodes (l : list IRNode) (phf : option ResultPHF)
      (data : list IRNode) :
  check_refs_loop {| ns_data := map PyIRNode l; ns_phf := phf |} (map PyIRNode data)
  = Ok (forallb (node_ok_b l) data).
Proof.
  induction data as [|n t IH]; simpl; [reflexivity|].
  rewrite !refs_resolve_nodes. unfold node_ok_b at 1. simpl.
  destruct (forallb _ (ref_types _)); simpl; [|reflexivity].
  destruct (forallb _ (ref_fns _)); simpl; [exact IH|reflexivity].
Qed.

Lemma resolves_b_present (ns : list IRNode) (h : IRHash) :
  resolves_b ns h = true <-> present ns h.
Proof.
  unfold resolves_b, present, IRHash_eq. rewrite existsb_exists.
  split; intros (m & Hm & E); exists m; (split; [exact Hm|]).
  - apply Z.eqb_eq in E. congruence.
  - apply Z.eqb_eq. congruence.
Qed.

Lemma node_ok_b_refs (ns : list IRNode) (n : IRNode) :
  node_ok_b ns n = true <-> forall h, In h (node_refs n) -> present ns h.
Proof.
  unfold node_ok_b, node_refs. rewrite andb_true_iff, !forallb_forall. split.
  - intros (Ht & Hf) h Hh. apply resolves_b_present.
    apply in_app_or in Hh. destruct Hh as [Hh|Hh];
      apply in_map_iff in Hh; destruct Hh as (kh & <- & Hkh); auto.
  - intros Hall. split; intros kh Hkh; apply resolves_b_present, Hall, in_or_app;
      [left|right]; apply in_map; exact Hkh.
Qed.

Lemma all_ok_b_resolve (ns data : list IRNode) :
  forallb (node_ok_b ns) data = true <->
  forall n, In n data -> forall h, In h (node_refs n) -> present ns h.
Proof.
  rewrite forallb_forall. split; intros Hall n Hn; apply node_ok_b_refs, Hall, Hn.
Qed.

Lemma all_ok_b_dangling (ns data : list IRNode) :
  forallb (node_ok_b ns) data = false ->
  exists n h, In n data /\ In h (node_refs n) /\ ~ present ns h.
Proof.
  induction data as [|n t IH]; simpl; [discriminate|].
  destruct (node_ok_b ns n) eqn:E; simpl.
  - intros Ht. destruct (IH Ht) as (m & h & Hm & Hh & Hp). exists m, h. auto.
  - intros _. clear IH. unfold node_ok_b in E.
    assert (Hfind : forall K (refs : dict K IRHash),
               forallb (fun kh => resolves_b ns (snd kh)) refs = false ->
               exists h, In h (map snd refs) /\ ~ present ns h).
    { intros K refs. induction refs as [|[k h] r IHr]; simpl; [discriminate|].
      destruct (resolves_b ns h) eqn:Eh; simpl.
      - intros Hr. destruct (IHr Hr) as (h' & Hin & Hp). exists h'. auto.
      - intros _. exists h. split; [auto|]. intros Hp.
        apply resolves_b_present in Hp. congruence. }
    apply andb_false_iff in E. unfold node_refs.
    destruct E as [E|E]; apply Hfind in E; destruct E as (h & Hin & Hp);
      exists n, h; (split; [auto|split; [apply in_or_app; auto|exact Hp]]).
Qed.

Lemma present_perm (l l' : list IRNode) (h : IRHash) :
  Permutation l l' -> present l h -> present l' h.
Proof.
  intros Hperm (m & Hm & E). exists m. split; [|exact E].
  apply (Permutation_in _ Hperm Hm).
Qed.

(** [build], case by case. *)
Lemma build_cases (py : PyRuntime) (g : IRGraph) :
  (is_built g = true \/ tmp_nodes g = []) /\
  build py g
  = (g, Raise (ValueError "ir graph is already built or no nodes were found"))
  \/
  is_built g = false /\ tmp_nodes g <> [] /\
  ((exists e, gen_phf py (tmp_nodes g) = Raise e /\ build py g = (g, Raise e)) \/
   (exists res phf,
      gen_phf py (tmp_nodes g) = Ok (res, phf) /\
      ((forallb (node_ok_b res) res = true /\
        build py g = (frozen_graph g res phf, Ok tt)) \/
       (forallb (node_ok_b res) res = false /\
        build py g = (unfinished_graph g res phf,
                      Raise (ValueError "missing nodes to build the ir graph")))))).
Proof.
  unfold build.
  destruct (is_built g) eqn:Hb; simpl; [left; auto|].
  destruct (tmp_nodes g) as [|n0 t] eqn:Ht; [left; auto|].
  right. split; [reflexivity|]. split; [discriminate|].
  replace (0 <? Z.of_nat (length (n0 :: t))) with true
    by (symmetry; apply Z.ltb_lt; simpl; lia).
  remember (gen_phf py (n0 :: t)) as out eqn:Hout. clear Hout.
  destruct out as [[res phf]|e]; [right|left; eauto].
  exists res, phf. split; [reflexivity|].
  rewrite NodeSet_new_set_nodes. unfold _check_refs. simpl.
  rewrite check_refs_loop_nodes.
  unfold frozen_graph, unfinished_graph. rewrite Hb. simpl.
  destruct (forallb (node_ok_b res) res); [left|right]; split; reflexivity.
Qed.

(** C5.  [build()] on a graph that is already built raises and returns the
    graph as it was (same frozen node set, same PHF); [build()] on a graph
    with no added node raises the same state error. *)
Theorem build_state_errors (py : PyRuntime) (g : IRGraph) :
  (is_built g = true ->
   build py g
   = (g, Raise (ValueError "ir graph is already built or no nodes were found"))) /\
  (tmp_nodes g = [] ->
   build py g
   = (g, Raise (ValueError "ir graph is already built or no nodes were found"))).
Proof.
  unfold build. split; intros E; rewrite E; simpl.
  - reflexivity.
  - rewrite andb_false_r. reflexivity.
Qed.

Lemma build_state_errors_witness :
  let built := fst (build demo_py (building demo_py [unit_A; unit_B])) in
  is_built built = true /\
  build demo_py built
  = (built, Raise (ValueError "ir graph is already built or no nodes were found")) /\
  build demo_py IRGraph_init
  = (IRGraph_init,
     Raise (ValueError "ir graph is already built or no nodes were found")).
Proof.
  intros built.
  assert (Hbuilt : is_built built = true) by (vm_compute; reflexivity).
  split; [exact Hbuilt|]. split.
  - apply (proj1 (build_state_errors demo_py built)). exact Hbuilt.
  - apply (proj2 (build_state_errors demo_py IRGraph_init)). reflexivity.
Defined.

Lemma build_ok_inv (py : PyRuntime) (g g' : IRGraph) :
  build py g = (g', Ok tt) ->
  is_built g = false /\ tmp_nodes g <> [] /\
  exists res phf,
    gen_phf py (tmp_nodes g) = Ok (res, phf) /\
    forallb (node_ok_b res) res = true /\
    Permutation res (tmp_nodes g) /\
    NoDup (map node_uid (tmp_nodes g)) /\
    g' = frozen_graph g res phf.
Proof.
  intros Hbuild.
  destruct (build_cases py g)
    as [(_ & E)|(Hb & Ht & [(e & _ & E)|(res & phf & Hgen & [(Hok & E)|(_ & E)])])];
    rewrite E in Hbuild; inversion Hbuild; subst.
  split; [exact Hb|]. split; [exact Ht|].
  exists res, phf. repeat split; try assumption.
  - pose proof (gen_phf_sound _ _ Hgen) as Hs. cbv zeta in Hs. tauto.
  - pose proof (gen_phf_sound _ _ Hgen) as Hs. cbv zeta in Hs.
    destruct Hs as (_ & _ & _ & _ & _ & Hcf & _).
    apply collision_free_uids in Hcf. tauto.
Qed.

Lemma any_tmp_node_path (py : PyRuntime) (tmp : list IRNode) (n : IRNode) :
  In n tmp -> any_tmp_node py tmp (PyPath (node_path n)) = Ok true.
Proof.
  induction tmp as [|m t IH]; simpl; [contradiction|].
  intros Hin. unfold IRNode_contains, BaseIRModule_contains. simpl.
  destruct (TypeTable_contains py _ _); simpl; [reflexivity|].
  destruct (String.eqb (node_path n) (node_path m)) eqn:E; [reflexivity|].
  apply IH. destruct Hin as [->|Hin]; [|exact Hin].
  rewrite String.eqb_refl in E. discriminate E.
Qed.

(** C9.  After a successful [build()] the building set is empty, so the
    graph's containment test answers [False] for every item, the paths of the
    frozen nodes included, although each of these paths was contained in the
    graph before the build. *)
Theorem contains_false_after_build (py : PyRuntime) (g g' : IRGraph) :
  build py g = (g', Ok tt) ->
  tmp_nodes g' = [] /\
  (forall item, IRGraph_contains py g' item = Ok false) /\
  (forall n, In (PyIRNode n) (ns_data (nodes g')) ->
             IRGraph_contains py g (PyPath (node_path n)) = Ok true /\
             IRGraph_contains py g' (PyPath (node_path n)) = Ok false).
Proof.
  intros Hbuild. apply build_ok_inv in Hbuild.
  destruct Hbuild as (_ & _ & res & phf & _ & _ & Hperm & _ & ->).
  assert (Hnone : forall item, IRGraph_contains py (frozen_graph g res phf) item = Ok false).
  { intros item. unfold IRGraph_contains. simpl. destruct item; reflexivity. }
  split; [reflexivity|]. split; [exact Hnone|].
  intros n Hn. split; [|apply Hnone].
  simpl in Hn. apply in_map_iff in Hn. destruct Hn as (m & Em & Hm).
  inversion Em; subst m.
  unfold IRGraph_contains. simpl.
  rewrite (any_tmp_node_path py _ _ (Permutation_in _ Hperm Hm)). reflexivity.
Qed.

Lemma contains_false_after_build_witness :
  let g := building demo_py [unit_A; unit_B] in
  IRGraph_contains demo_py g (PyPath "src/a") = Ok true /\
  IRGraph_contains demo_py (fst (build demo_py g)) (PyPath "src/a") = Ok false.
Proof.
  intros g.
  assert (Hbuild : build demo_py g = (fst (build demo_py g), Ok tt))
    by (vm_compute; reflexivity).
  split; [vm_compute; reflexivity|].
  pose proof (contains_false_after_build demo_py g Hbuild) as (_ & Hall & _).
  apply Hall.
Defined.

Lemma dangling_ref_b (ns : list IRNode) :
  dangling_ref ns <-> forallb (node_ok_b ns) ns = false.
Proof.
  split.
  - intros (n & h & Hn & Hh & Hp).
    destruct (forallb (node_ok_b ns) ns) eqn:E; [|reflexivity].
    exfalso. apply Hp. apply (proj1 (all_ok_b_resolve ns ns) E n Hn h Hh).
  - apply all_ok_b_dangling.
Qed.

Lemma dangling_ref_perm (l l' : list IRNode) :
  Permutation l l' -> dangling_ref l -> dangling_ref l'.
Proof.
  intros Hperm (n & h & Hn & Hh & Hp). exists n, h.
  split; [apply (Permutation_in _ Hperm Hn)|]. split; [exact Hh|].
  intros Hp'. apply Hp. apply (present_perm (Permutation_sym Hperm) Hp').
Qed.

(** Two nodes with one uid defeat every candidate. *)
Lemma gen_phf_duplicate_uid (py : PyRuntime) (nodes : list IRNode) :
  ~ NoDup (map node_uid nodes) ->
  gen_phf py nodes
  = Raise (ValueError
             "could not find satisfactory parameter values to generate the PHF").
Proof.
  intros Hdup.
  assert (Hne : nodes <> []) by (intros ->; apply Hdup; constructor).
  apply gen_phf_exhausted. intros a r Ha Hr.
  pose proof (get_phf_prime_pos (Z.of_nat (length nodes))) as Hprime.
  pose proof (@gen_res_nonempty_iff _ _ nodes a r
                (get_phf_prime (Z.of_nat (length nodes))) Hne
                ltac:(lia) ltac:(lia)) as Hiff.
  cbv zeta in Hiff. destruct Hiff as (_ & Hnone & _). apply Hnone. intros Hcf.
  apply collision_free_uids in Hcf. tauto.
Qed.

(** C2, as stated, fails: a graph to which unit A was added twice has no
    unresolved reference, yet [build()] raises, because no PHF separates two
    nodes with one uid. *)
Lemma build_fails_only_on_dangling_ref_counterexample :
  ~ build_fails_only_on_dangling_ref demo_py (building demo_py [unit_A; unit_A]).
Proof.
  intros Hclaim.
  destruct (Hclaim eq_refl ltac:(discriminate)) as (_ & Hok).
  assert (Hnodangling : ~ dangling_ref (tmp_nodes (building demo_py [unit_A; unit_A]))).
  { intros Hd. apply dangling_ref_b in Hd. vm_compute in Hd. discriminate Hd. }
  destruct (Hok Hnodangling) as (Hres & _).
  assert (Hgen : gen_phf demo_py (tmp_nodes (building demo_py [unit_A; unit_A]))
                 = Raise (ValueError
                            "could not find satisfactory parameter values to generate the PHF")).
  { apply gen_phf_duplicate_uid. intros Hnd. simpl in Hnd.
    inversion Hnd as [|? ? Hnotin _]. apply Hnotin. left. reflexivity. }
  destruct (build_cases demo_py (building demo_py [unit_A; unit_A]))
    as [(_ & E)|(_ & _ & [(e & _ & E)|(res & phf & Hgen' & _)])].
  - rewrite E in Hres. discriminate Hres.
  - rewrite E in Hres. discriminate Hres.
  - rewrite Hgen in Hgen'. discriminate Hgen'.
Qed.

(** C2, amended.  For a graph in the building state with at least one node:
    [build()] raises, and the graph stays unbuilt, when some reference table
    points to an identity that no added node has; when every reference
    resolves and [gen_phf] finds parameters for the added nodes, [build()]
    succeeds, freezes the node set and sets [is_built]; and when [gen_phf]
    raises, [build()] raises the same error and leaves the graph as it was. *)
Theorem build_checks_references (py : PyRuntime) (g : IRGraph) :
  is_built g = false -> tmp_nodes g <> [] ->
  (dangling_ref (tmp_nodes g) ->
   raises (snd (build py g)) /\ is_built (fst (build py g)) = false) /\
  (~ dangling_ref (tmp_nodes g) ->
   forall res phf, gen_phf py (tmp_nodes g) = Ok (res, phf) ->
     build py g = (frozen_graph g res phf, Ok tt) /\
     is_built (fst (build py g)) = true) /\
  (forall e, gen_phf py (tmp_nodes g) = Raise e -> build py g = (g, Raise e)).
Proof.
  intros Hb Ht.
  destruct (build_cases py g)
    as [([Hb'|Ht'] & _)|(_ & _ & [(e & Hgen & E)|(res & phf & Hgen & Hcases)])].
  - congruence.
  - contradiction.
  - split; [|split].
    + intros _. rewrite E. simpl. split; [exists e; reflexivity|exact Hb].
    + intros _ res phf Hgen'. rewrite Hgen in Hgen'. discriminate Hgen'.
    + intros e' Hgen'. rewrite Hgen in Hgen'. inversion Hgen'; subst. exact E.
  - assert (Hperm : Permutation res (tmp_nodes g)).
    { pose proof (gen_phf_sound _ _ Hgen) as Hs. cbv zeta in Hs. tauto. }
    split; [|split].
    + intros Hd. apply (dangling_ref_perm (Permutation_sym Hperm)) in Hd.
      apply dangling_ref_b in Hd.
      destruct Hcases as [(Hok & _)|(_ & E)]; [congruence|].
      rewrite E. simpl. split; [eexists; reflexivity|exact Hb].
    + intros Hnd res' phf' Hgen'. rewrite Hgen in Hgen'.
      inversion Hgen'; subst res' phf'.
      destruct Hcases as [(_ & E)|(Hbad & _)].
      * rewrite E. split; reflexivity.
      * exfalso. apply Hnd. apply (dangling_ref_perm Hperm).
        apply dangling_ref_b. exact Hbad.
    + intros e Hgen'. rewrite Hgen in Hgen'. discriminate Hgen'.
Qed.

Lemma build_checks_references_witness :
  snd (build demo_py (building demo_py [unit_A; unit_B])) = Ok tt /\
  raises (snd (build demo_py (building demo_py [unit_C]))).
Proof.
  split.
  - assert (Hgen : gen_phf demo_py (tmp_nodes (building demo_py [unit_A; unit_B]))
                   = Ok (?[res], ?[phf]))
      by (vm_compute; reflexivity).
    assert (Hnd : ~ dangling_ref (tmp_nodes (building demo_py [unit_A; unit_B]))).
    { intros Hd. apply dangling_ref_b in Hd. vm_compute in Hd. discriminate Hd. }
    pose proof (build_checks_references demo_py (building demo_py [unit_A; unit_B])
                  eq_refl ltac:(discriminate)) as (_ & Hok & _).
    destruct (Hok Hnd _ _ Hgen) as (E & _). rewrite E. reflexivity.
  - assert (Hd : dangling_ref (tmp_nodes (building demo_py [unit_C]))).
    { apply dangling_ref_b. vm_compute. reflexivity. }
    pose proof (build_checks_references demo_py (building demo_py [unit_C])
                  eq_refl ltac:(discriminate)) as (Hbad & _).
    apply (Hbad Hd).
Defined.

(** ** get_fns *)

Lemma get_fns_loop_nodes (py : PyRuntime) (l : list IRNode) (path : Path) (item : Symbol) :
  get_fns_loop py (map PyIRNode l) path item
  = match find (has_fn path item) l with
    | Some n =>
        match overloads n item with
        | Some d => Ok (dict_keys d)
        | None => Raise (ValueError "item not found in ir node")
        end
    | None => Raise (ValueError "item not found in ir node")
    end.
Proof.
  induction l as [|n t IH]; simpl; [reflexivity|].
  unfold has_fn at 1.
  destruct (String.eqb path (node_path n)); simpl; [|exact IH].
  unfold BaseIRModule_contains, FnTable_contains, FnTable_get, dict_mem. simpl.
  fold (overloads n item).
  destruct (overloads n item) as [d|] eqn:E.
  - destruct (TypeTable_contains py _ _); simpl; rewrite ?E; reflexivity.
  - destruct (TypeTable_contains py _ _); simpl; exact IH.
Qed.

Lemma find_none_all {A : Type} (f : A -> bool) (l : list A) :
  (forall x, In x l -> f x = false) -> find f l = None.
Proof.
  induction l as [|x t IH]; simpl; intros Hall; [reflexivity|].
  rewrite (Hall x (or_introl eq_refl)). apply IH. intros y Hy. apply Hall. auto.
Qed.

Lemma find_some_unique {A : Type} (f : A -> bool) (l : list A) (x : A) :
  (forall y z, In y l -> In z l -> f y = true -> f z = true -> y = z) ->
  In x l -> f x = true -> find f l = Some x.
Proof.
  induction l as [|y t IH]; simpl; intros Huniq Hin Hfx; [contradiction|].
  destruct (f y) eqn:Hfy.
  - f_equal. apply Huniq; auto.
  - destruct Hin as [->|Hin]; [congruence|].
    apply IH; auto.
Qed.

Lemma find_perm_unique {A : Type} (f : A -> bool) (l l' : list A) :
  (forall y z, In y l -> In z l -> f y = true -> f z = true -> y = z) ->
  Permutation l l' -> find f l = find f l'.
Proof.
  intros Huniq Hperm.
  destruct (find f l) as [x|] eqn:E.
  - apply find_some in E. destruct E as (Hin & Hfx). symmetry.
    apply find_some_unique; [|apply (Permutation_in _ Hperm Hin)|exact Hfx].
    intros y z Hy Hz. apply Huniq; apply (Permutation_in _ (Permutation_sym Hperm));
      assumption.
  - symmetry. apply find_none_all. intros y Hy.
    apply (find_none _ _ E). apply (Permutation_in _ (Permutation_sym Hperm) Hy).
Qed.

Lemma has_fn_unique (path : Path) (item : Symbol) (l : list IRNode) :
  NoDup (map node_path l) ->
  forall y z, In y l -> In z l ->
              has_fn path item y = true -> has_fn path item z = true -> y = z.
Proof.
  intros Hnd y z Hy Hz Hfy Hfz. unfold has_fn in *.
  apply andb_true_iff in Hfy, Hfz. destruct Hfy as (Ey & _), Hfz as (Ez & _).
  apply String.eqb_eq in Ey, Ez.
  apply (@NoDup_map_injective _ _ node_path l Hnd y z Hy Hz). congruence.
Qed.

Lemma find_has_fn_unique_path (path : Path) (item : Symbol) (l : list IRNode) :
  NoDup (map node_path l) ->
  find (has_fn path item) l
  = match find (fun n => String.eqb path (node_path n)) l with
    | Some n => match overloads n item with Some _ => Some n | None => None end
    | None => None
    end.
Proof.
  induction l as [|x t IH]; simpl; intros Hnd; [reflexivity|].
  inversion Hnd as [|? ? Hnotin Hnd']; subst.
  unfold has_fn at 1.
  destruct (String.eqb path (node_path x)) eqn:E; simpl.
  - destruct (overloads x item); [reflexivity|].
    apply find_none_all. intros y Hy. unfold has_fn.
    destruct (String.eqb path (node_path y)) eqn:Ey; [|reflexivity].
    exfalso. apply Hnotin. apply String.eqb_eq in E, Ey.
    rewrite <- E, Ey. apply in_map. exact Hy.
  - apply IH. exact Hnd'.
Qed.

Lemma unique_paths (py : PyRuntime) (units : list BaseIR) :
  NoDup (map node_uid (map (IRNode_init py) units)) ->
  NoDup (map node_path (map (IRNode_init py) units)).
Proof.
  intros Hnd.
  apply (NoDup_map_inv (hash_path py)).
  rewrite !map_map in *. exact Hnd.
Qed.

Lemma FnTable_add_keys (t : FnTable) (f : FnHeader) (d : FnDef) :
  overload_keys (FnTable_add t f d) (fh_name f)
  = if has_overload t f then overload_keys t (fh_name f)
    else overload_keys t (fh_name f) ++ [f].
Proof.
  unfold overload_keys, has_overload, FnTable_add.
  destruct (dict_get name_hash t (name_hash (fh_name f))) as [o|] eqn:E;
    rewrite dict_get_set_same.
  - destruct (dict_mem fh_hash_value o (fh_hash_value f)) eqn:M.
    + apply dict_keys_set_present. exact M.
    + rewrite dict_set_absent by exact M. unfold dict_keys. rewrite map_app.
      reflexivity.
  - reflexivity.
Qed.

(** C4.  For a graph of added units, a path and a function name: [get_fns]
    returns the signatures of the overload map that the unit at that path
    keeps for the name, in the map's order, which is the order in which
    [FnTable.add] first saw each signature; it raises when no unit at the
    path has the name; and after a successful [build()] the frozen graph
    gives the same answer as the building graph did. *)
Theorem get_fns_before_and_after_build
  (py : PyRuntime) (units : list BaseIR) (g : IRGraph) (path : Path) (item : Symbol) :
  tmp_nodes g = map (IRNode_init py) units ->
  tmp_nodes g <> [] ->
  (NoDup (map node_path (tmp_nodes g)) ->
   get_fns py g path item = spec_get_fns (tmp_nodes g) path item) /\
  (forall g', build py g = (g', Ok tt) ->
     NoDup (map node_path (tmp_nodes g)) /\
     get_fns py g' path item = get_fns py g path item) /\
  ((forall n, In n (tmp_nodes g) -> node_path n = path -> overloads n item = None) ->
   get_fns py g path item = Raise (ValueError "item not found in ir node")) /\
  (forall (t : FnTable) (f : FnHeader) (d : FnDef),
     overload_keys (FnTable_add t f d) (fh_name f)
     = if has_overload t f then overload_keys t (fh_name f)
       else overload_keys t (fh_name f) ++ [f]).
Proof.
  intros Hunits Hne.
  assert (Hscan : get_fns py g path item
                  = get_fns_loop py (map PyIRNode (tmp_nodes g)) path item).
  { unfold get_fns. destruct (tmp_nodes g); [contradiction|reflexivity]. }
  split; [|split; [|split]].
  - intros Hnd. rewrite Hscan, get_fns_loop_nodes.
    rewrite (@find_has_fn_unique_path path item _ Hnd). unfold spec_get_fns.
    destruct (find _ (tmp_nodes g)) as [n|]; [|reflexivity].
    destruct (overloads n item) eqn:E; [rewrite E|]; reflexivity.
  - intros g' Hbuild. apply build_ok_inv in Hbuild.
    destruct Hbuild as (_ & _ & res & phf & _ & _ & Hperm & Hnd & ->).
    assert (Hpaths : NoDup (map node_path (tmp_nodes g))).
    { rewrite Hunits in *. apply unique_paths. exact Hnd. }
    split; [exact Hpaths|].
    rewrite Hscan. unfold get_fns. simpl. rewrite !get_fns_loop_nodes.
    rewrite (@find_perm_unique _ (has_fn path item) (tmp_nodes g) res).
    + reflexivity.
    + apply has_fn_unique. exact Hpaths.
    + apply Permutation_sym. exact Hperm.
  - intros Habsent. rewrite Hscan, get_fns_loop_nodes.
    rewrite find_none_all; [reflexivity|].
    intros n Hn. unfold has_fn.
    destruct (String.eqb path (node_path n)) eqn:E; [|reflexivity].
    apply String.eqb_eq in E. rewrite (Habsent n Hn (eq_sym E)). reflexivity.
  - apply FnTable_add_keys.
Qed.

Lemma get_fns_before_and_after_build_witness :
  let g := building demo_py [unit_A; unit_B] in
  get_fns demo_py g "src/a" (sym "add")
  = Ok [header "add" ["int"; "int"]; header "add" ["float"; "float"]] /\
  get_fns demo_py (fst (build demo_py g)) "src/a" (sym "add")
  = get_fns demo_py g "src/a" (sym "add") /\
  get_fns demo_py g "src/b" (sym "add")
  = Raise (ValueError "item not found in ir node").
Proof.
  intros g.
  assert (Hunits : tmp_nodes g = map (IRNode_init demo_py) [unit_A; unit_B])
    by reflexivity.
  assert (Hne : tmp_nodes g <> []) by (rewrite Hunits; discriminate).
  pose proof (@get_fns_before_and_after_build demo_py [unit_A; unit_B] g
                "src/a" (sym "add") Hunits Hne)
    as (Hspec & Hsame & _ & _).
  pose proof (@get_fns_before_and_after_build demo_py [unit_A; unit_B] g
                "src/b" (sym "add") Hunits Hne)
    as (_ & _ & Hraise & _).
  assert (Hbuild : build demo_py g = (fst (build demo_py g), Ok tt))
    by (vm_compute; reflexivity).
  split; [|split].
  - rewrite Hspec; [vm_compute; reflexivity|].
    rewrite Hunits. repeat constructor; simpl; intuition discriminate.
  - destruct (Hsame _ Hbuild) as (_ & Heq). exact Heq.
  - apply Hraise. rewrite Hunits.
    intros n [<-|[<-|[]]] E; [discriminate E|reflexivity].
Defined.

(** * Further properties *)

(** ** The PHF search *)

Lemma for_range_ok {B : Type} (body : Z -> result (option B)) (count : nat) :
  forall start : Z,
    (forall i, start <= i < start + Z.of_nat count -> exists x, body i = Ok x) ->
    exists y, for_range body start count = Ok y.
Proof.
  induction count as [|k IH]; intros start Hall; simpl.
  - eauto.
  - destruct (Hall start ltac:(lia)) as ([b|] & E); rewrite E; simpl; [eauto|].
    apply IH. intros i Hi. apply Hall. lia.
Qed.

Lemma gen_res_never_raises {A : Type} `{Hashable A}
      (group_tuple : list A) (a r prime : Z) :
  0 <= r -> prime <> 0 ->
  exists res, _gen_res_a_r_phf group_tuple (Z.of_nat (length group_tuple)) a r prime
              = Ok res.
Proof.
  intros Hr Hprime. destruct group_tuple as [|x t] eqn:E.
  - exists []. reflexivity.
  - rewrite <- E.
    assert (Hne : group_tuple <> []) by (rewrite E; discriminate).
    pose proof (gen_res_spec a Hne Hr Hprime) as Hspec. cbv zeta in Hspec.
    destruct Hspec as [(_ & _ & res & Hres & _)|(_ & Hres)]; eauto.
Qed.

Lemma gen_phf_raise_inv {A : Type} `{Hashable A} (py : PyRuntime)
      (group_tuple : list A) (e : exn) :
  gen_phf py group_tuple = Raise e ->
  forall a r, 1 <= a < PHF_A_LIMIT -> 0 <= r < PHF_R_LIMIT py ->
    _gen_res_a_r_phf group_tuple (Z.of_nat (length group_tuple)) a r
                     (get_phf_prime (Z.of_nat (length group_tuple))) = Ok [].
Proof.
  intros Hgen a r Ha Hr. unfold gen_phf in Hgen.
  pose proof (PHF_R_LIMIT_pos py) as HR.
  pose proof (get_phf_prime_pos (Z.of_nat (length group_tuple))) as Hprime.
  assert (HA : Z.of_nat (Z.to_nat (PHF_A_LIMIT - 1)) = PHF_A_LIMIT - 1)
    by (apply Z2Nat.id; unfold PHF_A_LIMIT; lia).
  assert (HR' : Z.of_nat (Z.to_nat (PHF_R_LIMIT py)) = PHF_R_LIMIT py)
    by (apply Z2Nat.id; lia).
  match type of Hgen with
  | bind ?m _ = _ => remember m as loop eqn:Hloop
  end.
  symmetry in Hloop.
  destruct loop as [[found|]|e']; cbv [bind] in Hgen.
  - destruct found. discriminate Hgen.
  - apply gen_phf_candidate_None.
    assert (Hrow : 1 <= a < 1 + Z.of_nat (Z.to_nat (PHF_A_LIMIT - 1))) by lia.
    pose proof (@for_range_none_inv _ _ _ _ Hloop a Hrow) as Hinner.
    cbv beta in Hinner.
    apply (@for_range_none_inv _ _ _ _ Hinner). lia.
  - exfalso.
    assert (Hok : exists y,
               for_range
                 (fun a0 =>
                    for_range
                      (gen_phf_candidate group_tuple (Z.of_nat (length group_tuple))
                         (get_phf_prime (Z.of_nat (length group_tuple))) a0)
                      0 (Z.to_nat (PHF_R_LIMIT py)))
                 1 (Z.to_nat (PHF_A_LIMIT - 1)) = Ok y).
    { apply for_range_ok. intros a0 Ha0. apply for_range_ok. intros r0 Hr0.
      unfold gen_phf_candidate.
      destruct (@gen_res_never_raises _ _ group_tuple a0 r0
                  (get_phf_prime (Z.of_nat (length group_tuple)))
                  ltac:(lia) ltac:(lia)) as (res & Hres).
      rewrite Hres. simpl. destruct res; eauto. }
    destruct Hok as (y & Hy). rewrite Hy in Hloop. discriminate Hloop.
Qed.

Lemma phf_h_shift0 (a prime n x : Z) : phf_h a 0 prime n x = 0.
Proof.
  unfold phf_h. rewrite Z.shiftr_0_r, Z.lxor_nilpotent, !Zmod_0_l. reflexivity.
Qed.

Lemma ForallOrdPairs_mid {A : Type} (R : A -> A -> Prop) (l1 l2 l3 : list A) (x y : A) :
  ForallOrdPairs R (l1 ++ x :: l2 ++ y :: l3) -> R x y.
Proof.
  induction l1 as [|z t IH]; simpl; intros Hfop.
  - inversion Hfop as [|? ? Hall _]; subst.
    rewrite Forall_forall in Hall. apply Hall. apply in_or_app. right. left. reflexivity.
  - inversion Hfop; subst. apply IH. assumption.
Qed.

(** X1.  [gen_phf] either returns, and then the tuple is not empty, none of
    its items equals the empty-slot marker [None], and some candidate [(a, r)]
    within the limits is collision free; or it raises the [ValueError] of the
    exhausted search, and then one of the three fails.  It raises nothing
    else. *)
Theorem gen_phf_succeeds_iff_candidate {A : Type} `{Hashable A}
        (py : PyRuntime) (group_tuple : list A) :
  let n := Z.of_nat (length group_tuple) in
  let candidate :=
      group_tuple <> [] /\ none_free group_tuple /\
      exists a r, 1 <= a < PHF_A_LIMIT /\ 0 <= r < PHF_R_LIMIT py /\
                  collision_free group_tuple n a r (get_phf_prime n) in
  ((exists res phf, gen_phf py group_tuple = Ok (res, phf)) /\ candidate) \/
  (gen_phf py group_tuple
   = Raise (ValueError
              "could not find satisfactory parameter values to generate the PHF") /\
   ~ candidate).
Proof.
  cbv zeta.
  destruct (gen_phf py group_tuple) as [[res phf]|e] eqn:Hgen.
  - left. split; [eauto|].
    pose proof (gen_phf_sound _ _ Hgen) as Hs. cbv zeta in Hs.
    destruct Hs as (_ & _ & Ha & Hr & _ & Hcf & _).
    split; [apply (@gen_phf_nonempty _ _ py group_tuple res phf Hgen)|].
    split; [apply (@gen_phf_none_free _ _ py group_tuple res phf Hgen)|].
    exists (phf_a phf), (phf_r phf). auto.
  - right.
    pose proof (gen_phf_raise_inv _ _ Hgen) as Hall.
    split.
    + rewrite <- Hgen. apply gen_phf_exhausted. exact Hall.
    + intros (Hne & Hnf & a & r & Ha & Hr & Hcf).
      pose proof (get_phf_prime_pos (Z.of_nat (length group_tuple))) as Hprime.
      pose proof (@gen_res_nonempty_iff _ _ group_tuple a r
                    (get_phf_prime (Z.of_nat (length group_tuple))) Hne
                    ltac:(lia) ltac:(lia)) as Hiff.
      cbv zeta in Hiff. destruct Hiff as (_ & _ & Hnone & _).
      apply (Hnone (Hall a r Ha Hr) Hnf). exact Hcf.
Qed.

(** X2.  A tuple of one item gets the first candidate, [a = 1], [r = 0],
    [prime = 37], [n = 1], and comes back as it is, unless the item equals
    [None]: the item is then found in the list of empty slots, every
    candidate counts as a collision and [gen_phf] raises. *)
Theorem gen_phf_singleton {A : Type} `{Hashable A} (py : PyRuntime) (x : A) :
  gen_phf py [x]
  = if py_eq_None x
    then Raise (ValueError
                  "could not find satisfactory parameter values to generate the PHF")
    else Ok ([x], mkResultPHF 1 0 37 1).
Proof.
  pose proof (PHF_R_LIMIT_pos py) as HR.
  destruct (py_eq_None x) eqn:E.
  - apply gen_phf_exhausted. intros a r Ha Hr.
    pose proof (@gen_res_nonempty_iff _ _ [x] a r
                  (get_phf_prime (Z.of_nat (length [x]))) ltac:(discriminate)
                  ltac:(lia) ltac:(pose proof (get_phf_prime_pos
                                                 (Z.of_nat (length [x]))); lia))
      as Hiff.
    cbv zeta in Hiff. destruct Hiff as (_ & _ & _ & _ & _ & Hnnf).
    apply Hnnf. intros Hnf. rewrite (Hnf x (or_introl eq_refl)) in E.
    discriminate E.
  - apply (@gen_phf_first _ _ py [x] 1 0 [x]).
    + unfold PHF_A_LIMIT. lia.
    + lia.
    + unfold _gen_res_a_r_phf.
      change (get_phf_prime (Z.of_nat (length [x]))) with 37.
      change (Z.of_nat (length [x])) with 1. change (Z.to_nat 1) with 1%nat.
      cbn [repeat place_items].
      rewrite get_hash_with_args_ok by lia.
      unfold phf_h. rewrite Z.mod_1_r.
      unfold in_res_list, None_in_res_list. cbn [existsb bind].
      rewrite E. cbn. rewrite E. reflexivity.
    + discriminate.
    + intros a' r' Ha' Hr' [Hlt|[_ Hlt]]; lia.
Qed.

(** X3.  With [r = 0] every item hashes to slot 0, so for a tuple of two or
    more items [gen_phf] never returns [r = 0]. *)
Theorem gen_phf_shift_positive {A : Type} `{Hashable A}
        (py : PyRuntime) (group_tuple res : list A) (phf : ResultPHF) :
  gen_phf py group_tuple = Ok (res, phf) ->
  (2 <= length group_tuple)%nat ->
  1 <= phf_r phf /\ forall a prime n x, phf_h a 0 prime n x = 0.
Proof.
  intros Hgen Hlen. split; [|intros; apply phf_h_shift0].
  pose proof (gen_phf_sound _ _ Hgen) as Hs. cbv zeta in Hs.
  destruct Hs as (_ & _ & _ & Hr & _ & (Hnd & _) & _).
  destruct (Z.eq_dec (phf_r phf) 0) as [E|]; [|lia].
  exfalso. rewrite E in Hnd.
  destruct group_tuple as [|x [|y t]]; simpl in Hlen; try lia.
  simpl in Hnd. rewrite !phf_h_shift0 in Hnd.
  inversion Hnd as [|? ? Hnotin _]. apply Hnotin. left. reflexivity.
Qed.

Lemma gen_phf_shift_positive_witness :
  exists res phf,
    gen_phf demo_py (map (IRNode_init demo_py) [unit_A; unit_B]) = Ok (res, phf) /\
    1 <= phf_r phf.
Proof.
  eexists. eexists.
  assert (Hgen : gen_phf demo_py (map (IRNode_init demo_py) [unit_A; unit_B])
                 = Ok (?[res], ?[phf]))
    by (vm_compute; reflexivity).
  split; [exact Hgen|].
  pose proof (@gen_phf_shift_positive _ _ demo_py _ _ _ Hgen) as Hpos.
  apply Hpos. simpl. lia.
Defined.

(** X4.  The tuple [gen_phf] returns is a rearrangement of its argument:
    nothing is lost, added or repeated, and [n] is its length. *)
Theorem gen_phf_rearranges {A : Type} `{Hashable A}
        (py : PyRuntime) (group_tuple res : list A) (phf : ResultPHF) :
  gen_phf py group_tuple = Ok (res, phf) ->
  Permutation res group_tuple /\ length res = length group_tuple /\
  phf_n phf = Z.of_nat (length res).
Proof.
  intros Hgen.
  pose proof (gen_phf_sound _ _ Hgen) as Hs. cbv zeta in Hs.
  destruct Hs as (_ & Hphf & _ & _ & _ & _ & Hperm & _).
  split; [exact Hperm|]. split; [apply (Permutation_length Hperm)|].
  rewrite Hphf. simpl. rewrite (Permutation_length Hperm). reflexivity.
Qed.

Lemma gen_phf_rearranges_witness :
  exists res phf,
    gen_phf demo_py (map (IRNode_init demo_py) [unit_A; unit_B; unit_C])
    = Ok (res, phf) /\
    Permutation res (map (IRNode_init demo_py) [unit_A; unit_B; unit_C]).
Proof.
  eexists. eexists.
  assert (Hgen : gen_phf demo_py (map (IRNode_init demo_py) [unit_A; unit_B; unit_C])
                 = Ok (?[res], ?[phf]))
    by (vm_compute; reflexivity).
  split; [exact Hgen|].
  pose proof (@gen_phf_rearranges _ _ demo_py _ _ _ Hgen) as (Hperm & _).
  exact Hperm.
Defined.

(** X5.  A tuple in which an item equals ([==]) an earlier one defeats every
    candidate: [gen_phf] raises the [ValueError] of the exhausted search. *)
Theorem gen_phf_rejects_equal_items {A : Type} `{Hashable A}
        (py : PyRuntime) (l1 l2 l3 : list A) (x y : A) :
  py_eq x y = true ->
  gen_phf py (l1 ++ x :: l2 ++ y :: l3)
  = Raise (ValueError
             "could not find satisfactory parameter values to generate the PHF").
Proof.
  intros Heq.
  assert (Hne : l1 ++ x :: l2 ++ y :: l3 <> []) by (destruct l1; discriminate).
  apply gen_phf_exhausted. intros a r Ha Hr.
  pose proof (get_phf_prime_pos (Z.of_nat (length (l1 ++ x :: l2 ++ y :: l3)))) as Hp.
  pose proof (@gen_res_nonempty_iff _ _ (l1 ++ x :: l2 ++ y :: l3) a r
                (get_phf_prime (Z.of_nat (length (l1 ++ x :: l2 ++ y :: l3)))) Hne
                ltac:(lia) ltac:(lia)) as Hiff.
  cbv zeta in Hiff. destruct Hiff as (_ & Hnone & _). apply Hnone.
  intros (_ & Hfop).
  apply ForallOrdPairs_mid in Hfop. congruence.
Qed.

Lemma gen_phf_rejects_equal_items_witness :
  gen_phf demo_py [IRNode_init demo_py unit_A; IRNode_init demo_py unit_B;
                   IRNode_init demo_py unit_A]
  = Raise (ValueError
             "could not find satisfactory parameter values to generate the PHF").
Proof.
  apply (@gen_phf_rejects_equal_items _ _ demo_py []
           [IRNode_init demo_py unit_B] [] (IRNode_init demo_py unit_A)
           (IRNode_init demo_py unit_A)).
  reflexivity.
Defined.

(** X6.  [get_hash] computes what [get_hash_with_args] computes for the same
    parameters.  It raises [ValueError] for a negative [r] and
    [ZeroDivisionError] for a zero [prime] or [n]; otherwise it returns a slot,
    which for a positive [n] lies in [0 <= slot < n]. *)
Theorem get_hash_errors_and_range (value : Z) (phf : ResultPHF) :
  get_hash value phf
  = get_hash_with_args value (phf_a phf) (phf_r phf) (phf_n phf) (phf_prime phf) /\
  (phf_r phf < 0 -> get_hash value phf = Raise (ValueError "negative shift count")) /\
  (0 <= phf_r phf -> phf_prime phf = 0 \/ phf_n phf = 0 ->
   get_hash value phf = Raise ZeroDivisionError) /\
  (0 <= phf_r phf -> phf_prime phf <> 0 -> phf_n phf <> 0 ->
   exists slot, get_hash value phf = Ok slot /\ (0 < phf_n phf -> 0 <= slot < phf_n phf)).
Proof.
  split; [reflexivity|]. unfold get_hash, py_rshift, py_mod.
  split; [|split].
  - intros Hr. destruct (Z.ltb_spec (phf_r phf) 0); [reflexivity|lia].
  - intros Hr Hz. destruct (Z.ltb_spec (phf_r phf) 0); [lia|]. simpl.
    destruct (Z.eqb_spec (phf_prime phf) 0); [reflexivity|]. simpl.
    destruct (Z.eqb_spec (phf_n phf) 0); [reflexivity|]. lia.
  - intros Hr Hp Hn. destruct (Z.ltb_spec (phf_r phf) 0); [lia|]. simpl.
    destruct (Z.eqb_spec (phf_prime phf) 0); [contradiction|]. simpl.
    destruct (Z.eqb_spec (phf_n phf) 0); [contradiction|].
    eexists. split; [reflexivity|]. intros Hpos. apply Z.mod_pos_bound. exact Hpos.
Qed.

(** ** Lookups in the node set *)

Lemma frozen_getitem (py : PyRuntime) (g g' : IRGraph) :
  build py g = (g', Ok tt) ->
  exists res phf,
    g' = frozen_graph g res phf /\
    Permutation res (tmp_nodes g) /\
    (forall h, exists n,
        In n res /\
        NodeSet_getitem (nodes g') (PyIRHash h) = Ok (PyIRNode n)) /\
    (forall n h, In n (tmp_nodes g) -> irhash_uid h = node_uid n ->
                 NodeSet_getitem (nodes g') (PyIRHash h) = Ok (PyIRNode n)).
Proof.
  intros Hbuild. apply build_ok_inv in Hbuild.
  destruct Hbuild as (_ & _ & res & phf & Hgen & _ & Hperm & _ & ->).
  exists res, phf. split; [reflexivity|]. split; [exact Hperm|].
  pose proof (gen_phf_sound _ _ Hgen) as Hs. cbv zeta in Hs.
  destruct Hs as (Hn & Hphf & _ & Hr & _ & _ & _ & Hslots & _).
  pose proof (get_phf_prime_pos (Z.of_nat (length (tmp_nodes g)))) as Hprime.
  assert (En : phf_n phf = Z.of_nat (length (tmp_nodes g)))
    by (rewrite Hphf; reflexivity).
  assert (Ep : phf_prime phf = get_phf_prime (Z.of_nat (length (tmp_nodes g))))
    by (rewrite Hphf; reflexivity).
  split.
  - intros h. unfold NodeSet_getitem, frozen_graph. simpl.
    rewrite get_hash_ok by (rewrite ?En, ?Ep; lia). simpl.
    pose proof (phf_h_range (phf_a phf) (phf_r phf) (phf_prime phf)
                            (irhash_uid h) (n := phf_n phf) ltac:(lia)) as Hrange.
    rewrite py_getitem_in_range
      by (rewrite length_map, (Permutation_length Hperm); lia).
    rewrite nth_error_map.
    destruct (nth_error res _) as [n|] eqn:E; simpl.
    + exists n. split; [apply (nth_error_In _ _ E)|reflexivity].
    + apply nth_error_None in E. rewrite (Permutation_length Hperm) in E. lia.
  - intros n h Hin Huid. unfold NodeSet_getitem, frozen_graph. simpl.
    rewrite get_hash_ok by (rewrite ?En, ?Ep; lia). simpl.
    apply py_getitem_map. rewrite En, Ep, Huid. apply (Hslots n Hin).
Qed.

(** X7.  Before [build()] the graph's node set has no PHF, so indexing it by
    an identity raises [ValueError], and so do [get_type] and [get_fn], for
    every identity and symbol, whatever units were added. *)
Theorem lookups_before_build_raise
        (py : PyRuntime) (units : list BaseIR) (node_key : IRHash) (importing : pyobj) :
  let g := building py units in
  let err := ValueError
               "node set must have phf attribute defined and item hash mush not be null" in
  NodeSet_getitem (nodes g) (PyIRHash node_key) = Raise err /\
  get_type py node_key importing g = Raise err /\
  get_fn py node_key importing g = Raise err.
Proof.
  cbv zeta. destruct (building_state py units) as (_ & _ & Hnodes).
  unfold get_type, get_fn. rewrite Hnodes. repeat split.
Qed.

(** X8.  On a built graph, indexing the node set by an identity never checks
    that the node found has that identity: for every identity, present or
    not, the lookup returns one of the added nodes. *)
Theorem frozen_lookup_returns_some_node
        (py : PyRuntime) (g g' : IRGraph) (h : IRHash) :
  build py g = (g', Ok tt) ->
  exists n, In n (tmp_nodes g) /\
            NodeSet_getitem (nodes g') (PyIRHash h) = Ok (PyIRNode n).
Proof.
  intros Hbuild.
  destruct (frozen_getitem py g Hbuild) as (res & phf & _ & Hperm & Hany & _).
  destruct (Hany h) as (n & Hin & Hget).
  exists n. split; [apply (Permutation_in _ Hperm Hin)|exact Hget].
Qed.

Lemma frozen_lookup_returns_some_node_witness :
  let g := building demo_py [unit_A; unit_B] in
  exists n, In n (tmp_nodes g) /\
            NodeSet_getitem (nodes (fst (build demo_py g)))
                            (PyIRHash (IRHash_init demo_py "src/never_added"))
            = Ok (PyIRNode n).
Proof.
  intros g.
  assert (Hbuild : build demo_py g = (fst (build demo_py g), Ok tt))
    by (vm_compute; reflexivity).
  exact (@frozen_lookup_returns_some_node demo_py g _
           (IRHash_init demo_py "src/never_added") Hbuild).
Defined.

Lemma existsb_elem_eq_node (res : list IRNode) (n : IRNode) :
  existsb (fun e => elem_eq_node e n) (map PyIRNode res)
  = existsb (fun m => node_uid m =? node_uid n) res.
Proof.
  induction res as [|m t IH]; simpl; [reflexivity|]. rewrite IH. reflexivity.
Qed.

(** X9.  After a successful [build()] the frozen node set contains every
    added node, by node, by identity and by path, and it contains an identity
    exactly when some added node has that uid. *)
Theorem frozen_set_membership (py : PyRuntime) (g g' : IRGraph) :
  build py g = (g', Ok tt) ->
  (forall n, In n (tmp_nodes g) ->
     NodeSet_contains (nodes g') (PyIRNode n) = Ok true /\
     NodeSet_contains (nodes g') (PyIRHash (node_irhash n)) = Ok true /\
     NodeSet_contains (nodes g') (PyPath (node_path n)) = Ok true) /\
  (forall h, exists b,
     NodeSet_contains (nodes g') (PyIRHash h) = Ok b /\
     (b = true <-> present (tmp_nodes g) h)).
Proof.
  intros Hbuild. apply build_ok_inv in Hbuild.
  destruct Hbuild as (_ & _ & res & phf & _ & _ & Hperm & _ & ->).
  unfold NodeSet_contains, frozen_graph. simpl. split.
  - intros n Hn. apply (Permutation_in _ (Permutation_sym Hperm)) in Hn.
    rewrite existsb_elem_eq_node, !any_node_nodes.
    repeat split; f_equal; apply existsb_exists; exists n;
      (split; [exact Hn|]).
    + apply Z.eqb_refl.
    + unfold IRHash_eq. apply Z.eqb_refl.
    + apply String.eqb_refl.
  - intros h. rewrite any_node_nodes. eexists. split; [reflexivity|].
    fold (resolves_b res h). rewrite resolves_b_present.
    split; apply present_perm; [exact Hperm|apply Permutation_sym; exact Hperm].
Qed.

Lemma frozen_set_membership_witness :
  let g := building demo_py [unit_A; unit_B] in
  NodeSet_contains (nodes (fst (build demo_py g)))
                   (PyIRHash (IRHash_init demo_py "src/b")) = Ok true /\
  NodeSet_contains (nodes (fst (build demo_py g))) (PyPath "src/a") = Ok true.
Proof.
  intros g.
  assert (Hbuild : build demo_py g = (fst (build demo_py g), Ok tt))
    by (vm_compute; reflexivity).
  pose proof (@frozen_set_membership demo_py g _ Hbuild) as (Hall & _).
  split.
  - apply (Hall (IRNode_init demo_py unit_B)). right. left. reflexivity.
  - apply (Hall (IRNode_init demo_py unit_A)). left. reflexivity.
Defined.

(** X10.  A [NodeSet] that was allowed to hold an element that is no [IRNode]
    (no PHF given) breaks the membership tests by identity and by path: the
    scan raises [AttributeError] on reaching that element, unless a node
    before it already matched. *)
Theorem NodeSet_contains_non_node
        (l : list IRNode) (e : pyobj) (rest : list pyobj) (h : IRHash) (p : Path) :
  is_IRNode e = false ->
  let data := map PyIRNode l ++ e :: rest in
  NodeSet_init data None = Ok {| ns_data := data; ns_phf := None |} /\
  NodeSet_contains {| ns_data := data; ns_phf := None |} (PyIRHash h)
  = (if existsb (fun n => IRHash_eq h (node_irhash n)) l
     then Ok true else Raise (AttributeError "irhash")) /\
  NodeSet_contains {| ns_data := data; ns_phf := None |} (PyPath p)
  = (if existsb (fun n => String.eqb p (node_path n)) l
     then Ok true else Raise (AttributeError "path")).
Proof.
  intros He data.
  assert (Hscan : forall test attr,
             any_node test attr data
             = if existsb test l then Ok true else Raise (AttributeError attr)).
  { intros test attr. unfold data. induction l as [|n t IH]; simpl.
    - destruct e; try reflexivity. discriminate He.
    - destruct (test n); [reflexivity|exact IH]. }
  split; [unfold NodeSet_init; rewrite orb_true_r; reflexivity|].
  unfold NodeSet_contains. simpl. split; apply Hscan.
Qed.

Lemma NodeSet_contains_non_node_witness :
  NodeSet_contains {| ns_data := [PyIRNode (IRNode_init demo_py unit_A); PyNone];
                      ns_phf := None |}
                   (PyPath "src/b")
  = Raise (AttributeError "path").
Proof.
  pose proof (@NodeSet_contains_non_node [IRNode_init demo_py unit_A] PyNone []
                (IRHash_init demo_py "src/b") "src/b" eq_refl) as (_ & _ & Hpath).
  exact Hpath.
Defined.

(** ** The graph while it is being built *)

Lemma any_tmp_node_path_spec (py : PyRuntime) (tmp : list IRNode) (p : Path) :
  any_tmp_node py tmp (PyPath p)
  = Ok (existsb (fun m =>
                   TypeTable_contains py
                     (st_type (mod_symbol_table (ir_module (node_ir m)))) (PyPath p)
                   || String.eqb p (node_path m)) tmp).
Proof.
  induction tmp as [|m t IH]; simpl; [reflexivity|].
  unfold IRNode_contains, BaseIRModule_contains. simpl.
  destruct (TypeTable_contains py _ _); simpl; [reflexivity|].
  destruct (String.eqb p (node_path m)); [reflexivity|exact IH].
Qed.

Lemma any_tmp_node_symbol_spec (py : PyRuntime) (tmp : list IRNode) (s : Symbol) :
  any_tmp_node py tmp (PySymbol s)
  = Ok (existsb (fun m =>
                   TypeTable_contains py
                     (st_type (mod_symbol_table (ir_module (node_ir m)))) (PySymbol s)
                   || dict_mem name_hash
                        (st_fn (mod_symbol_table (ir_module (node_ir m))))
                        (sym_hash_value s)
                   || (sym_hash_value s =? hash_path py (node_path m))) tmp).
Proof.
  induction tmp as [|m t IH]; simpl; [reflexivity|].
  unfold IRNode_contains, BaseIRModule_contains. simpl.
  destruct (TypeTable_contains py _ _); simpl; [reflexivity|].
  destruct (dict_mem name_hash _ _); simpl; [reflexivity|].
  destruct (sym_hash_value s =? hash_path py (node_path m)); [reflexivity|exact IH].
Qed.

(** X11.  [path in graph] never raises: it is [True] exactly when a unit of
    the building set sits at that path (or a type name of one hashes like the
    path).  [add_node] appends the wrapped unit to the building set and
    returns the identity of the unit's path; afterwards the unit's path is in
    the graph, and every path that was in the graph still is. *)
Theorem path_containment_and_add_node
        (py : PyRuntime) (g : IRGraph) (ir : BaseIR) (p : Path) :
  let g2 := fst (add_node py g ir) in
  IRGraph_contains py g (PyPath p)
  = Ok (existsb (fun m =>
                   TypeTable_contains py
                     (st_type (mod_symbol_table (ir_module (node_ir m)))) (PyPath p)
                   || String.eqb p (node_path m)) (tmp_nodes g)) /\
  tmp_nodes g2 = tmp_nodes g ++ [IRNode_init py ir] /\
  snd (add_node py g ir) = IRHash_init py (mod_path (ir_module ir)) /\
  IRGraph_contains py g2 (PyPath (mod_path (ir_module ir))) = Ok true /\
  (IRGraph_contains py g (PyPath p) = Ok true ->
   IRGraph_contains py g2 (PyPath p) = Ok true).
Proof.
  cbv zeta.
  assert (Hspec : forall g0 q,
             IRGraph_contains py g0 (PyPath q) = any_tmp_node py (tmp_nodes g0) (PyPath q)).
  { intros g0 q. unfold IRGraph_contains. simpl.
    rewrite any_tmp_node_path_spec. simpl.
    destruct (existsb _ _); reflexivity. }
  split; [rewrite Hspec; apply any_tmp_node_path_spec|].
  split; [reflexivity|]. split; [reflexivity|].
  rewrite !Hspec. simpl. split.
  - rewrite any_tmp_node_path_spec, existsb_app. simpl.
    rewrite String.eqb_refl, !orb_true_r. reflexivity.
  - rewrite !any_tmp_node_path_spec, existsb_app. intros E.
    inversion E as [E']. rewrite E'. reflexivity.
Qed.

(** X12.  A [build()] that fails the reference check cannot be retried: it
    leaves the graph unbuilt, with the frozen set installed and the building
    set emptied, so the next [build()] raises the state error. *)
Theorem build_failure_is_final
        (py : PyRuntime) (g : IRGraph) (res : list IRNode) (phf : ResultPHF) :
  is_built g = false ->
  gen_phf py (tmp_nodes g) = Ok (res, phf) ->
  dangling_ref (tmp_nodes g) ->
  let g1 := fst (build py g) in
  snd (build py g) = Raise (ValueError "missing nodes to build the ir graph") /\
  is_built g1 = false /\ tmp_nodes g1 = [] /\
  nodes g1 = {| ns_data := map PyIRNode res; ns_phf := Some phf |} /\
  build py g1
  = (g1, Raise (ValueError "ir graph is already built or no nodes were found")).
Proof.
  intros Hb Hgen Hd.
  assert (Hperm : Permutation res (tmp_nodes g)).
  { pose proof (gen_phf_sound _ _ Hgen) as Hs. cbv zeta in Hs. tauto. }
  apply (dangling_ref_perm (Permutation_sym Hperm)) in Hd.
  apply dangling_ref_b in Hd.
  destruct (build_cases py g)
    as [([Hb'|Ht'] & _)|(_ & _ & [(e & Hgen' & _)|(res' & phf' & Hgen' & Hcases)])].
  - congruence.
  - exfalso. rewrite Ht' in Hgen.
    apply (@gen_phf_nonempty _ _ py [] res phf Hgen). reflexivity.
  - rewrite Hgen in Hgen'. discriminate Hgen'.
  - rewrite Hgen in Hgen'. inversion Hgen'; subst res' phf'.
    destruct Hcases as [(Hok & _)|(_ & E)]; [congruence|].
    cbv zeta. rewrite E. simpl. rewrite Hb. repeat split.
    unfold build, unfinished_graph. simpl. rewrite Hb. reflexivity.
Qed.

Lemma build_failure_is_final_witness :
  let g1 := fst (build demo_py (building demo_py [unit_C])) in
  is_built g1 = false /\
  build demo_py g1
  = (g1, Raise (ValueError "ir graph is already built or no nodes were found")).
Proof.
  assert (Hgen : gen_phf demo_py (tmp_nodes (building demo_py [unit_C]))
                 = Ok (?[res], ?[phf]))
    by (vm_compute; reflexivity).
  assert (Hd : dangling_ref (tmp_nodes (building demo_py [unit_C]))).
  { apply dangling_ref_b. vm_compute. reflexivity. }
  pose proof (@build_failure_is_final demo_py (building demo_py [unit_C]) _ _
                eq_refl Hgen Hd) as Hfinal.
  cbv zeta in Hfinal. destruct Hfinal as (_ & Hb & _ & _ & Hagain).
  split; [exact Hb|exact Hagain].
Defined.

(** X13.  [add_node] is not guarded by the built state.  A unit added after a
    successful [build()] makes the building set non-empty again, so [get_fns]
    scans that unit alone and no longer finds the functions of the frozen
    units; the graph stays marked built and [build()] refuses to run. *)
Theorem get_fns_after_late_add
        (py : PyRuntime) (g g' : IRGraph) (u : BaseIR) (path : Path) (item : Symbol) :
  build py g = (g', Ok tt) ->
  path <> mod_path (ir_module u) ->
  let g2 := fst (add_node py g' u) in
  get_fns py g2 path item = Raise (ValueError "item not found in ir node") /\
  is_built g2 = true /\
  nodes g2 = nodes g' /\
  build py g2
  = (g2, Raise (ValueError "ir graph is already built or no nodes were found")).
Proof.
  intros Hbuild Hpath. apply build_ok_inv in Hbuild.
  destruct Hbuild as (_ & _ & res & phf & _ & _ & _ & _ & ->).
  cbv zeta. unfold get_fns, add_node, frozen_graph, build. simpl.
  apply String.eqb_neq in Hpath. rewrite Hpath. repeat split.
Qed.

Lemma get_fns_after_late_add_witness :
  let g := building demo_py [unit_A; unit_B] in
  let g' := fst (build demo_py g) in
  get_fns demo_py g' "src/a" (sym "add")
  = Ok [header "add" ["int"; "int"]; header "add" ["float"; "float"]] /\
  get_fns demo_py (fst (add_node demo_py g' unit_C)) "src/a" (sym "add")
  = Raise (ValueError "item not found in ir node").
Proof.
  intros g g'.
  assert (Hbuild : build demo_py g = (g', Ok tt)) by (vm_compute; reflexivity).
  split; [vm_compute; reflexivity|].
  pose proof (@get_fns_after_late_add demo_py g g' unit_C "src/a" (sym "add") Hbuild)
    as Hlate.
  apply Hlate. discriminate.
Defined.

(** X14.  [FnTable.__contains__] indexes the table by the header's name
    before it looks for the header, so for a header whose name has no entry
    it raises [KeyError] instead of answering [False]; [header in graph]
    therefore raises [KeyError] as soon as the scan meets a unit without
    functions of that name (and without a type name hashing like the header). *)
Theorem header_containment_KeyError
        (py : PyRuntime) (g : IRGraph) (n : IRNode) (rest : list IRNode) (f : FnHeader) :
  tmp_nodes g = n :: rest ->
  TypeTable_contains py (st_type (mod_symbol_table (ir_module (node_ir n))))
                     (PyFnHeader f) = false ->
  dict_get name_hash (st_fn (mod_symbol_table (ir_module (node_ir n))))
           (name_hash (fh_name f)) = None ->
  FnTable_contains py (st_fn (mod_symbol_table (ir_module (node_ir n))))
                   (PyFnHeader f)
  = Raise KeyError /\
  IRNode_contains py n (PyFnHeader f) = Raise KeyError /\
  IRGraph_contains py g (PyFnHeader f) = Raise KeyError.
Proof.
  intros Htmp Htype Hfn.
  assert (Hnode : IRNode_contains py n (PyFnHeader f) = Raise KeyError).
  { unfold IRNode_contains, BaseIRModule_contains, FnTable_contains.
    rewrite Htype, Hfn. reflexivity. }
  split; [unfold FnTable_contains; rewrite Hfn; reflexivity|].
  split; [exact Hnode|].
  unfold IRGraph_contains. rewrite Htmp. simpl. rewrite Hnode. reflexivity.
Qed.

Lemma header_containment_KeyError_witness :
  IRGraph_contains demo_py (building demo_py [unit_B; unit_A])
                   (PyFnHeader (header "add" ["int"; "int"]))
  = Raise KeyError.
Proof.
  pose proof (@header_containment_KeyError demo_py (building demo_py [unit_B; unit_A])
                (IRNode_init demo_py unit_B) [IRNode_init demo_py unit_A]
                (header "add" ["int"; "int"]) eq_refl eq_refl eq_refl)
    as (_ & _ & Hgraph).
  exact Hgraph.
Defined.

(** X15.  [symbol in graph] never raises: it is [True] exactly when some unit
    of the building set has the symbol as a type name or a function name, or
    sits at a path whose hash is the symbol's hash. *)
Theorem symbol_containment (py : PyRuntime) (g : IRGraph) (s : Symbol) :
  IRGraph_contains py g (PySymbol s)
  = Ok (existsb (fun m =>
                   TypeTable_contains py
                     (st_type (mod_symbol_table (ir_module (node_ir m)))) (PySymbol s)
                   || dict_mem name_hash
                        (st_fn (mod_symbol_table (ir_module (node_ir m))))
                        (sym_hash_value s)
                   || (sym_hash_value s =? hash_path py (node_path m)))
                (tmp_nodes g)).
Proof.
  unfold IRGraph_contains. rewrite any_tmp_node_symbol_spec. simpl.
  destruct (existsb _ _); reflexivity.
Qed.

(** ** Lookups by identity and through references *)

Lemma dict_get_set_other {K V : Type} (key_hash : K -> Z) (d : dict K V)
      (k : K) (v : V) (h : Z) :
  key_hash k <> h ->
  dict_get key_hash (dict_set key_hash d k v) h = dict_get key_hash d h.
Proof.
  intros Hne. induction d as [|[k' v'] t IH]; simpl.
  - destruct (Z.eqb_spec (key_hash k) h); [contradiction|reflexivity].
  - destruct (Z.eqb_spec (key_hash k') (key_hash k)) as [E|E]; simpl.
    + destruct (Z.eqb_spec (key_hash k') h); [congruence|reflexivity].
    + destruct (key_hash k' =? h); [reflexivity|exact IH].
Qed.

Lemma name_obj_hash (py : PyRuntime) (k : name) :
  py_hash_obj py (name_obj k) = name_hash k /\ as_name (name_obj k) = Some k.
Proof. destruct k; split; reflexivity. Qed.

(** X16.  On a built graph [get_type] and [get_fn], given an identity with
    the uid of an added node, answer from that node's own tables:
    [get_type] with what its type table has for the symbol ([None] when it
    has nothing), [get_fn] with what its function table's [get] returns or
    raises. *)
Theorem lookup_by_identity
        (py : PyRuntime) (g g' : IRGraph) (n : IRNode) (h : IRHash) (importing : pyobj) :
  build py g = (g', Ok tt) ->
  In n (tmp_nodes g) ->
  irhash_uid h = node_uid n ->
  get_type py h importing g'
  = Ok (TypeTable_get py (st_type (mod_symbol_table (ir_module (node_ir n)))) importing) /\
  get_fn py h importing g'
  = (r <- FnTable_get py (st_fn (mod_symbol_table (ir_module (node_ir n)))) importing ;;
     Ok (Some r)).
Proof.
  intros Hbuild Hin Huid.
  destruct (frozen_getitem py g Hbuild) as (res & phf & _ & _ & _ & Hget).
  unfold get_type, get_fn. rewrite (Hget n h Hin Huid). split; reflexivity.
Qed.

Lemma lookup_by_identity_witness :
  let g := building demo_py [unit_A; unit_B] in
  get_fn demo_py (IRHash_init demo_py "src/a") (PyFnHeader (header "add" ["int"; "int"]))
         (fst (build demo_py g))
  = Ok (Some (FnOne (mkFnDef 1))) /\
  get_type demo_py (IRHash_init demo_py "src/a") (PySymbol (sym "int"))
           (fst (build demo_py g))
  = Ok None.
Proof.
  intros g.
  assert (Hbuild : build demo_py g = (fst (build demo_py g), Ok tt))
    by (vm_compute; reflexivity).
  pose proof (fun importing =>
                @lookup_by_identity demo_py g _ (IRNode_init demo_py unit_A)
                  (IRHash_init demo_py "src/a") importing Hbuild
                  (or_introl eq_refl) eq_refl) as Hlook.
  split.
  - destruct (Hlook (PyFnHeader (header "add" ["int"; "int"]))) as (_ & Hfn).
    rewrite Hfn. reflexivity.
  - destruct (Hlook (PySymbol (sym "int"))) as (Hty & _).
    rewrite Hty. reflexivity.
Defined.

(** X17.  A function reference resolves to the definition of the unit it
    names: when a reference table records header [f] against the path of an
    added unit whose function table has a definition for [f], then on the
    built graph [get_fn], given the identity recorded for [f], returns that
    definition. *)
Theorem get_fn_through_reference
        (py : PyRuntime) (units : list BaseIR) (g g' : IRGraph)
        (defining : BaseIR) (refs : RefFnTable) (f : FnHeader) (d : FnDef) :
  tmp_nodes g = map (IRNode_init py) units ->
  In defining units ->
  FnTable_get py (st_fn (mod_symbol_table (ir_module defining))) (PyFnHeader f)
  = Ok (FnOne d) ->
  build py g = (g', Ok tt) ->
  let refs' := RefFnTable_add_ref py refs f (mod_path (ir_module defining)) in
  exists h,
    RefFnTable_get_irhash refs' f = Ok h /\
    irhash_key h = mod_path (ir_module defining) /\
    get_fn py h (PyFnHeader f) g' = Ok (Some (FnOne d)).
Proof.
  intros Htmp Hin Hdef Hbuild. cbv zeta.
  exists (IRHash_init py (mod_path (ir_module defining))).
  split.
  { unfold RefFnTable_get_irhash, RefFnTable_add_ref.
    rewrite dict_get_set_same. reflexivity. }
  split; [reflexivity|].
  assert (Hnode : In (IRNode_init py defining) (tmp_nodes g)).
  { rewrite Htmp. apply in_map. exact Hin. }
  destruct (frozen_getitem py g Hbuild) as (res & phf & _ & _ & _ & Hget).
  unfold get_fn.
  rewrite (Hget (IRNode_init py defining)
                (IRHash_init py (mod_path (ir_module defining))) Hnode eq_refl).
  cbv [bind]. change (node_ir (IRNode_init py defining)) with defining.
  rewrite Hdef. reflexivity.
Qed.

Lemma get_fn_through_reference_witness :
  let g := building demo_py [unit_A; unit_B] in
  exists h,
    RefFnTable_get_irhash (ref_fns (ir_ref_table unit_B)) (header "add" ["int"; "int"])
    = Ok h /\
    get_fn demo_py h (PyFnHeader (header "add" ["int"; "int"])) (fst (build demo_py g))
    = Ok (Some (FnOne (mkFnDef 1))).
Proof.
  intros g.
  assert (Hbuild : build demo_py g = (fst (build demo_py g), Ok tt))
    by (vm_compute; reflexivity).
  destruct (@get_fn_through_reference demo_py [unit_A; unit_B] g _ unit_A []
              (header "add" ["int"; "int"]) (mkFnDef 1)
              eq_refl (or_introl eq_refl) eq_refl Hbuild)
    as (h & Hh & _ & Hfn).
  exists h. split; [exact Hh|exact Hfn].
Defined.

(** ** Reference tables *)

(** X18.  A reference added with [add_ref] is found again: [get_irhash]
    returns the identity of the recorded path and [get_irpath] the path, for
    type and for function references alike; the latest reference for a name
    replaces an earlier one; references under other names are untouched; and
    a name without a reference raises [KeyError]. *)
Theorem add_ref_lookup
        (py : PyRuntime) (ty : RefTypeTable) (fn : RefFnTable)
        (k : name) (f : FnHeader) (p0 p : Path) :
  RefTypeTable_get_irhash (RefTypeTable_add_ref py ty k p) k = Ok (IRHash_init py p) /\
  RefTypeTable_get_irpath
    (RefTypeTable_add_ref py (RefTypeTable_add_ref py ty k p0) k p) k = Ok p /\
  RefTypeTable_contains py (RefTypeTable_add_ref py ty k p) (name_obj k) = true /\
  (forall k', name_hash k' <> name_hash k ->
     RefTypeTable_get_irhash (RefTypeTable_add_ref py ty k p) k'
     = RefTypeTable_get_irhash ty k') /\
  RefTypeTable_get_irhash [] k = Raise KeyError /\
  RefFnTable_get_irhash (RefFnTable_add_ref py fn f p) f = Ok (IRHash_init py p) /\
  RefFnTable_get_irpath
    (RefFnTable_add_ref py (RefFnTable_add_ref py fn f p0) f p) f = Ok p /\
  RefFnTable_contains py (RefFnTable_add_ref py fn f p) (PyFnHeader f) = true /\
  (forall f', fh_hash_value f' <> fh_hash_value f ->
     RefFnTable_get_irhash (RefFnTable_add_ref py fn f p) f'
     = RefFnTable_get_irhash fn f') /\
  RefFnTable_get_irhash [] f = Raise KeyError.
Proof.
  unfold RefTypeTable_get_irpath, RefTypeTable_get_irhash, RefTypeTable_contains,
    RefTypeTable_add_ref, RefFnTable_get_irpath, RefFnTable_get_irhash,
    RefFnTable_contains, RefFnTable_add_ref, dict_mem.
  rewrite (proj1 (name_obj_hash py k)), !dict_get_set_same.
  repeat split.
  - intros k' Hne. rewrite dict_get_set_other by congruence. reflexivity.
  - intros f' Hne. rewrite dict_get_set_other by congruence. reflexivity.
Qed.

Lemma fold_add_ref_other {K : Type} (key_hash : K -> Z) (py : PyRuntime)
      (l : list (K * Path)) (t : dict K IRHash) (h : Z) :
  (forall kv, In kv l -> key_hash (fst kv) <> h) ->
  dict_get key_hash
           (fold_left (fun t kv => dict_set key_hash t (fst kv) (IRHash_init py (snd kv)))
                      l t) h
  = dict_get key_hash t h.
Proof.
  revert t. induction l as [|[k p] l IH]; simpl; intros t Hall; [reflexivity|].
  rewrite IH by (intros kv Hkv; apply Hall; auto).
  apply dict_get_set_other. apply (Hall (k, p)). auto.
Qed.

Lemma fold_add_ref_in {K : Type} (key_hash : K -> Z) (py : PyRuntime)
      (l : list (K * Path)) (t : dict K IRHash) (k : K) (p : Path) :
  NoDup (map (fun kv => key_hash (fst kv)) l) ->
  In (k, p) l ->
  dict_get key_hash
           (fold_left (fun t kv => dict_set key_hash t (fst kv) (IRHash_init py (snd kv)))
                      l t) (key_hash k)
  = Some (IRHash_init py p).
Proof.
  revert t. induction l as [|[k0 p0] l IH]; simpl; intros t Hnd Hin; [contradiction|].
  inversion Hnd as [|? ? Hnotin Hnd']; subst.
  destruct Hin as [E|Hin].
  - inversion E; subst k0 p0.
    rewrite fold_add_ref_other; [apply dict_get_set_same|].
    intros kv Hkv Heq. apply Hnotin. rewrite <- Heq.
    apply (in_map (fun kv => key_hash (fst kv)) _ _ Hkv).
  - apply IH; assumption.
Qed.

(** X19.  [build_reftable] turns a mapping of type names to paths and a
    mapping of headers to paths into a reference table in which every key of
    either mapping resolves to its path, and every other name raises
    [KeyError]; called with nothing it gives the empty table. *)
Theorem build_reftable_lookup
        (py : PyRuntime) (types : list (name * Path)) (fns : list (FnHeader * Path)) :
  NoDup (map (fun kv => name_hash (fst kv)) types) ->
  NoDup (map (fun kv => fh_hash_value (fst kv)) fns) ->
  let rt := build_reftable py types fns in
  (forall k p, In (k, p) types -> RefTypeTable_get_irpath (ref_types rt) k = Ok p) /\
  (forall f p, In (f, p) fns -> RefFnTable_get_irpath (ref_fns rt) f = Ok p) /\
  (forall k, (forall kv, In kv types -> name_hash (fst kv) <> name_hash k) ->
             RefTypeTable_get_irhash (ref_types rt) k = Raise KeyError) /\
  (forall f, (forall kv, In kv fns -> fh_hash_value (fst kv) <> fh_hash_value f) ->
             RefFnTable_get_irhash (ref_fns rt) f = Raise KeyError) /\
  build_reftable py [] [] = RefTable_init.
Proof.
  intros Hty Hfn. cbv zeta.
  unfold build_reftable, RefTypeTable_get_irpath, RefFnTable_get_irpath,
    RefTypeTable_get_irhash, RefFnTable_get_irhash, RefTypeTable_add_ref,
    RefFnTable_add_ref. simpl. unfold RefTypeTable, RefFnTable.
  split; [|split; [|split; [|split]]].
  - intros k p Hin. rewrite (fold_add_ref_in name_hash py types [] k p Hty Hin).
    reflexivity.
  - intros f p Hin. rewrite (fold_add_ref_in fh_hash_value py fns [] f p Hfn Hin).
    reflexivity.
  - intros k Hout. rewrite fold_add_ref_other by exact Hout. reflexivity.
  - intros f Hout. rewrite fold_add_ref_other by exact Hout. reflexivity.
  - reflexivity.
Qed.

Lemma build_reftable_lookup_witness :
  let rt := build_reftable demo_py
              [(NSymbol (sym "point"), "src/geometry"); (NSymbol (sym "line"), "src/geometry")]
              [(header "add" ["int"; "int"], "src/a")] in
  RefTypeTable_get_irpath (ref_types rt) (NSymbol (sym "line")) = Ok "src/geometry" /\
  RefFnTable_get_irpath (ref_fns rt) (header "add" ["int"; "int"]) = Ok "src/a".
Proof.
  intros rt.
  assert (Hty : NoDup (map (fun kv : name * Path => name_hash (fst kv))
                           [(NSymbol (sym "point"), "src/geometry");
                            (NSymbol (sym "line"), "src/geometry")])).
  { repeat constructor; simpl; intuition discriminate. }
  assert (Hfn : NoDup (map (fun kv : FnHeader * Path => fh_hash_value (fst kv))
                           [(header "add" ["int"; "int"], "src/a")])).
  { repeat constructor; simpl; intuition. }
  pose proof (@build_reftable_lookup demo_py _ _ Hty Hfn) as (Ht & Hf & _).
  split.
  - apply Ht. right. left. reflexivity.
  - apply Hf. left. reflexivity.
Defined.

(** ** Type and function tables *)

Lemma dict_mem_keys {K V : Type} (key_hash : K -> Z) (d : dict K V) (h : Z) :
  dict_mem key_hash d h = true <-> In h (map key_hash (dict_keys d)).
Proof.
  unfold dict_mem, dict_keys. induction d as [|[k v] t IH]; simpl.
  - split; [discriminate|contradiction].
  - destruct (Z.eqb_spec (key_hash k) h) as [E|E].
    + split; auto.
    + rewrite IH. split; [auto|]. intros [E'|Hin]; [contradiction|exact Hin].
Qed.

Lemma TypeTable_add_get_step (py : PyRuntime) (t : TypeTable) (k : name) (d : TypeDef)
      (h : Z) :
  dict_get name_hash (fst (TypeTable_add py t (name_obj k) (PyTypeDef d))) h
  = match dict_get name_hash t h with
    | Some v => Some v
    | None => if name_hash k =? h then Some d else None
    end.
Proof.
  unfold TypeTable_add, TypeTable_contains.
  destruct (name_obj_hash py k) as (Eh & En). rewrite En, Eh.
  unfold dict_mem.
  destruct (dict_get name_hash t (name_hash k)) as [v0|] eqn:Ek; simpl.
  - destruct (dict_get name_hash t h) eqn:E; [reflexivity|].
    destruct (Z.eqb_spec (name_hash k) h); [congruence|reflexivity].
  - destruct (Z.eqb_spec (name_hash k) h) as [E|E].
    + subst h. rewrite dict_get_set_same, Ek. reflexivity.
    + rewrite dict_get_set_other by exact E.
      destruct (dict_get name_hash t h); reflexivity.
Qed.

Lemma TypeTable_add_keys_step (py : PyRuntime) (t : TypeTable) (k : name) (d : TypeDef) :
  NoDup (map name_hash (dict_keys t)) ->
  NoDup (map name_hash (dict_keys (fst (TypeTable_add py t (name_obj k) (PyTypeDef d))))) /\
  (length (fst (TypeTable_add py t (name_obj k) (PyTypeDef d))) <= S (length t))%nat.
Proof.
  intros Hnd. unfold TypeTable_add, TypeTable_contains.
  destruct (name_obj_hash py k) as (Eh & En). rewrite En, Eh.
  destruct (dict_mem name_hash t (name_hash k)) eqn:M; simpl.
  - split; [exact Hnd|lia].
  - rewrite dict_set_absent by exact M. unfold dict_keys.
    rewrite !map_app, length_app. simpl. split; [|lia].
    apply NoDup_app; [exact Hnd|repeat constructor; simpl; tauto|].
    intros h Hin [<-|[]].
    apply (dict_mem_keys name_hash t) in Hin. congruence.
Qed.

Lemma TypeTable_add_all_spec (py : PyRuntime) (adds : list (name * TypeDef)) :
  forall (t : TypeTable) (h : Z),
    NoDup (map name_hash (dict_keys t)) ->
    dict_get name_hash (TypeTable_add_all py adds t) h
    = match dict_get name_hash t h with
      | Some v => Some v
      | None => option_map snd (find (fun kv => name_hash (fst kv) =? h) adds)
      end /\
    NoDup (map name_hash (dict_keys (TypeTable_add_all py adds t))) /\
    (length (TypeTable_add_all py adds t) <= length t + length adds)%nat.
Proof.
  induction adds as [|[k d] adds IH]; intros t h Hnd; simpl.
  - split; [destruct (dict_get name_hash t h); reflexivity|]. split; [exact Hnd|lia].
  - destruct (TypeTable_add_keys_step py t k d Hnd) as (Hnd' & Hlen').
    destruct (IH _ h Hnd') as (Hget & Hnd'' & Hlen'').
    unfold TypeTable_add_all in *. simpl.
    split; [|split; [exact Hnd''|lia]].
    rewrite Hget, TypeTable_add_get_step.
    destruct (dict_get name_hash t h); [reflexivity|].
    destruct (name_hash k =? h); reflexivity.
Qed.

(** X20.  In a type table filled by a run of [add] calls the first definition
    given for a name stays: [get] returns the definition of the first call
    whose name equals (by hash) the one asked for, and [None] if there is
    none; no two keys of the table are equal, and the table is no longer than
    the run. *)
Theorem TypeTable_first_definition_wins
        (py : PyRuntime) (adds : list (name * TypeDef)) (key : pyobj) :
  let t := TypeTable_add_all py adds [] in
  TypeTable_get py t key
  = option_map snd (find (fun kv => name_hash (fst kv) =? py_hash_obj py key) adds) /\
  NoDup (map name_hash (dict_keys t)) /\
  TypeTable_len t <= Z.of_nat (length adds).
Proof.
  cbv zeta.
  destruct (TypeTable_add_all_spec py adds [] (py_hash_obj py key) (NoDup_nil _))
    as (Hget & Hnd & Hlen).
  split; [exact Hget|]. split; [exact Hnd|].
  unfold TypeTable_len. simpl in Hlen. lia.
Qed.

Lemma FnTable_get_add_same (py : PyRuntime) (t : FnTable) (f : FnHeader) (d : FnDef) :
  FnTable_get py (FnTable_add t f d) (PyFnHeader f) = Ok (FnOne d).
Proof.
  unfold FnTable_get, FnTable_add.
  destruct (dict_get name_hash t (name_hash (fh_name f))) as [o|];
    rewrite dict_get_set_same.
  - rewrite dict_get_set_same. reflexivity.
  - simpl. rewrite Z.eqb_refl. reflexivity.
Qed.

(** X21.  In a function table the latest definition given for a signature
    wins: after [add(f, d)], [get(f)] returns [d] whatever the table held
    for [f] before, [f] and its name are in the table, signatures under other
    names answer as before, and so do the other signatures of the same name
    when the name was already there. *)
Theorem FnTable_latest_definition_wins
        (py : PyRuntime) (t : FnTable) (f : FnHeader) (d : FnDef) :
  FnTable_get py (FnTable_add t f d) (PyFnHeader f) = Ok (FnOne d) /\
  FnTable_contains py (FnTable_add t f d) (PyFnHeader f) = Ok true /\
  FnTable_contains py (FnTable_add t f d) (name_obj (fh_name f)) = Ok true /\
  (forall g, name_hash (fh_name g) <> name_hash (fh_name f) ->
     FnTable_get py (FnTable_add t f d) (PyFnHeader g) = FnTable_get py t (PyFnHeader g)) /\
  (forall g, name_hash (fh_name g) = name_hash (fh_name f) ->
     fh_hash_value g <> fh_hash_value f ->
     dict_mem name_hash t (name_hash (fh_name f)) = true ->
     FnTable_get py (FnTable_add t f d) (PyFnHeader g) = FnTable_get py t (PyFnHeader g)).
Proof.
  split; [apply FnTable_get_add_same|].
  split.
  { unfold FnTable_contains, FnTable_add, dict_mem.
    destruct (dict_get name_hash t (name_hash (fh_name f))) as [o|];
      rewrite dict_get_set_same.
    - rewrite dict_get_set_same. reflexivity.
    - simpl. rewrite Z.eqb_refl. reflexivity. }
  split.
  { assert (Hmem : dict_mem name_hash (FnTable_add t f d) (name_hash (fh_name f)) = true).
    { unfold dict_mem, FnTable_add.
      destruct (dict_get name_hash t (name_hash (fh_name f)));
        rewrite dict_get_set_same; reflexivity. }
    unfold FnTable_contains.
    destruct (fh_name f); simpl in *; rewrite Hmem; reflexivity. }
  split.
  - intros g Hne. unfold FnTable_get, FnTable_add.
    destruct (dict_get name_hash t (name_hash (fh_name f)));
      rewrite dict_get_set_other by congruence; reflexivity.
  - intros g Hname Hsig Hmem. unfold FnTable_get, FnTable_add, dict_mem in *.
    rewrite Hname.
    destruct (dict_get name_hash t (name_hash (fh_name f))) as [o|];
      [|discriminate Hmem].
    rewrite dict_get_set_same, dict_get_set_other by congruence. reflexivity.
Qed.

Lemma FnTable_len_set (t : FnTable) (k : name) (v : dict FnHeader FnDef) :
  FnTable_len (dict_set name_hash t k v)
  = FnTable_len t + Z.of_nat (length v)
    - match dict_get name_hash t (name_hash k) with
      | Some old => Z.of_nat (length old)
      | None => 0
      end.
Proof.
  induction t as [|[k' v'] t IH]; simpl.
  - lia.
  - destruct (name_hash k' =? name_hash k); simpl; [lia|].
    unfold FnTable_len in *. simpl. rewrite IH. lia.
Qed.

(** X22.  The length of a function table counts signatures, not names: it is
    0 for the empty table, it is the number of pairs the table iterates over,
    and [add] raises it by one for a new signature and leaves it for a
    signature that is already there. *)
Theorem FnTable_len_counts_signatures (t : FnTable) (f : FnHeader) (d : FnDef) :
  FnTable_len [] = 0 /\
  FnTable_len t = Z.of_nat (length (FnTable_iter t)) /\
  FnTable_len (FnTable_add t f d)
  = (if has_overload t f then FnTable_len t else FnTable_len t + 1).
Proof.
  split; [reflexivity|]. split.
  - unfold FnTable_len, FnTable_iter. induction t as [|[k v] t IH]; simpl.
    + reflexivity.
    + rewrite length_app, IH. lia.
  - unfold FnTable_add, has_overload.
    destruct (dict_get name_hash t (name_hash (fh_name f))) as [o|] eqn:Eo;
      rewrite FnTable_len_set, Eo.
    + destruct (dict_mem fh_hash_value o (fh_hash_value f)) eqn:M.
      * assert (E : length (dict_set fh_hash_value o f d) = length o).
        { rewrite <- (length_map fst), <- (length_map fst o).
          change (map fst (dict_set fh_hash_value o f d))
            with (dict_keys (dict_set fh_hash_value o f d)).
          rewrite dict_keys_set_present by exact M. reflexivity. }
        rewrite E. lia.
      * rewrite dict_set_absent by exact M. rewrite length_app. simpl. lia.
    + simpl. lia.
Qed.

(** X23.  A header turned into a definition header by [transform] still
    equals the header, and [FnTable.add] given the definition header stores
    the definition under the plain header: [get] with the header finds it. *)
Theorem header_def_round_trip
        (py : PyRuntime) (t : FnTable) (fn_name fn_type : name)
        (args_types : list name) (args_names : list Symbol) (d : FnDef) :
  let f := FnHeader_init py fn_name args_types in
  let fd := FnHeader_transform py f fn_type args_names in
  FnHeaderDef_eq_header fd f = true /\
  fhd_args_names fd = args_names /\
  FnTable_add_def py t fd d = FnTable_add t f d /\
  FnTable_get py (FnTable_add_def py t fd d) (PyFnHeader f) = Ok (FnOne d).
Proof.
  cbv zeta. split; [apply Z.eqb_refl|]. split; [reflexivity|].
  split; [reflexivity|]. apply FnTable_get_add_same.
Qed.

(** X24.  [check_args_types] answers [True] exactly when it is given as many
    values as the header has argument types and each value equals (by hash)
    the type at its position; in particular it accepts the header's own
    argument types. *)
Theorem check_args_types_spec (f : FnHeader) (values : list name) :
  (FnHeader_check_args_types f values = true <->
   map name_hash values = map name_hash (fh_args_types f)) /\
  FnHeader_check_args_types f (fh_args_types f) = true.
Proof.
  assert (Hiff : forall vs ts : list name,
             (length vs =? length ts)%nat &&
             forallb (fun kv => name_hash (fst kv) =? name_hash (snd kv)) (combine vs ts)
             = true <-> map name_hash vs = map name_hash ts).
  { induction vs as [|v vs IH]; intros [|t ts]; simpl.
    - tauto.
    - split; discriminate.
    - split; discriminate.
    - rewrite !andb_true_iff. split.
      + intros (E1 & E2 & E3). apply Z.eqb_eq in E2. f_equal; [exact E2|].
        apply IH. rewrite andb_true_iff. auto.
      + intros E. inversion E as [[Eh Et]]. apply IH in Et.
        apply andb_true_iff in Et. destruct Et as (E1 & E3).
        repeat split; auto. apply Z.eqb_eq. congruence. }
  split; [apply Hiff|]. apply Hiff. reflexivity.
Qed.

Lemma dict_mem_existsb {K V : Type} (key_hash : K -> Z) (d : dict K V) (h : Z) :
  dict_mem key_hash d h = existsb (fun k => key_hash k =? h) (dict_keys d).
Proof.
  unfold dict_mem, dict_keys. induction d as [|[k v] t IH]; simpl; [reflexivity|].
  destruct (key_hash k =? h); [reflexivity|exact IH].
Qed.

Lemma overload_keys_add_other (t : FnTable) (f : FnHeader) (d : FnDef) (k : name) :
  name_hash (fh_name f) <> name_hash k ->
  overload_keys (FnTable_add t f d) k = overload_keys t k.
Proof.
  intros Hne. unfold overload_keys, FnTable_add.
  destruct (dict_get name_hash t (name_hash (fh_name f)));
    rewrite dict_get_set_other by exact Hne; reflexivity.
Qed.

Lemma overload_keys_add_same (t : FnTable) (f : FnHeader) (d : FnDef) (k : name) :
  name_hash (fh_name f) = name_hash k ->
  overload_keys (FnTable_add t f d) k
  = if existsb (fun g => fh_hash_value g =? fh_hash_value f) (overload_keys t k)
    then overload_keys t k else overload_keys t k ++ [f].
Proof.
  intros Heq.
  assert (Ek : forall t0, overload_keys t0 k = overload_keys t0 (fh_name f))
    by (intros t0; unfold overload_keys; rewrite Heq; reflexivity).
  rewrite !Ek, FnTable_add_keys. unfold has_overload, overload_keys.
  destruct (dict_get name_hash t (name_hash (fh_name f))) as [o|]; [|reflexivity].
  rewrite dict_mem_existsb. reflexivity.
Qed.

(** X25.  In a function table filled by a run of [add] calls, the signatures
    filed under a name are exactly the headers of that name in the run, each
    once, in the order in which the run first gave them; headers of other
    names never show up there. *)
Theorem FnTable_overloads_in_insertion_order
        (adds : list (FnHeader * FnDef)) (k : name) :
  overload_keys (FnTable_add_all adds []) k
  = first_occurrences []
      (filter (fun f => name_hash (fh_name f) =? name_hash k) (map fst adds)).
Proof.
  assert (Hgen : forall t,
             overload_keys (FnTable_add_all adds t) k
             = first_occurrences (overload_keys t k)
                 (filter (fun f => name_hash (fh_name f) =? name_hash k) (map fst adds))).
  { induction adds as [|[f d] adds IH]; intros t; simpl; [reflexivity|].
    unfold FnTable_add_all in *. simpl. rewrite IH.
    destruct (Z.eqb_spec (name_hash (fh_name f)) (name_hash k)) as [E|E].
    - unfold first_occurrences. simpl. rewrite (overload_keys_add_same t f d k E).
      reflexivity.
    - rewrite (overload_keys_add_other t f d k E). reflexivity. }
  rewrite Hgen. reflexivity.
Qed.

(** X26.  Indexing a [NodeSet] by an integer is positional, as for a tuple:
    an index from 0 up to the length gives the element there, a negative
    index down to minus the length counts from the end, and any other index
    raises [IndexError]; no PHF is needed. *)
Theorem NodeSet_getitem_positional (ns : NodeSet) (i : Z) :
  let len := NodeSet_len ns in
  (0 <= i < len ->
   exists e, nth_error (ns_data ns) (Z.to_nat i) = Some e /\
             NodeSet_getitem ns (PyInt i) = Ok e) /\
  (- len <= i < 0 ->
   NodeSet_getitem ns (PyInt i) = NodeSet_getitem ns (PyInt (i + len))) /\
  (len <= i \/ i < - len -> NodeSet_getitem ns (PyInt i) = Raise IndexError).
Proof.
  cbv zeta. unfold NodeSet_len, NodeSet_getitem, py_getitem, norm_index.
  split; [|split].
  - intros Hi. destruct (Z.ltb_spec i 0); [lia|].
    destruct (Z.ltb_spec i 0); [lia|].
    destruct (nth_error (ns_data ns) (Z.to_nat i)) as [e|] eqn:E; [eauto|].
    apply nth_error_None in E. lia.
  - intros Hi. destruct (Z.ltb_spec i 0); [|lia].
    destruct (Z.ltb_spec (i + Z.of_nat (length (ns_data ns))) 0); [lia|].
    destruct (Z.ltb_spec (i + Z.of_nat (length (ns_data ns))) 0); [lia|].
    reflexivity.
  - intros [Hi|Hi].
    + destruct (Z.ltb_spec i 0); [lia|]. destruct (Z.ltb_spec i 0); [lia|].
      destruct (nth_error (ns_data ns) (Z.to_nat i)) as [e|] eqn:E; [|reflexivity].
      assert (Hlt : (Z.to_nat i < length (ns_data ns))%nat)
        by (apply nth_error_Some; congruence).
      lia.
    + destruct (Z.ltb_spec i 0); [|lia].
      destruct (Z.ltb_spec (i + Z.of_nat (length (ns_data ns))) 0); [reflexivity|lia].
Qed.

(** X27.  [build()] succeeds exactly when the graph is not built yet, has at
    least one added node, has some collision-free candidate [(a, r)] within
    the search limits for its nodes, and has no reference to an absent
    identity; it then returns the graph frozen, with the building set empty
    and the entry identity kept. *)
Theorem build_succeeds_iff (py : PyRuntime) (g : IRGraph) :
  let n := Z.of_nat (length (tmp_nodes g)) in
  ((exists g', build py g = (g', Ok tt)) <->
   is_built g = false /\ tmp_nodes g <> [] /\
   (exists a r, 1 <= a < PHF_A_LIMIT /\ 0 <= r < PHF_R_LIMIT py /\
                collision_free (tmp_nodes g) n a r (get_phf_prime n)) /\
   ~ dangling_ref (tmp_nodes g)) /\
  (forall g', build py g = (g', Ok tt) ->
     is_built g' = true /\ tmp_nodes g' = [] /\ main_node g' = main_node g /\
     exists res, Permutation res (tmp_nodes g) /\ ns_data (nodes g') = map PyIRNode res).
Proof.
  cbv zeta. split.
  - split.
    + intros (g' & Hbuild). apply build_ok_inv in Hbuild.
      destruct Hbuild as (Hb & Ht & res & phf & Hgen & Hok & Hperm & _ & _).
      split; [exact Hb|]. split; [exact Ht|].
      pose proof (gen_phf_sound _ _ Hgen) as Hs. cbv zeta in Hs.
      destruct Hs as (_ & _ & Ha & Hr & _ & Hcf & _).
      split; [exists (phf_a phf), (phf_r phf); auto|].
      intros Hd. apply (dangling_ref_perm (Permutation_sym Hperm)) in Hd.
      apply dangling_ref_b in Hd. congruence.
    + intros (Hb & Ht & (a & r & Ha & Hr & Hcf) & Hnd).
      destruct (build_cases py g)
        as [([Hb'|Ht'] & _)|(_ & _ & [(e & Hgen & _)|(res & phf & Hgen & Hcases)])].
      * congruence.
      * contradiction.
      * exfalso.
        pose proof (@gen_phf_raise_inv _ _ py _ e Hgen a r Ha Hr) as Hnone.
        pose proof (get_phf_prime_pos (Z.of_nat (length (tmp_nodes g)))) as Hprime.
        pose proof (@gen_res_nonempty_iff _ _ (tmp_nodes g) a r
                      (get_phf_prime (Z.of_nat (length (tmp_nodes g)))) Ht
                      ltac:(lia) ltac:(lia)) as Hiff.
        cbv zeta in Hiff. destruct Hiff as (_ & _ & Hno & _).
        apply (Hno Hnone (IRNode_none_free _) Hcf).
      * destruct Hcases as [(_ & E)|(Hbad & _)]; [eauto|].
        exfalso. apply Hnd.
        assert (Hperm : Permutation res (tmp_nodes g)).
        { pose proof (gen_phf_sound _ _ Hgen) as Hs. cbv zeta in Hs. tauto. }
        apply (dangling_ref_perm Hperm). apply dangling_ref_b. exact Hbad.
  - intros g' Hbuild. apply build_ok_inv in Hbuild.
    destruct Hbuild as (_ & _ & res & phf & _ & _ & Hperm & _ & ->).
    repeat split. exists res. split; [exact Hperm|reflexivity].
Qed.
